(** * Jira command-line tools: link, transition and view

    A shallow embedding of the three scripts

      - jira-tools/scripts/link_ticket.py        (class JiraLinker)
      - orases-tools/scripts/transition_ticket.py (class JiraTransitioner)
      - jira-tools/scripts/view_ticket.py         (class JiraViewer)

    and the properties of their resolution, directionality and request
    behaviour.

    Conventions of the embedding.

      - A value obtained from [json.loads] is a [json] tree.  A dict is an
        association list read from the left (a key occurs once); numbers are
        the integers (the fields read here hold no floats).
      - A Python [str] is a [string]; one [ascii] stands for one character,
        so [len], slicing and [lower] are exact on ASCII text.
      - A computation that can raise returns an [outcome]; [sys.exit] is an
        outcome of its own because [except Exception] does not catch it.
      - A method that talks to the server or prints is a function from the
        server's state to an outcome, the next state and the events (requests
        sent, lines printed) it produced, in order.  The server is a parameter:
        any state type with any [urlopen] behaviour. *)

From Stdlib Require Import String Ascii List ZArith Lia Bool Arith DecimalString.
Import ListNotations.
Open Scope string_scope.

(** ** Python values and built-ins *)

Module Py.

#[local] Set Warnings "-register-all".

Inductive json : Type :=
| JNull
| JBool (b : bool)
| JNum (n : Z)
| JStr (s : string)
| JArr (xs : list json)
| JObj (kvs : list (string * json)).

(** Exceptions the scripts can meet.  [Failure] is the plain
    [Exception(f"HTTP {code}: {msg}")] raised by [_make_request]. *)
Inductive exn : Type :=
| Failure (msg : string)
| KeyError (key : string)
| IndexError
| TypeError
| AttributeError
| JSONDecodeError
| UnicodeDecodeError
| URLError (reason : string).

Inductive outcome (A : Type) : Type :=
| Ret (a : A)
| Raise (e : exn)
| SysExit (code : Z).
Arguments Ret {A} a.
Arguments Raise {A} e.
Arguments SysExit {A} code.

Definition obind {A B} (o : outcome A) (k : A -> outcome B) : outcome B :=
  match o with
  | Ret a => k a
  | Raise e => Raise e
  | SysExit c => SysExit c
  end.

Declare Scope py_scope.
Delimit Scope py_scope with py.
Notation "x <~ o ;; k" := (obind o (fun x => k))
  (at level 61, o at next level, right associativity) : py_scope.
Open Scope py_scope.

(** [try: body  except: handler] around a computation that does not exit. *)
Definition try_bare {A} (body : outcome A) (handler : outcome A) : outcome A :=
  match body with
  | Raise _ => handler
  | other => other
  end.

(** *** Strings *)

Definition lower_char (c : ascii) : ascii :=
  let n := nat_of_ascii c in
  if andb (65 <=? n)%nat (n <=? 90)%nat then ascii_of_nat (n + 32) else c.

(** [s.lower()] on ASCII text. *)
Fixpoint lower (s : string) : string :=
  match s with
  | EmptyString => EmptyString
  | String c r => String (lower_char c) (lower r)
  end.

(** [needle in hay] for two strings. *)
Fixpoint contains (needle hay : string) : bool :=
  if String.prefix needle hay then true
  else match hay with
       | EmptyString => false
       | String _ r => contains needle r
       end.

(** [s[:n]] for [0 <= n]. *)
Fixpoint take (n : nat) (s : string) : string :=
  match n, s with
  | S n', String c r => String c (take n' r)
  | _, _ => EmptyString
  end.

(** [xs[-n:]] for a list and [0 < n]. *)
Definition last_n {A} (n : nat) (xs : list A) : list A :=
  skipn (length xs - n) xs.

Definition str_of_nat (n : nat) : string :=
  NilZero.string_of_uint (Nat.to_uint n).

Definition str_of_Z (z : Z) : string :=
  NilZero.string_of_int (Z.to_int z).

(** *** Dicts, lists and their operators *)

Fixpoint assoc (k : string) (kvs : list (string * json)) : option json :=
  match kvs with
  | [] => None
  | (k', v) :: r => if String.eqb k k' then Some v else assoc k r
  end.

(** [d[k]] with a string key. *)
Definition getitem (d : json) (k : string) : outcome json :=
  match d with
  | JObj kvs =>
      match assoc k kvs with
      | Some v => Ret v
      | None => Raise (KeyError k)
      end
  | _ => Raise TypeError
  end.

(** [d.get(k, default)]. *)
Definition get (d : json) (k : string) (default : json) : outcome json :=
  match d with
  | JObj kvs =>
      match assoc k kvs with
      | Some v => Ret v
      | None => Ret default
      end
  | _ => Raise AttributeError
  end.

(** [x[0]]. *)
Definition first (x : json) : outcome json :=
  match x with
  | JArr (v :: _) => Ret v
  | JArr [] => Raise IndexError
  | JStr (String c _) => Ret (JStr (String c EmptyString))
  | JStr EmptyString => Raise IndexError
  | JObj _ => Raise (KeyError "0")
  | _ => Raise TypeError
  end.

(** [==] on values. *)
Fixpoint eq (a b : json) {struct a} : bool :=
  match a, b with
  | JNull, JNull => true
  | JBool x, JBool y => Bool.eqb x y
  | JBool x, JNum n | JNum n, JBool x => Z.eqb n (if x then 1 else 0)
  | JNum x, JNum y => Z.eqb x y
  | JStr x, JStr y => String.eqb x y
  | JArr xs, JArr ys =>
      (fix all2 (l : list json) (r : list json) {struct l} : bool :=
         match l, r with
         | [], [] => true
         | x :: l', y :: r' => andb (eq x y) (all2 l' r')
         | _, _ => false
         end) xs ys
  | JObj kvs, JObj kvs' =>
      andb (Nat.eqb (length kvs) (length kvs'))
        ((fix sub (l : list (string * json)) {struct l} : bool :=
            match l with
            | [] => true
            | (k, v) :: l' =>
                andb (match assoc k kvs' with
                      | Some v' => eq v v'
                      | None => false
                      end) (sub l')
            end) kvs)
  | _, _ => false
  end.

(** [k in x] for a string [k]. *)
Definition has_key (k : string) (x : json) : outcome bool :=
  match x with
  | JObj kvs => Ret (match assoc k kvs with Some _ => true | None => false end)
  | JArr xs => Ret (existsb (eq (JStr k)) xs)
  | JStr s => Ret (contains k s)
  | _ => Raise TypeError
  end.

(** Truth value of [x] in [if x:]. *)
Definition truthy (x : json) : bool :=
  match x with
  | JNull => false
  | JBool b => b
  | JNum n => negb (Z.eqb n 0)
  | JStr s => negb (String.eqb s "")
  | JArr xs => match xs with [] => false | _ => true end
  | JObj kvs => match kvs with [] => false | _ => true end
  end.

Fixpoint chars (s : string) : list json :=
  match s with
  | EmptyString => []
  | String c r => JStr (String c EmptyString) :: chars r
  end.

(** The items [for v in x:] visits. *)
Definition iter (x : json) : outcome (list json) :=
  match x with
  | JArr xs => Ret xs
  | JObj kvs => Ret (map (fun kv => JStr (fst kv)) kvs)
  | JStr s => Ret (chars s)
  | _ => Raise TypeError
  end.

(** [x.lower()]. *)
Definition lower_of (x : json) : outcome string :=
  match x with
  | JStr s => Ret (lower s)
  | _ => Raise AttributeError
  end.

(** [len(x)]. *)
Definition len (x : json) : outcome nat :=
  match x with
  | JArr xs => Ret (length xs)
  | JObj kvs => Ret (length kvs)
  | JStr s => Ret (String.length s)
  | _ => Raise TypeError
  end.

(** [str(x)] and [f"{x}"].  Python prints a list or a dict through [repr],
    whose text is not modelled: it is the parameter [repr]. *)
Definition str (repr : json -> string) (x : json) : string :=
  match x with
  | JStr s => s
  | JNum n => str_of_Z n
  | JBool true => "True"
  | JBool false => "False"
  | JNull => "None"
  | JArr _ | JObj _ => repr x
  end.

(** [for x in xs: ... return ...]: the first item on which the body returns
    ends the loop; an exception in the body ends it too. *)
Fixpoint for_return {A B} (body : A -> outcome (option B)) (xs : list A)
  : outcome (option B) :=
  match xs with
  | [] => Ret None
  | x :: r =>
      match body x with
      | Ret None => for_return body r
      | other => other
      end
  end.

(** [enumerate(xs, start)]. *)
Fixpoint enumerate {A} (start : nat) (xs : list A) : list (nat * A) :=
  match xs with
  | [] => []
  | x :: r => (start, x) :: enumerate (S start) r
  end.

(** [s.replace(old, "")] for a non-empty [old]: the occurrences of [old],
    found from the left without overlap, are dropped.  [skip] counts the
    characters of an occurrence still to drop. *)
Fixpoint remove_from (old : string) (skip : nat) (s : string) : string :=
  match s with
  | EmptyString => EmptyString
  | String c r =>
      match skip with
      | S k => remove_from old k r
      | O => if String.prefix old s
             then remove_from old (String.length old - 1) r
             else String c (remove_from old 0 r)
      end
  end.

Definition remove_all (old s : string) : string := remove_from old 0 s.

(** Whether [s.encode("ascii")] succeeds. *)
Fixpoint is_ascii (s : string) : bool :=
  match s with
  | EmptyString => true
  | String c r => andb (nat_of_ascii c <? 128)%nat (is_ascii r)
  end.

(** [sep.join(xs)] for a list of values: every item must be a string. *)
Fixpoint join_values (sep : string) (xs : list json) : outcome string :=
  match xs with
  | [] => Ret ""
  | JStr x :: r =>
      match r with
      | [] => Ret x
      | _ => obind (join_values sep r) (fun rest => Ret (x ++ sep ++ rest))
      end
  | _ => Raise TypeError
  end.

(** [[f(v) for v in xs]]. *)
Fixpoint comprehension {A B} (f : A -> outcome B) (xs : list A) : outcome (list B) :=
  match xs with
  | [] => Ret []
  | x :: r =>
      obind (f x) (fun y => obind (comprehension f r) (fun ys => Ret (y :: ys)))
  end.

End Py.

(** ** Requests, printing and control *)

Module IO.
Import Py.

Inductive method : Type := GET | POST | DELETE.

Record request : Type := mkRequest {
  url : string;
  meth : method;
  headers : list (string * string);
  data : option json           (* the value handed to [json.dumps] *)
}.

(** The bytes of a body, kept as what [decode("utf-8")] and [json.loads] make
    of them: [Json j] when the text parses to [j], [Text s] when [json.loads]
    raises on the text [s] (the empty text among them), [Garbled] when the
    bytes are not UTF-8 and [decode] itself raises. *)
Inductive body : Type :=
| Text (s : string)
| Json (j : json)
| Garbled.

(** What [urlopen] does with a request: it returns a response, raises
    [HTTPError] (any status that is not a success), or fails to connect. *)
Inductive reply : Type :=
| Response (status : Z) (b : body)
| HTTPError (code : Z) (msg : string) (b : body)
| NoConnection (reason : string).

Inductive event : Type :=
| Sent (r : request)
| Stdout (line : string)
| StderrExc (prefix : string) (e : exn).   (* print(f"{prefix}{e}", file=sys.stderr) *)

Definition io (St A : Type) : Type := St -> outcome A * St * list event.

Definition ret {St A} (a : A) : io St A := fun s => (Ret a, s, []).

Definition bind {St A B} (m : io St A) (k : A -> io St B) : io St B :=
  fun s =>
    match m s with
    | (Ret a, s1, t1) =>
        match k a s1 with
        | (o, s2, t2) => (o, s2, (t1 ++ t2)%list)
        end
    | (Raise e, s1, t1) => (Raise e, s1, t1)
    | (SysExit c, s1, t1) => (SysExit c, s1, t1)
    end.

Definition lift {St A} (o : outcome A) : io St A := fun s => (o, s, []).

Definition print {St} (line : string) : io St unit :=
  fun s => (Ret tt, s, [Stdout line]).

Definition eprint_exc {St} (prefix : string) (e : exn) : io St unit :=
  fun s => (Ret tt, s, [StderrExc prefix e]).

Definition sys_exit {St A} (code : Z) : io St A :=
  fun s => (SysExit code, s, []).

(** [try: body  except Exception as e: handler e].  [SystemExit] passes. *)
Definition try_except {St A} (m : io St A) (handler : exn -> io St A) : io St A :=
  fun s =>
    match m s with
    | (Raise e, s1, t1) =>
        match handler e s1 with
        | (o, s2, t2) => (o, s2, (t1 ++ t2)%list)
        end
    | other => other
    end.

Declare Scope io_scope.
Delimit Scope io_scope with io.
Notation "x <- m ;; k" := (bind m (fun x => k))
  (at level 61, m at next level, right associativity) : io_scope.
Notation "m ;; k" := (bind m (fun _ => k))
  (at level 61, right associativity) : io_scope.

(** [for x in xs: body x]. *)
Fixpoint for_each {St A} (body : A -> io St unit) (xs : list A) : io St unit :=
  match xs with
  | [] => ret tt
  | x :: r => bind (body x) (fun _ => for_each body r)
  end.

(** The status the process ends with. *)
Definition exit_code {A} (o : outcome A) : Z :=
  match o with
  | Ret _ => 0
  | Raise _ => 1
  | SysExit c => c
  end.

(** [raw.decode("utf-8")]. *)
Definition decode (raw : body) : outcome body :=
  match raw with
  | Garbled => Raise UnicodeDecodeError
  | text => Ret text
  end.

(** [json.loads(text)] for a decoded text; on bytes that do not decode it is
    the decoder's error. *)
Definition json_loads (b : body) : outcome json :=
  match b with
  | Json j => Ret j
  | Text _ => Raise JSONDecodeError
  | Garbled => Raise UnicodeDecodeError
  end.

(** [not body] for the decoded text of a response. *)
Definition body_empty (b : body) : bool :=
  match b with
  | Text s => String.eqb s ""
  | Json _ => false
  | Garbled => false
  end.

(** [str(e)] for an [HTTPError]. *)
Definition http_error_str (code : Z) (msg : string) : string :=
  "HTTP Error " ++ str_of_Z code ++ ": " ++ msg.

Definition nl : string := String (ascii_of_nat 10) EmptyString.

Definition dq : string := String (ascii_of_nat 34) EmptyString.

(** [s * n]. *)
Fixpoint times (s : string) (n : nat) : string :=
  match n with
  | O => EmptyString
  | S n' => s ++ times s n'
  end.

(** [if data:] for an optional dict. *)
Definition if_data (d : option json) : option json :=
  match d with
  | Some j => if truthy j then Some j else None
  | None => None
  end.

(** [if comment:] and the like for an optional string. *)
Definition given (s : option string) : bool :=
  match s with
  | Some t => negb (String.eqb t "")
  | None => false
  end.

Definition mutating (r : request) : bool :=
  match meth r with
  | GET => false
  | POST | DELETE => true
  end.

Definition requests (t : list event) : list request :=
  flat_map (fun ev => match ev with Sent r => [r] | _ => [] end) t.

(** The mutating requests among the events of a run. *)
Definition mutations (t : list event) : list request :=
  filter mutating (requests t).

Definition stdout (t : list event) : list string :=
  flat_map (fun ev => match ev with Stdout l => [l] | _ => [] end) t.

(** The parts of a finished run. *)
Definition result {St A} (r : outcome A * St * list event) : outcome A := fst (fst r).
Definition final {St A} (r : outcome A * St * list event) : St := snd (fst r).
Definition trace {St A} (r : outcome A * St * list event) : list event := snd r.

Definition reading (r : request) : bool := negb (mutating r).

(** The longest prefix whose items all satisfy [p]. *)
Fixpoint take_while {A} (p : A -> bool) (xs : list A) : list A :=
  match xs with
  | [] => []
  | x :: r => if p x then x :: take_while p r else []
  end.

(** [dry] sends exactly the requests [real] sends before its first mutating
    one. *)
Definition same_reads {St A B} (dry : outcome A * St * list event)
  (real : outcome B * St * list event) : Prop :=
  requests (trace dry) = take_while reading (requests (trace real)).

End IO.

(** ** link_ticket.py: class JiraLinker *)

Module Linker.
Import Py IO.
Open Scope io_scope.

(** The object after [__init__]: the host with its scheme removed and the
    Basic authorization header. *)
Record JiraLinker : Type := mkLinker {
  site : string;
  auth_header : string
}.

Definition base_url (self : JiraLinker) : string :=
  "https://" ++ site self ++ "/rest/api/3".

Section Methods.
Context {St : Type}.
Variable urlopen : St -> request -> St * reply.
Variable repr : json -> string.
Variable self : JiraLinker.

(** The [except HTTPError as e] handler of [_make_request]. *)
Definition http_failure {A} (code : Z) (msg : string) (error_body : body)
  : outcome A :=
  error_msg <~ try_bare
      (error_json <~ json_loads error_body ;;
       msgs <~ get error_json "errorMessages" (JArr [JStr (http_error_str code msg)]) ;;
       first msgs)
      (Ret (JStr (http_error_str code msg))) ;;
  Raise (Failure ("HTTP " ++ str_of_Z code ++ ": " ++ str repr error_msg)).

(** The request [_make_request] hands to [urlopen]. *)
Definition build_request (url : string) (method : IO.method)
  (data : option json) : request :=
  {| IO.url := url;
     meth := method;
     headers := [("Authorization", auth_header self);
                 ("Content-Type", "application/json");
                 ("Accept", "application/json")];
     IO.data := if_data data |}.

Definition _make_request (url : string) (method : IO.method)
  (data : option json) : io St json :=
  fun s =>
    let request := build_request url method data in
    let (s', r) := urlopen s request in
    (match r with
     | Response status b =>
         if Z.eqb status 204 then Ret (JObj [])
         else
           body <~ decode b ;;
           if body_empty body then Ret (JObj [])
           else json_loads body
     | HTTPError code msg raw =>
         error_body <~ decode raw ;;
         http_failure code msg error_body
     | NoConnection reason => Raise (URLError reason)
     end, s', [Sent request]).

Definition get_link_types : io St json :=
  let url := base_url self ++ "/issueLinkType" in
  response <- _make_request url GET None ;;
  lift (get response "issueLinkTypes" (JArr [])).

(** The three loops of [find_link_type] over the fetched catalog. *)
Definition exact_tier (name_lower : string) (lt : json) : outcome (option json) :=
  n <~ getitem lt "name" ;;
  l <~ lower_of n ;;
  if String.eqb l name_lower then Ret (Some lt) else Ret None.

Definition partial_tier (name_lower : string) (lt : json) : outcome (option json) :=
  n <~ getitem lt "name" ;;
  l <~ lower_of n ;;
  if contains name_lower l then Ret (Some lt) else Ret None.

Definition label_tier (name_lower : string) (lt : json) : outcome (option json) :=
  i <~ getitem lt "inward" ;;
  il <~ lower_of i ;;
  if contains name_lower il then Ret (Some lt)
  else
    o <~ getitem lt "outward" ;;
    ol <~ lower_of o ;;
    if contains name_lower ol then Ret (Some lt) else Ret None.

(** The body of [find_link_type] once the catalog is fetched; [JNull] is
    Python's [None]. *)
Definition find_in_catalog (link_types : json) (name : string) : outcome json :=
  let name_lower := lower name in
  items <~ iter link_types ;;
  r1 <~ for_return (exact_tier name_lower) items ;;
  match r1 with
  | Some lt => Ret lt
  | None =>
      r2 <~ for_return (partial_tier name_lower) items ;;
      match r2 with
      | Some lt => Ret lt
      | None =>
          r3 <~ for_return (label_tier name_lower) items ;;
          match r3 with
          | Some lt => Ret lt
          | None => Ret JNull
          end
      end
  end.

Definition find_link_type (name : string) : io St json :=
  link_types <- get_link_types ;;
  lift (find_in_catalog link_types name).

Definition get_ticket (issue_key : string) : io St json :=
  let url := base_url self ++ "/issue/" ++ issue_key
             ++ "?fields=summary,status,issuelinks" in
  _make_request url GET None.

Definition get_issue_links (issue_key : string) : io St json :=
  ticket <- get_ticket issue_key ;;
  lift (fields <~ get ticket "fields" (JObj []) ;;
        get fields "issuelinks" (JArr [])).

(** [payload[slot]["key"]]. *)
Definition slot_key (payload : json) (slot : string) : outcome json :=
  issue <~ getitem payload slot ;;
  getitem issue "key".

(** The dict [create_link] builds; [link_type_name] is the value the caller
    read from the resolved link type. *)
Definition create_link_data (source_key target_key : string)
  (link_type_name : json) (comment : option string) : json :=
  let data :=
    [("type", JObj [("name", link_type_name)]);
     ("outwardIssue", JObj [("key", JStr target_key)]);
     ("inwardIssue", JObj [("key", JStr source_key)])] in
  match comment with
  | Some c =>
      if given comment
      then JObj (data ++ [("comment", JObj [("body", JStr c)])])%list
      else JObj data
  | None => JObj data
  end.

Definition create_link (source_key target_key : string)
  (link_type_name : json) (comment : option string) : io St unit :=
  let url := base_url self ++ "/issueLink" in
  let data := create_link_data source_key target_key link_type_name comment in
  _ <- _make_request url POST (Some data) ;;
  ret tt.

Definition delete_link (link_id : string) : io St unit :=
  let url := base_url self ++ "/issueLink/" ++ link_id in
  _ <- _make_request url DELETE None ;;
  ret tt.

(** One turn of the loop of [list_link_types]. *)
Definition list_link_types_row (lt : json) : io St unit :=
  head <- lift (name <~ getitem lt "name" ;;
                id <~ getitem lt "id" ;;
                Ret (nl ++ "  " ++ str repr name ++ " (ID: " ++ str repr id ++ ")")) ;;
  print head ;;
  outward <- lift (getitem lt "outward") ;;
  print ("    Outward: " ++ dq ++ str repr outward ++ dq) ;;
  inward <- lift (getitem lt "inward") ;;
  print ("    Inward:  " ++ dq ++ str repr inward ++ dq).

Definition list_link_types : io St unit :=
  try_except
    (link_types <- get_link_types ;;
     print (nl ++ "Available Link Types:") ;;
     print (times "=" 60) ;;
     if negb (truthy link_types) then
       print "  (No link types available)"
     else
       items <- lift (iter link_types) ;;
       for_each list_link_types_row items ;;
       print (nl ++ times "=" 60) ;;
       print ("Usage: link_ticket.py SOURCE TARGET " ++ dq ++ "Link Type Name" ++ dq) ;;
       print ("Example: link_ticket.py PROJ-123 PROJ-456 " ++ dq ++ "Blocks" ++ dq) ;;
       print "         (PROJ-123 blocks PROJ-456)")
    (fun e => eprint_exc "Error: " e ;; sys_exit 1).

(** Direction label and linked issue of one fetched link, as
    [list_issue_links] picks them. *)
Definition list_direction (link : json) : outcome (json * json) :=
  outward <~ has_key "outwardIssue" link ;;
  if outward then
    ty <~ getitem link "type" ;;
    direction <~ getitem ty "outward" ;;
    linked_issue <~ getitem link "outwardIssue" ;;
    Ret (direction, linked_issue)
  else
    ty <~ getitem link "type" ;;
    direction <~ getitem ty "inward" ;;
    linked_issue <~ getitem link "inwardIssue" ;;
    Ret (direction, linked_issue).

(** One turn of the loop of [list_issue_links]. *)
Definition list_issue_links_row (link : json) : io St unit :=
  lines <- lift (
    ty <~ getitem link "type" ;;
    link_type <~ getitem ty "name" ;;
    link_id <~ getitem link "id" ;;
    dl <~ list_direction link ;;
    let (direction, linked_issue) := dl in
    linked_key <~ getitem linked_issue "key" ;;
    f <~ getitem linked_issue "fields" ;;
    linked_summary <~ getitem f "summary" ;;
    f' <~ getitem linked_issue "fields" ;;
    st <~ getitem f' "status" ;;
    linked_status <~ getitem st "name" ;;
    Ret (nl ++ "  [" ++ str repr link_id ++ "] " ++ str repr direction ++ ":",
         "    " ++ str repr linked_key ++ ": " ++ str repr linked_summary,
         "    Status: " ++ str repr linked_status)) ;;
  let '(l1, l2, l3) := lines in
  print l1 ;;
  print l2 ;;
  print l3.

Definition list_issue_links (issue_key : string) : io St unit :=
  try_except
    (ticket <- get_ticket issue_key ;;
     summary <- lift (f <~ getitem ticket "fields" ;; getitem f "summary") ;;
     links <- lift (f <~ getitem ticket "fields" ;; get f "issuelinks" (JArr [])) ;;
     print (nl ++ issue_key ++ ": " ++ str repr summary) ;;
     print (times "=" 60) ;;
     if negb (truthy links) then
       print "  No links found"
     else
       n <- lift (len links) ;;
       print (nl ++ "Links (" ++ str_of_nat n ++ "):") ;;
       items <- lift (iter links) ;;
       for_each list_issue_links_row items)
    (fun e => eprint_exc "Error: " e ;; sys_exit 1).

Definition execute_link (source_key target_key link_type_name : string)
  (comment : option string) (dry_run : bool) : io St unit :=
  try_except
    (link_type <- find_link_type link_type_name ;;
     (if negb (truthy link_type) then
        print ("Error: Unknown link type '" ++ link_type_name ++ "'") ;;
        print (nl ++ "Use --list-types to see available link types") ;;
        sys_exit 1
      else ret tt) ;;
     source_ticket <- get_ticket source_key ;;
     target_ticket <- get_ticket target_key ;;
     source_summary <- lift (f <~ getitem source_ticket "fields" ;; getitem f "summary") ;;
     target_summary <- lift (f <~ getitem target_ticket "fields" ;; getitem f "summary") ;;
     print (nl ++ "Source: " ++ source_key ++ ": " ++ str repr source_summary) ;;
     print ("Target: " ++ target_key ++ ": " ++ str repr target_summary) ;;
     lt_name <- lift (getitem link_type "name") ;;
     print (nl ++ "Link Type: " ++ str repr lt_name) ;;
     lt_outward <- lift (getitem link_type "outward") ;;
     print ("  " ++ source_key ++ " " ++ str repr lt_outward ++ " " ++ target_key) ;;
     lt_inward <- lift (getitem link_type "inward") ;;
     print ("  " ++ target_key ++ " " ++ str repr lt_inward ++ " " ++ source_key) ;;
     (match comment with
      | Some c => if given comment then print (nl ++ "Comment: " ++ c) else ret tt
      | None => ret tt
      end) ;;
     if dry_run then
       print (nl ++ "Dry run: No changes made")
     else
       name <- lift (getitem link_type "name") ;;
       create_link source_key target_key name comment ;;
       print (nl ++ "Link created successfully!"))
    (fun e => eprint_exc "Error: " e ;; sys_exit 1).

(** Direction label and linked key of the link [execute_remove] is about to
    delete. *)
Definition remove_direction (target_link : json) : outcome (json * json) :=
  outward <~ has_key "outwardIssue" target_link ;;
  if outward then
    ty <~ getitem target_link "type" ;;
    direction <~ getitem ty "outward" ;;
    oi <~ getitem target_link "outwardIssue" ;;
    linked_key <~ getitem oi "key" ;;
    Ret (direction, linked_key)
  else
    ty <~ getitem target_link "type" ;;
    direction <~ getitem ty "inward" ;;
    ii <~ getitem target_link "inwardIssue" ;;
    linked_key <~ getitem ii "key" ;;
    Ret (direction, linked_key).

(** The search loop of [execute_remove]; [link_id] is the command-line
    string, so [str(link_id)] is [link_id]. *)
Definition same_id (link_id : string) (link : json) : outcome (option json) :=
  id <~ getitem link "id" ;;
  if String.eqb (str repr id) link_id then Ret (Some link) else Ret None.

Definition execute_remove (issue_key link_id : string) : io St unit :=
  try_except
    (links <- get_issue_links issue_key ;;
     found <- lift (items <~ iter links ;; for_return (same_id link_id) items) ;;
     let target_link := match found with Some l => l | None => JNull end in
     (if negb (truthy target_link) then
        print ("Error: Link ID " ++ link_id ++ " not found on " ++ issue_key) ;;
        print (nl ++ "Use --list to see existing links and their IDs") ;;
        sys_exit 1
      else ret tt) ;;
     link_type <- lift (ty <~ getitem target_link "type" ;; getitem ty "name") ;;
     dk <- lift (remove_direction target_link) ;;
     let (direction, linked_key) := dk in
     print (nl ++ "Removing link from " ++ issue_key ++ ":") ;;
     print ("  Link ID: " ++ link_id) ;;
     print ("  Type: " ++ str repr link_type) ;;
     print ("  " ++ str repr direction ++ " " ++ str repr linked_key) ;;
     delete_link link_id ;;
     print (nl ++ "Link removed successfully!"))
    (fun e => eprint_exc "Error: " e ;; sys_exit 1).

End Methods.

(** [JiraLinker(email, api_token, site)]; [b64encode] is the library's
    function on the ASCII text.  [None] when [encode("ascii")] raises. *)
Definition __init__ (b64encode : string -> string) (email api_token site : string)
  : option JiraLinker :=
  let site := remove_all "http://" (remove_all "https://" site) in
  let auth_string := email ++ ":" ++ api_token in
  if is_ascii auth_string
  then Some {| site := site; auth_header := "Basic " ++ b64encode auth_string |}
  else None.

End Linker.

(** ** transition_ticket.py: class JiraTransitioner *)

Module Transitioner.
Import Py IO.
Open Scope io_scope.

Record JiraTransitioner : Type := mkTransitioner {
  site : string;
  auth_header : string
}.

Definition base_url (self : JiraTransitioner) : string :=
  "https://" ++ site self ++ "/rest/api/3".

Section Methods.
Context {St : Type}.
Variable urlopen : St -> request -> St * reply.
Variable repr : json -> string.
Variable self : JiraTransitioner.

(** The [except HTTPError as e] handler of [_make_request]. *)
Definition http_failure {A} (code : Z) (msg : string) (error_body : body)
  : outcome A :=
  error_msg <~ try_bare
      (error_json <~ json_loads error_body ;;
       msgs <~ get error_json "errorMessages" (JArr [JStr (http_error_str code msg)]) ;;
       first msgs)
      (Ret (JStr (http_error_str code msg))) ;;
  Raise (Failure ("HTTP " ++ str_of_Z code ++ ": " ++ str repr error_msg)).

(** The request [_make_request] hands to [urlopen]. *)
Definition build_request (url : string) (method : IO.method)
  (data : option json) : request :=
  {| IO.url := url;
     meth := method;
     headers := [("Authorization", auth_header self);
                 ("Content-Type", "application/json");
                 ("Accept", "application/json")];
     IO.data := if_data data |}.

Definition _make_request (url : string) (method : IO.method)
  (data : option json) : io St json :=
  fun s =>
    let request := build_request url method data in
    let (s', r) := urlopen s request in
    (match r with
     | Response status b =>
         if Z.eqb status 204 then Ret (JObj [])
         else
           text <~ decode b ;;
           json_loads text
     | HTTPError code msg raw =>
         error_body <~ decode raw ;;
         http_failure code msg error_body
     | NoConnection reason => Raise (URLError reason)
     end, s', [Sent request]).

Definition get_ticket (issue_key : string) : io St json :=
  let url := base_url self ++ "/issue/" ++ issue_key in
  _make_request url GET None.

Definition get_transitions (issue_key : string) : io St json :=
  let url := base_url self ++ "/issue/" ++ issue_key ++ "/transitions" in
  response <- _make_request url GET None ;;
  lift (get response "transitions" (JArr [])).

(** The two loops of [find_transition]; a hit is the pair
    [(transition["id"], transition["name"])]. *)
Definition exact_tier (target_lower : string) (transition : json)
  : outcome (option (json * json)) :=
  n <~ getitem transition "name" ;;
  l <~ lower_of n ;;
  if String.eqb l target_lower then
    id <~ getitem transition "id" ;;
    n' <~ getitem transition "name" ;;
    Ret (Some (id, n'))
  else Ret None.

Definition partial_tier (target_lower : string) (transition : json)
  : outcome (option (json * json)) :=
  n <~ getitem transition "name" ;;
  l <~ lower_of n ;;
  if contains target_lower l then
    id <~ getitem transition "id" ;;
    n' <~ getitem transition "name" ;;
    Ret (Some (id, n'))
  else Ret None.

Definition find_in_catalog (transitions : json) (target_status : string)
  : outcome (option (json * json)) :=
  let target_lower := lower target_status in
  items <~ iter transitions ;;
  r1 <~ for_return (exact_tier target_lower) items ;;
  match r1 with
  | Some hit => Ret (Some hit)
  | None => for_return (partial_tier target_lower) items
  end.

Definition find_transition (issue_key target_status : string)
  : io St (option (json * json)) :=
  transitions <- get_transitions issue_key ;;
  lift (find_in_catalog transitions target_status).

Definition transition_ticket (issue_key : string) (transition_id : json)
  (fields : option json) : io St unit :=
  let url := base_url self ++ "/issue/" ++ issue_key ++ "/transitions" in
  let data := [("transition", JObj [("id", transition_id)])] in
  let data := match if_data fields with
              | Some f => (data ++ [("fields", f)])%list
              | None => data
              end in
  _ <- _make_request url POST (Some (JObj data)) ;;
  ret tt.

(** One line of the catalog listing printed when nothing matches. *)
Definition available_row (t : json) : io St unit :=
  line <- lift (
    to <~ get t "to" (JObj []) ;;
    to_status <~ get to "name" (JStr "Unknown") ;;
    name <~ getitem t "name" ;;
    Ret ("  - " ++ str repr name ++ " → " ++ str repr to_status)) ;;
  print line.

(** The loop that looks the destination status up again. *)
Definition to_status_of (transition_id : json) (target_status : string)
  (t : json) : outcome (option json) :=
  id <~ getitem t "id" ;;
  if Py.eq id transition_id then
    to <~ get t "to" (JObj []) ;;
    name <~ get to "name" (JStr target_status) ;;
    Ret (Some name)
  else Ret None.

Definition execute_transition (issue_key target_status : string)
  (dry_run : bool) : io St unit :=
  try_except
    (ticket <- get_ticket issue_key ;;
     current_status <- lift (f <~ getitem ticket "fields" ;;
                             st <~ getitem f "status" ;; getitem st "name") ;;
     summary <- lift (f <~ getitem ticket "fields" ;; getitem f "summary") ;;
     print (nl ++ "📋 " ++ issue_key ++ ": " ++ str repr summary) ;;
     print ("Current Status: " ++ str repr current_status) ;;
     result <- find_transition issue_key target_status ;;
     match result with
     | None =>
         print (nl ++ "❌ Cannot transition to '" ++ target_status ++ "'") ;;
         print (nl ++ "Available transitions:") ;;
         transitions <- get_transitions issue_key ;;
         items <- lift (iter transitions) ;;
         for_each available_row items ;;
         sys_exit 1
     | Some (transition_id, transition_name) =>
         transitions <- get_transitions issue_key ;;
         found <- lift (items <~ iter transitions ;;
                        for_return (to_status_of transition_id target_status) items) ;;
         let to_status := match found with Some n => n | None => JNull end in
         if dry_run then
           print (nl ++ "🔍 Dry run: Would transition to '" ++ str repr to_status ++ "'") ;;
           print ("   Using transition: " ++ str repr transition_name
                  ++ " (ID: " ++ str repr transition_id ++ ")")
         else
           print ("Transitioning to: " ++ str repr to_status) ;;
           transition_ticket issue_key transition_id None ;;
           updated_ticket <- get_ticket issue_key ;;
           new_status <- lift (f <~ getitem updated_ticket "fields" ;;
                               st <~ getitem f "status" ;; getitem st "name") ;;
           print ("✅ Success! Status: " ++ str repr current_status
                  ++ " → " ++ str repr new_status)
     end)
    (fun e => eprint_exc "❌ Error: " e ;; sys_exit 1).

(** One turn of the loop of [list_transitions]. *)
Definition list_transitions_row (it : nat * json) : io St unit :=
  let (i, transition) := it in
  line <- lift (
    to <~ get transition "to" (JObj []) ;;
    to_status <~ get to "name" (JStr "Unknown") ;;
    transition_name <~ getitem transition "name" ;;
    Ret ("  " ++ str_of_nat i ++ ". " ++ str repr transition_name
              ++ " → " ++ str repr to_status)) ;;
  print line.

Definition list_transitions (issue_key : string) : io St unit :=
  try_except
    (ticket <- get_ticket issue_key ;;
     current_status <- lift (f <~ getitem ticket "fields" ;;
                             st <~ getitem f "status" ;; getitem st "name") ;;
     summary <- lift (f <~ getitem ticket "fields" ;; getitem f "summary") ;;
     print (nl ++ "📋 " ++ issue_key ++ ": " ++ str repr summary) ;;
     print ("Current Status: " ++ str repr current_status) ;;
     print (nl ++ "Available Transitions:") ;;
     transitions <- get_transitions issue_key ;;
     if negb (truthy transitions) then
       print "  (No transitions available)"
     else
       items <- lift (iter transitions) ;;
       for_each list_transitions_row (enumerate 1 items))
    (fun e => eprint_exc "❌ Error: " e ;; sys_exit 1).

End Methods.

(** [JiraTransitioner(email, api_token, site)]. *)
Definition __init__ (b64encode : string -> string) (email api_token site : string)
  : option JiraTransitioner :=
  let site := remove_all "http://" (remove_all "https://" site) in
  let auth_string := email ++ ":" ++ api_token in
  if is_ascii auth_string
  then Some {| site := site; auth_header := "Basic " ++ b64encode auth_string |}
  else None.

End Transitioner.

(** ** view_ticket.py: class JiraViewer *)

Module Viewer.
Import Py IO.
Open Scope io_scope.

Record JiraViewer : Type := mkViewer {
  site : string;
  auth_header : string
}.

Definition base_url (self : JiraViewer) : string :=
  "https://" ++ site self ++ "/rest/api/3".

(** [",".join(fields)]. *)
Fixpoint join (sep : string) (xs : list string) : string :=
  match xs with
  | [] => ""
  | [x] => x
  | x :: r => x ++ sep ++ join sep r
  end.

(** [enumerate(xs, start)]. *)
Fixpoint enumerate {A} (start : nat) (xs : list A) : list (nat * A) :=
  match xs with
  | [] => []
  | x :: r => (start, x) :: enumerate (S start) r
  end.

Section Methods.
Context {St : Type}.
Variable urlopen : St -> request -> St * reply.
Variable repr : json -> string.
(** [datetime.fromisoformat(s.replace("Z", "+00:00")).strftime("%Y-%m-%d %H:%M")],
    [None] when it raises. *)
Variable isoformat : string -> option string.
Variable self : JiraViewer.

Definition _make_request (url : string) : io St json :=
  fun s =>
    let request :=
      {| IO.url := url;
         meth := GET;
         headers := [("Authorization", auth_header self);
                     ("Content-Type", "application/json");
                     ("Accept", "application/json")];
         IO.data := None |} in
    let (s', r) := urlopen s request in
    (match r with
     | Response status b =>
         text <~ decode b ;;
         json_loads text
     | HTTPError code msg raw =>
         error_body <~ decode raw ;;
         error_msg <~ try_bare
             (error_json <~ json_loads error_body ;;
              msgs <~ get error_json "errorMessages"
                        (JArr [JStr (http_error_str code msg)]) ;;
              first msgs)
             (Ret (JStr (http_error_str code msg))) ;;
         Raise (Failure ("HTTP " ++ str_of_Z code ++ ": " ++ str repr error_msg))
     | NoConnection reason => Raise (URLError reason)
     end, s', [Sent request]).

Definition get_ticket (issue_key : string) (full : bool) : io St json :=
  let fields := ["summary"; "description"; "status"; "issuetype"; "assignee";
                 "reporter"; "priority"; "created"; "updated"; "labels";
                 "fixVersions"; "components"; "issuelinks"; "attachment";
                 "subtasks"; "parent"] in
  let fields := if full then (fields ++ ["comment"])%list else fields in
  let fields_param := join "," fields in
  let expand_param := "renderedFields,names" in
  let url := base_url self ++ "/issue/" ++ issue_key ++ "?fields=" ++ fields_param
             ++ "&expand=" ++ expand_param in
  _make_request url.

Definition format_date (date_string : json) : json :=
  if negb (truthy date_string) then JStr "Unknown"
  else match date_string with
       | JStr s => match isoformat s with
                   | Some shown => JStr shown
                   | None => date_string
                   end
       | _ => date_string
       end.

(** [comments[-5:]]. *)
Definition last_five (comments : json) : outcome (list json) :=
  match comments with
  | JArr xs => Ret (last_n 5 xs)
  | JStr s => Ret (last_n 5 (chars s))
  | _ => Raise TypeError
  end.

(** [body[:200]]. *)
Definition first_200 (body : json) : outcome json :=
  match body with
  | JStr s => Ret (JStr (take 200 s))
  | JArr xs => Ret (JArr (firstn 200 xs))
  | _ => Raise TypeError
  end.

(** One turn of the comment loop of [display_ticket]. *)
Definition comment_row (ic : nat * json) : io St unit :=
  let (i, comment) := ic in
  head <- lift (
    a <~ get comment "author" (JObj []) ;;
    author <~ get a "displayName" (JStr "Unknown") ;;
    c <~ get comment "created" (JStr "") ;;
    let created := format_date c in
    body <~ get comment "body" (JStr "(empty)") ;;
    let body := match body with JObj _ => JStr (str repr body) | _ => body end in
    Ret (nl ++ str_of_nat i ++ ". " ++ str repr author
            ++ " (" ++ str repr created ++ "):", body)) ;;
  let (line, body) := head in
  print line ;;
  shown <- lift (first_200 body) ;;
  print ("   " ++ str repr shown) ;;
  if (200 <? String.length (str repr body))%nat
  then print "   ... (truncated)"
  else ret tt.

(** The comment section of [display_ticket] (the block under
    [# Comments]), given the ticket's [fields]; it is reached when the raw
    JSON output was not asked for. *)
Definition display_comments (fields : json) (full : bool) : io St unit :=
  if full then
    comments <- lift (c <~ get fields "comment" (JObj []) ;;
                      get c "comments" (JArr [])) ;;
    if truthy comments then
      n <- lift (len comments) ;;
      print (nl ++ "Comments (" ++ str_of_nat n ++ " total):") ;;
      print (times "-" 80) ;;
      shown <- lift (last_five comments) ;;
      for_each comment_row (enumerate 1 shown)
    else
      print (nl ++ "Comments: None")
  else ret tt.

(** Library functions [display_ticket] calls: [json.dumps(x, indent=2)],
    [re.sub('<[^<]+?>', '', text)], and [f"{size / 1024:.1f}"] for an
    integer [size]. *)
Variable dumps : json -> string.
Variable strip_tags : string -> string.
Variable kb_text : Z -> string.

(** [x.get("displayName", default) if x else default]. *)
Definition display_name (person : json) (default : string) : outcome json :=
  if truthy person then get person "displayName" (JStr default)
  else Ret (JStr default).

(** [', '.join(x)]. *)
Definition join_comma (x : json) : outcome string :=
  items <~ iter x ;;
  join_values ", " items.

(** [', '.join([v.get("name", "") for v in xs])]. *)
Definition join_names (xs : json) : outcome string :=
  items <~ iter xs ;;
  names <~ comprehension (fun v => get v "name" (JStr "")) items ;;
  join_values ", " names.

(** The description section. *)
Definition display_description (ticket fields : json) : io St unit :=
  description <- lift (get fields "description" JNull) ;;
  if truthy description then
    rendered <- lift (rf <~ get ticket "renderedFields" (JObj []) ;;
                      get rf "description" JNull) ;;
    if truthy rendered then
      clean_desc <- lift (match rendered with
                          | JStr text => Ret (strip_tags text)
                          | _ => Raise TypeError
                          end) ;;
      print (nl ++ "Description:") ;;
      print (times "-" 80) ;;
      print (take 500 clean_desc) ;;
      if (500 <? String.length clean_desc)%nat
      then print "... (truncated)"
      else ret tt
    else
      print (nl ++ "Description: (complex formatting, view in browser)")
  else ret tt.

(** One turn of the loop over the linked issues; a link with neither
    reference is passed over. *)
Definition linked_issue_row (link : json) : io St unit :=
  line <- lift (
    ty <~ get link "type" (JObj []) ;;
    link_type <~ get ty "name" (JStr "Related") ;;
    outward <~ has_key "outwardIssue" link ;;
    chosen <~ (if outward then
                 linked <~ getitem link "outwardIssue" ;;
                 ty' <~ get link "type" (JObj []) ;;
                 direction <~ get ty' "outward" (JStr "links to") ;;
                 Ret (Some (linked, direction))
               else
                 inward <~ has_key "inwardIssue" link ;;
                 if inward then
                   linked <~ getitem link "inwardIssue" ;;
                   ty' <~ get link "type" (JObj []) ;;
                   direction <~ get ty' "inward" (JStr "linked from") ;;
                   Ret (Some (linked, direction))
                 else Ret None) ;;
    match chosen with
    | None => Ret None
    | Some (linked, direction) =>
        linked_key <~ get linked "key" (JStr "?") ;;
        f <~ get linked "fields" (JObj []) ;;
        linked_summary <~ get f "summary" (JStr "") ;;
        f' <~ get linked "fields" (JObj []) ;;
        st <~ get f' "status" (JObj []) ;;
        linked_status <~ get st "name" (JStr "") ;;
        Ret (Some ("  " ++ str repr direction ++ ": " ++ str repr linked_key
                        ++ " - " ++ str repr linked_summary
                        ++ " (" ++ str repr linked_status ++ ")"))
    end) ;;
  match line with
  | Some l => print l
  | None => ret tt
  end.

Definition display_links (fields : json) : io St unit :=
  issue_links <- lift (get fields "issuelinks" (JArr [])) ;;
  if truthy issue_links then
    print (nl ++ "Linked Issues:") ;;
    print (times "-" 80) ;;
    items <- lift (iter issue_links) ;;
    for_each linked_issue_row items
  else ret tt.

Definition subtask_row (subtask : json) : io St unit :=
  line <- lift (
    sub_key <~ get subtask "key" (JStr "?") ;;
    f <~ get subtask "fields" (JObj []) ;;
    sub_summary <~ get f "summary" (JStr "") ;;
    f' <~ get subtask "fields" (JObj []) ;;
    st <~ get f' "status" (JObj []) ;;
    sub_status <~ get st "name" (JStr "") ;;
    Ret ("  " ++ str repr sub_key ++ ": " ++ str repr sub_summary
              ++ " (" ++ str repr sub_status ++ ")")) ;;
  print line.

Definition display_subtasks (fields : json) : io St unit :=
  subtasks <- lift (get fields "subtasks" (JArr [])) ;;
  if truthy subtasks then
    n <- lift (len subtasks) ;;
    print (nl ++ "Subtasks (" ++ str_of_nat n ++ "):") ;;
    print (times "-" 80) ;;
    items <- lift (iter subtasks) ;;
    for_each subtask_row items
  else ret tt.

Definition display_parent (fields : json) : io St unit :=
  parent <- lift (get fields "parent" JNull) ;;
  if truthy parent then
    line <- lift (
      parent_key <~ get parent "key" (JStr "?") ;;
      f <~ get parent "fields" (JObj []) ;;
      parent_summary <~ get f "summary" (JStr "") ;;
      Ret (nl ++ "Parent: " ++ str repr parent_key ++ " - " ++ str repr parent_summary)) ;;
    print line
  else ret tt.

(** [size / 1024 if size else 0], shown with one decimal. *)
Definition size_kb (size : json) : outcome string :=
  if truthy size then
    match size with
    | JNum n => Ret (kb_text n)
    | JBool true => Ret (kb_text 1)
    | _ => Raise TypeError
    end
  else Ret "0.0".

Definition attachment_row (att : json) : io St unit :=
  line <- lift (
    filename <~ get att "filename" (JStr "Unknown") ;;
    size <~ get att "size" (JNum 0) ;;
    kb <~ size_kb size ;;
    Ret ("  " ++ str repr filename ++ " (" ++ kb ++ " KB)")) ;;
  print line.

Definition display_attachments (fields : json) : io St unit :=
  attachments <- lift (get fields "attachment" (JArr [])) ;;
  if truthy attachments then
    n <- lift (len attachments) ;;
    print (nl ++ "Attachments (" ++ str_of_nat n ++ "):") ;;
    print (times "-" 80) ;;
    items <- lift (iter attachments) ;;
    for_each attachment_row items
  else ret tt.

Definition display_ticket (issue_key : string) (full json_output : bool)
  : io St unit :=
  try_except
    (ticket <- get_ticket issue_key full ;;
     if json_output then
       print (dumps ticket)
     else
       fields <- lift (get ticket "fields" (JObj [])) ;;
       summary <- lift (get fields "summary" (JStr "No title")) ;;
       print (nl ++ "📋 " ++ issue_key ++ ": " ++ str repr summary) ;;
       print (times "=" 80) ;;
       status <- lift (x <~ get fields "status" (JObj []) ;;
                       get x "name" (JStr "Unknown")) ;;
       issue_type <- lift (x <~ get fields "issuetype" (JObj []) ;;
                           get x "name" (JStr "Unknown")) ;;
       priority <- lift (x <~ get fields "priority" (JObj []) ;;
                         get x "name" (JStr "Unknown")) ;;
       print (nl ++ "Status: " ++ str repr status) ;;
       print ("Type: " ++ str repr issue_type) ;;
       print ("Priority: " ++ str repr priority) ;;
       assignee <- lift (get fields "assignee" JNull) ;;
       reporter <- lift (get fields "reporter" JNull) ;;
       assignee_name <- lift (display_name assignee "Unassigned") ;;
       reporter_name <- lift (display_name reporter "Unknown") ;;
       print ("Assignee: " ++ str repr assignee_name) ;;
       print ("Reporter: " ++ str repr reporter_name) ;;
       created <- lift (c <~ get fields "created" (JStr "") ;; Ret (format_date c)) ;;
       updated <- lift (u <~ get fields "updated" (JStr "") ;; Ret (format_date u)) ;;
       print ("Created: " ++ str repr created) ;;
       print ("Updated: " ++ str repr updated) ;;
       labels <- lift (get fields "labels" (JArr [])) ;;
       (if truthy labels then
          joined <- lift (join_comma labels) ;;
          print ("Labels: " ++ joined)
        else ret tt) ;;
       fix_versions <- lift (get fields "fixVersions" (JArr [])) ;;
       (if truthy fix_versions then
          versions <- lift (join_names fix_versions) ;;
          print ("Fix Versions: " ++ versions)
        else ret tt) ;;
       components <- lift (get fields "components" (JArr [])) ;;
       (if truthy components then
          comp_names <- lift (join_names components) ;;
          print ("Components: " ++ comp_names)
        else ret tt) ;;
       display_description ticket fields ;;
       display_comments fields full ;;
       display_links fields ;;
       display_subtasks fields ;;
       display_parent fields ;;
       display_attachments fields ;;
       print (nl ++ times "=" 80) ;;
       print ("View in browser: https://" ++ site self ++ "/browse/" ++ issue_key) ;;
       print "")
    (fun e => eprint_exc "❌ Error: " e ;; sys_exit 1).

End Methods.

(** [JiraViewer(email, api_token, site)]. *)
Definition __init__ (b64encode : string -> string) (email api_token site : string)
  : option JiraViewer :=
  let site := remove_all "http://" (remove_all "https://" site) in
  let auth_string := email ++ ":" ++ api_token in
  if is_ascii auth_string
  then Some {| site := site; auth_header := "Basic " ++ b64encode auth_string |}
  else None.

End Viewer.

(** ** The three [main] functions

    A [main] takes the command line and the three environment variables.
    [parser.parse_args()] is the library's: it returns the arguments, or it
    ends the process itself, with status 2 after the usage and an error
    message on the error stream (a missing or an unknown argument), or with
    status 0 after the help ([-h]).  Which command lines it accepts is not
    modelled: the parser a [main] builds is a parameter, given the default of
    [--site] that the [main] reads from the environment.  Beside the events of
    the commands, a [main] prints plain lines on the error stream and, in one
    place, the parser's help.  A process ends by returning, by [sys.exit], or
    with an exception nothing caught. *)

Module Cli.
Import Py IO.

Inductive output : Type :=
| Event (e : event)
| StderrLine (line : string)       (* print(line, file=sys.stderr) *)
| Help                             (* parser.print_help() *)
| Usage.                           (* parser.error: usage and message on stderr *)

Inductive ending : Type :=
| Finished
| Exited (code : Z)
| Crashed.

Definition of_outcome (o : outcome unit) : ending :=
  match o with
  | Ret _ => Finished
  | SysExit c => Exited c
  | Raise _ => Crashed
  end.

(** What [parser.parse_args()] does with a command line. *)
Inductive parse (A : Type) : Type :=
| Parsed (args : A)
| Rejected                         (* parser.error(...): SystemExit(2) *)
| HelpShown.                       (* -h, --help: SystemExit(0) *)

Arguments Parsed {A} args.
Arguments Rejected {A}.
Arguments HelpShown {A}.

(** [os.getenv("ATLASSIAN_SITE", "yoursite.atlassian.net")]. *)
Definition site_default (env_site : option string) : string :=
  match env_site with
  | Some v => v
  | None => "yoursite.atlassian.net"
  end.

(** A command called from [main]. *)
Definition call {St} (m : io St unit) (s : St) : ending * St * list output :=
  match m s with
  | (o, s', t) => (of_outcome o, s', map Event t)
  end.

(** The value of an argument or variable that was given. *)
Definition value (x : option string) : string :=
  match x with
  | Some v => v
  | None => ""
  end.

Definition sent (t : list output) : list request :=
  flat_map (fun o => match o with Event (Sent r) => [r] | _ => [] end) t.

(** *** link_ticket.py *)

Record link_args : Type := mkLinkArgs {
  l_source : option string;
  l_target : option string;
  l_link_type : option string;
  l_list_types : bool;
  l_list : bool;
  l_remove : option string;
  l_comment : option string;
  l_dry_run : bool;
  l_site : string
}.

Section Mains.
Context {St : Type}.
Variable urlopen : St -> request -> St * reply.
Variable repr : json -> string.
Variable b64encode : string -> string.

Variable parse_link_args : string -> list string -> parse link_args.

Definition link_main (env_site email api_token : option string)
  (argv : list string) : St -> ending * St * list output :=
  fun s =>
    match parse_link_args (site_default env_site) argv with
    | Rejected => (Exited 2, s, [Usage])
    | HelpShown => (Exited 0, s, [Help])
    | Parsed args =>
      if orb (negb (given email)) (negb (given api_token)) then
        (Exited 1, s,
         [StderrLine "Error: Missing credentials";
          StderrLine (nl ++ "Required environment variables:");
          StderrLine "  - ATLASSIAN_EMAIL";
          StderrLine "  - ATLASSIAN_API_TOKEN";
          StderrLine (nl ++ "Optional:");
          StderrLine "  - ATLASSIAN_SITE (default: yoursite.atlassian.net)"])
      else
        match Linker.__init__ b64encode (value email) (value api_token) (l_site args) with
        | None => (Crashed, s, [])
        | Some linker =>
            if l_list_types args then
              call (Linker.list_link_types urlopen repr linker) s
            else if l_list args then
              if negb (given (l_source args)) then
                (Exited 1, s, [StderrLine "Error: Issue key required with --list"])
              else
                call (Linker.list_issue_links urlopen repr linker (value (l_source args))) s
            else if given (l_remove args) then
              if negb (given (l_source args)) then
                (Exited 1, s, [StderrLine "Error: Issue key required with --remove"])
              else
                call (Linker.execute_remove urlopen repr linker
                        (value (l_source args)) (value (l_remove args))) s
            else
              if orb (negb (given (l_source args)))
                   (orb (negb (given (l_target args))) (negb (given (l_link_type args))))
              then
                (Exited 1, s,
                 [StderrLine "Error: SOURCE, TARGET, and LINK_TYPE required";
                  StderrLine (nl ++ "Usage: link_ticket.py SOURCE TARGET LINK_TYPE");
                  StderrLine "       link_ticket.py --list-types";
                  StderrLine "       link_ticket.py SOURCE --list"])
              else
                call (Linker.execute_link urlopen repr linker
                        (value (l_source args)) (value (l_target args))
                        (value (l_link_type args)) (l_comment args) (l_dry_run args)) s
        end
    end.

(** *** transition_ticket.py *)

Record transition_args : Type := mkTransitionArgs {
  t_issue_key : string;
  t_status : option string;
  t_list : bool;
  t_dry_run : bool;
  t_site : string
}.

Variable parse_transition_args : string -> list string -> parse transition_args.

Definition transition_main (env_site email api_token : option string)
  (argv : list string) : St -> ending * St * list output :=
  fun s =>
    match parse_transition_args (site_default env_site) argv with
    | Rejected => (Exited 2, s, [Usage])
    | HelpShown => (Exited 0, s, [Help])
    | Parsed args =>
      if orb (negb (given email)) (negb (given api_token)) then
        (Exited 1, s,
         [StderrLine "❌ Error: Missing credentials";
          StderrLine (nl ++ "Required environment variables:");
          StderrLine "  - ATLASSIAN_EMAIL";
          StderrLine "  - ATLASSIAN_API_TOKEN";
          StderrLine (nl ++ "Optional:");
          StderrLine "  - ATLASSIAN_SITE (default: yoursite.atlassian.net)"])
      else
        match Transitioner.__init__ b64encode (value email) (value api_token)
                (t_site args) with
        | None => (Crashed, s, [])
        | Some transitioner =>
            if t_list args then
              call (Transitioner.list_transitions urlopen repr transitioner
                      (t_issue_key args)) s
            else
              if negb (given (t_status args)) then
                (Exited 1, s,
                 [StderrLine "❌ Error: Status required (or use --list)"; Help])
              else
                call (Transitioner.execute_transition urlopen repr transitioner
                        (t_issue_key args) (value (t_status args)) (t_dry_run args)) s
        end
    end.

(** *** view_ticket.py *)

Record view_args : Type := mkViewArgs {
  v_issue_key : string;
  v_full : bool;
  v_json : bool;
  v_site : string
}.

Variable isoformat : string -> option string.
Variable dumps : json -> string.
Variable strip_tags : string -> string.
Variable kb_text : Z -> string.

Variable parse_view_args : string -> list string -> parse view_args.

Definition view_main (env_site email api_token : option string)
  (argv : list string) : St -> ending * St * list output :=
  fun s =>
    match parse_view_args (site_default env_site) argv with
    | Rejected => (Exited 2, s, [Usage])
    | HelpShown => (Exited 0, s, [Help])
    | Parsed args =>
      if orb (negb (given email)) (negb (given api_token)) then
        (Exited 1, s,
         [StderrLine "❌ Error: Missing credentials";
          StderrLine (nl ++ "Required environment variables:");
          StderrLine "  - ATLASSIAN_EMAIL";
          StderrLine "  - ATLASSIAN_API_TOKEN"])
      else
        match Viewer.__init__ b64encode (value email) (value api_token) (v_site args) with
        | None => (Crashed, s, [])
        | Some viewer =>
            call (Viewer.display_ticket urlopen repr isoformat viewer dumps strip_tags
                    kb_text (v_issue_key args) (v_full args) (v_json args)) s
        end
    end.

End Mains.
End Cli.

(** ** The data model, and its JSON as the server sends it

    Each record holds the fields the tools read, and its JSON is the object
    with those fields. *)

Module Model.
Import Py.

Record LinkType : Type := mkLinkType {
  lt_id : string;
  lt_name : string;
  lt_inward : string;
  lt_outward : string;
  lt_self : string
}.

Definition link_type_json (lt : LinkType) : json :=
  JObj [("id", JStr (lt_id lt));
        ("name", JStr (lt_name lt));
        ("inward", JStr (lt_inward lt));
        ("outward", JStr (lt_outward lt));
        ("self", JStr (lt_self lt))].

Record Transition : Type := mkTransition {
  tr_id : string;
  tr_name : string;
  tr_to : string            (* name of the destination status *)
}.

Definition transition_json (t : Transition) : json :=
  JObj [("id", JStr (tr_id t));
        ("name", JStr (tr_name t));
        ("to", JObj [("name", JStr (tr_to t))])].

(** The other ticket of a link, as it is embedded in the link. *)
Record Peer : Type := mkPeer {
  peer_key : string;
  peer_summary : string;
  peer_status : string
}.

Definition peer_json (p : Peer) : json :=
  JObj [("key", JStr (peer_key p));
        ("fields", JObj [("summary", JStr (peer_summary p));
                         ("status", JObj [("name", JStr (peer_status p))])])].

(** The one directional payload of a link. *)
Inductive Direction : Type :=
| Outward (p : Peer)
| Inward (p : Peer).

Record IssueLink : Type := mkIssueLink {
  link_id : string;
  link_type : LinkType;
  link_end : Direction
}.

Definition issue_link_json (l : IssueLink) : json :=
  JObj [("id", JStr (link_id l));
        ("type", link_type_json (link_type l));
        match link_end l with
        | Outward p => ("outwardIssue", peer_json p)
        | Inward p => ("inwardIssue", peer_json p)
        end].

(** A ticket as [get_ticket] of the link and transition tools reads it. *)
Definition ticket_json (summary status : string) (links : list IssueLink) : json :=
  JObj [("fields", JObj [("summary", JStr summary);
                         ("status", JObj [("name", JStr status)]);
                         ("issuelinks", JArr (map issue_link_json links))])].

(** The body of a comment: plain text, or a document tree (a dict). *)
Inductive CommentBody : Type :=
| Plain (text : string)
| Document (doc : list (string * json)).

Record Comment : Type := mkComment {
  c_author : string;
  c_created : string;
  c_body : CommentBody
}.

Definition comment_json (c : Comment) : json :=
  JObj [("author", JObj [("displayName", JStr (c_author c))]);
        ("created", JStr (c_created c));
        ("body", match c_body c with
                 | Plain text => JStr text
                 | Document doc => JObj doc
                 end)].

(** *** The matching policy, in the words of the design *)

(** "First tier that yields at least one candidate wins, first candidate
    within that tier wins (stable catalog order)." *)
Fixpoint first_tier_first_candidate {A} (tiers : list (A -> bool))
  (catalog : list A) : option A :=
  match tiers with
  | [] => None
  | tier :: later =>
      match filter tier catalog with
      | candidate :: _ => Some candidate
      | [] => first_tier_first_candidate later catalog
      end
  end.

(** [a] is [b] up to case. *)
Definition ci_equal (a b : string) : bool := String.eqb (lower a) (lower b).

(** [a] occurs in [b] up to case. *)
Definition ci_within (a b : string) : bool := contains (lower a) (lower b).

Definition link_type_tiers (query : string) : list (LinkType -> bool) :=
  [fun lt => ci_equal (lt_name lt) query;
   fun lt => ci_within query (lt_name lt);
   fun lt => orb (ci_within query (lt_outward lt)) (ci_within query (lt_inward lt))].

Definition transition_tiers (query : string) : list (Transition -> bool) :=
  [fun t => ci_equal (tr_name t) query;
   fun t => ci_within query (tr_name t)].

Definition resolve_link_type (catalog : list LinkType) (query : string)
  : option LinkType :=
  first_tier_first_candidate (link_type_tiers query) catalog.

Definition resolve_transition (catalog : list Transition) (query : string)
  : option Transition :=
  first_tier_first_candidate (transition_tiers query) catalog.

(** "If the link carries an outward-pointing reference, display the
    LinkType's outward label together with that reference; if it carries an
    inward-pointing reference, display the inward label with that
    reference." *)
Definition read_path (l : IssueLink) : string * Peer :=
  match link_end l with
  | Outward p => (lt_outward (link_type l), p)
  | Inward p => (lt_inward (link_type l), p)
  end.

(** The text of a comment body: the text itself, or what [str] makes of the
    document. *)
Definition body_text (repr : json -> string) (c : Comment) : string :=
  match c_body c with
  | Plain text => text
  | Document doc => repr (JObj doc)
  end.

(** "Present the full catalog to the user": every entry's name is shown on
    some printed line. *)
Definition presents {A} (name : A -> string) (catalog : list A)
  (lines : list string) : Prop :=
  forall entry, In entry catalog ->
    exists line, In line lines /\ contains (name entry) line = true.

(** *** The error envelope, in the words of the design *)

(** "Extract a human-readable message from an [{errorMessages: [string,...]}]
    envelope when present", with a fallback otherwise: [text] is the message
    surfaced for the decoded body [error_body] of a failed request when the
    fallback is [fallback].  The design names the raw status text as the
    fallback; the code falls back to [str(e)]. *)
Definition extracted (error_body : IO.body) (fallback text : string) : Prop :=
  (forall kvs m rest,
      error_body = IO.Json (JObj kvs) ->
      assoc "errorMessages" kvs = Some (JArr (JStr m :: rest)) -> text = m)
  /\ (forall t, error_body = IO.Text t -> text = fallback)
  /\ (forall kvs,
      error_body = IO.Json (JObj kvs) ->
      assoc "errorMessages" kvs = None -> text = fallback)
  /\ (forall kvs,
      error_body = IO.Json (JObj kvs) ->
      assoc "errorMessages" kvs = Some (JArr []) -> text = fallback).

End Model.

(** ** A scripted server for concrete runs

    The state is the list of replies still to give; each request takes the
    next one. *)

Module Script.
Import IO.

Definition urlopen (s : list reply) (_ : request) : list reply * reply :=
  match s with
  | r :: rest => (rest, r)
  | [] => ([], NoConnection "no reply")
  end.

Definition ok (j : Py.json) : reply := Response 200 (Json j).

Definition repr (_ : Py.json) : string := "<repr>".

End Script.

(** ** Sample data for concrete runs *)

Module Samples.
Import Py IO Model.

Definition linker : Linker.JiraLinker :=
  Linker.mkLinker "example.atlassian.net" "Basic dXNlcjp0b2tlbg==".

Definition transitioner : Transitioner.JiraTransitioner :=
  Transitioner.mkTransitioner "example.atlassian.net" "Basic dXNlcjp0b2tlbg==".

Definition viewer : Viewer.JiraViewer :=
  Viewer.mkViewer "example.atlassian.net" "Basic dXNlcjp0b2tlbg==".

Definition blocks : LinkType :=
  mkLinkType "10000" "Blocks" "is blocked by" "blocks"
    "https://example.atlassian.net/rest/api/3/issueLinkType/10000".

Definition relates : LinkType :=
  mkLinkType "10003" "Relates" "relates to" "relates to"
    "https://example.atlassian.net/rest/api/3/issueLinkType/10003".

(** A catalog entry whose name is the empty string. *)
Definition unnamed : LinkType :=
  mkLinkType "10009" "" "is under" "is over"
    "https://example.atlassian.net/rest/api/3/issueLinkType/10009".

Definition catalog_json (catalog : list LinkType) : json :=
  JObj [("issueLinkTypes", JArr (map link_type_json catalog))].

Definition transitions_json (catalog : list Transition) : json :=
  JObj [("transitions", JArr (map transition_json catalog))].

Definition start_progress : Transition := mkTransition "21" "Start Progress" "In Progress".
Definition done : Transition := mkTransition "31" "Done" "Closed".
Definition nameless : Transition := mkTransition "41" "" "Backlog".

Definition login_bug : json := ticket_json "Login fails" "Open" [].
Definition session_bug : json := ticket_json "Session expires early" "In Progress" [].

(** The replies to a successful link creation: the catalog, the two tickets,
    the created link. *)
Definition create_replies : list reply :=
  [Script.ok (catalog_json [blocks; relates]);
   Script.ok login_bug;
   Script.ok session_bug;
   Response 201 (Text "")].

(** The request that creates "PROJ-1 blocks PROJ-2". *)
Definition create_post : request :=
  Linker.build_request linker (Linker.base_url linker ++ "/issueLink") POST
    (Some (Linker.create_link_data "PROJ-1" "PROJ-2" (JStr "Blocks") None)).

(** The replies when the link type is unknown: only the catalog is asked. *)
Definition unknown_type_replies : list reply :=
  [Script.ok (catalog_json [blocks; relates])].

(** The replies when no transition matches: the ticket, the transitions for
    the resolver, the transitions again for the listing. *)
Definition unknown_status_replies : list reply :=
  [Script.ok login_bug;
   Script.ok (transitions_json [start_progress; done]);
   Script.ok (transitions_json [start_progress; done])].

Definition session_peer : Peer := mkPeer "PROJ-2" "Session expires early" "In Progress".
Definition audit_peer : Peer := mkPeer "PROJ-7" "Audit log gaps" "Done".

(** PROJ-1 blocks PROJ-2, and PROJ-1 is blocked by PROJ-7. *)
Definition blocks_session : IssueLink := mkIssueLink "10001" blocks (Outward session_peer).
Definition blocked_by_audit : IssueLink := mkIssueLink "10002" blocks (Inward audit_peer).

Definition linked_login_bug : json :=
  ticket_json "Login fails" "Open" [blocks_session; blocked_by_audit].

(** The replies to a removal: the ticket with its links, then no content. *)
Definition remove_replies : list reply :=
  [Script.ok linked_login_bug; Response 204 (Text "")].

(** The replies to a transition to "Done" on a server whose workflow ends
    in the status Closed: the ticket, the transitions (twice), no content
    for the POST, the ticket again. *)
Definition done_replies : list reply :=
  [Script.ok (ticket_json "Login fails" "In Progress" []);
   Script.ok (transitions_json [start_progress; done]);
   Script.ok (transitions_json [start_progress; done]);
   Response 204 (Text "");
   Script.ok (ticket_json "Login fails" "Closed" [])].

(** A date parser that accepts nothing: dates are shown as received. *)
Definition no_dates (_ : string) : option string := None.

Definition note (n : string) : Comment :=
  mkComment "Ada" "2024-05-01T10:00:00.000+0000" (Plain ("note " ++ n)).

(** A comment of 201 characters. *)
Definition long_note : Comment :=
  mkComment "Grace" "2024-05-02T10:00:00.000+0000" (Plain (times "x" 201)).

(** Seven comments, oldest first; the sixth is the long one. *)
Definition seven_comments : list Comment :=
  [note "1"; note "2"; note "3"; note "4"; note "5"; long_note; note "7"].

Definition commented_fields (comments : list Comment) : json :=
  JObj [("summary", JStr "Login fails");
        ("comment", JObj [("comments", JArr (map comment_json comments));
                          ("total", JNum (Z.of_nat (length comments)))])].

(** A 404 whose body carries the error envelope. *)
Definition not_found : reply :=
  HTTPError 404 "Not Found"
    (Json (JObj [("errorMessages", JArr [JStr "Issue does not exist"]);
                 ("errors", JObj [])])).

End Samples.

(** * Properties *)

(** ** Loops that return on the first hit *)

Section Loops.
Import Py.
Context {A B C : Type}.

Lemma find_head_filter (p : A -> bool) (xs : list A) :
  find p xs = hd_error (filter p xs).
Proof.
  induction xs as [|x xs IH]; simpl; [reflexivity|].
  destruct (p x); simpl; auto.
Qed.

(** A loop whose body tests [p] on the decoded item and returns [f] of it is
    a search for the first item satisfying [p]. *)
Lemma for_return_search (enc : A -> C) (p : A -> bool) (f : A -> B)
  (body : C -> outcome (option B)) (xs : list A) :
  (forall x, body (enc x) = if p x then Ret (Some (f x)) else Ret None) ->
  for_return body (map enc xs) = Ret (option_map f (find p xs)).
Proof.
  intros Hbody. induction xs as [|x xs IH]; simpl; [reflexivity|].
  rewrite Hbody. destruct (p x); simpl; auto.
Qed.

Lemma first_tier_cons (tier : A -> bool) (later : list (A -> bool)) (xs : list A) :
  Model.first_tier_first_candidate (tier :: later) xs =
  match find tier xs with
  | Some x => Some x
  | None => Model.first_tier_first_candidate later xs
  end.
Proof.
  simpl. rewrite find_head_filter. destruct (filter tier xs); reflexivity.
Qed.

End Loops.

(** ** The resolver *)

Section Resolver.
Import Py Model.

Lemma link_exact_tier (q : string) (lt : LinkType) :
  Linker.exact_tier (lower q) (link_type_json lt) =
  if ci_equal (lt_name lt) q then Ret (Some (link_type_json lt)) else Ret None.
Proof. reflexivity. Qed.

Lemma link_partial_tier (q : string) (lt : LinkType) :
  Linker.partial_tier (lower q) (link_type_json lt) =
  if ci_within q (lt_name lt) then Ret (Some (link_type_json lt)) else Ret None.
Proof. reflexivity. Qed.

Lemma link_label_tier (q : string) (lt : LinkType) :
  Linker.label_tier (lower q) (link_type_json lt) =
  if orb (ci_within q (lt_outward lt)) (ci_within q (lt_inward lt))
  then Ret (Some (link_type_json lt)) else Ret None.
Proof.
  unfold Linker.label_tier, ci_within; cbn.
  destruct (contains (lower q) (lower (lt_inward lt)));
    destruct (contains (lower q) (lower (lt_outward lt))); reflexivity.
Qed.

Lemma transition_exact_tier (q : string) (t : Transition) :
  Transitioner.exact_tier (lower q) (transition_json t) =
  if ci_equal (tr_name t) q
  then Ret (Some (JStr (tr_id t), JStr (tr_name t))) else Ret None.
Proof.
  unfold Transitioner.exact_tier, ci_equal; cbn.
  destruct (String.eqb (lower (tr_name t)) (lower q)); reflexivity.
Qed.

Lemma transition_partial_tier (q : string) (t : Transition) :
  Transitioner.partial_tier (lower q) (transition_json t) =
  if ci_within q (tr_name t)
  then Ret (Some (JStr (tr_id t), JStr (tr_name t))) else Ret None.
Proof.
  unfold Transitioner.partial_tier, ci_within; cbn.
  destruct (contains (lower q) (lower (tr_name t))); reflexivity.
Qed.

(** [find_link_type] on a fetched catalog is the three-tier policy. *)
Lemma find_link_type_policy (catalog : list LinkType) (query : string) :
  Linker.find_in_catalog (JArr (map link_type_json catalog)) query =
  Ret (match resolve_link_type catalog query with
       | Some lt => link_type_json lt
       | None => JNull
       end).
Proof.
  unfold Linker.find_in_catalog, resolve_link_type, link_type_tiers.
  rewrite !first_tier_cons. cbn [iter obind].
  rewrite (for_return_search link_type_json _ link_type_json _ catalog
             (link_exact_tier query)).
  cbn [obind]. destruct (find _ catalog); cbn [option_map]; [reflexivity|].
  rewrite (for_return_search link_type_json _ link_type_json _ catalog
             (link_partial_tier query)).
  cbn [obind]. destruct (find _ catalog); cbn [option_map]; [reflexivity|].
  rewrite (for_return_search link_type_json _ link_type_json _ catalog
             (link_label_tier query)).
  cbn [obind]. destruct (find _ catalog); reflexivity.
Qed.

(** [find_transition] on a fetched catalog is the two-tier policy. *)
Lemma find_transition_policy (catalog : list Transition) (query : string) :
  Transitioner.find_in_catalog (JArr (map transition_json catalog)) query =
  Ret (option_map (fun t => (JStr (tr_id t), JStr (tr_name t)))
         (resolve_transition catalog query)).
Proof.
  unfold Transitioner.find_in_catalog, resolve_transition, transition_tiers.
  rewrite !first_tier_cons. cbn [iter obind].
  rewrite (for_return_search transition_json _
             (fun t => (JStr (tr_id t), JStr (tr_name t))) _ catalog
             (transition_exact_tier query)).
  cbn [obind]. destruct (find _ catalog); cbn [option_map]; [reflexivity|].
  rewrite (for_return_search transition_json _
             (fun t => (JStr (tr_id t), JStr (tr_name t))) _ catalog
             (transition_partial_tier query)).
  destruct (find _ catalog); reflexivity.
Qed.

End Resolver.

Section ResolverClaims.
Import Py Model.

Lemma find_none (A : Type) (p : A -> bool) (xs : list A) :
  forallb (fun x => negb (p x)) xs = true -> find p xs = None.
Proof.
  induction xs as [|x xs IH]; simpl; [reflexivity|].
  destruct (p x); simpl; [discriminate|auto].
Qed.

Lemma contains_empty (s : string) : contains "" s = true.
Proof. destruct s; reflexivity. Qed.

Lemma lower_empty (s : string) : lower s = "" -> s = "".
Proof. destruct s; simpl; [reflexivity|discriminate]. Qed.

Lemma ci_equal_empty (s : string) : ci_equal s "" = true -> s = "".
Proof.
  unfold ci_equal; simpl. intros H. apply String.eqb_eq in H.
  now apply lower_empty.
Qed.

(** C3. Resolution applies the tiers in order (exact name, then substring of
    the name, then, for link types only, substring of a direction label), all
    up to case, and returns the first catalog entry of the first tier that has
    a candidate; with the catalog Blocks, Blocked by, Relates the query
    "block" resolves to Blocks. *)
Theorem resolver_tier_ordering :
  (forall (catalog : list LinkType) (query : string),
      Linker.find_in_catalog (JArr (map link_type_json catalog)) query =
      Ret (match first_tier_first_candidate (link_type_tiers query) catalog with
           | Some lt => link_type_json lt
           | None => JNull
           end))
  /\ (forall (catalog : list Transition) (query : string),
      Transitioner.find_in_catalog (JArr (map transition_json catalog)) query =
      Ret (match first_tier_first_candidate (transition_tiers query) catalog with
           | Some t => Some (JStr (tr_id t), JStr (tr_name t))
           | None => None
           end))
  /\ (forall i1 in1 out1 s1 i2 in2 out2 s2 i3 in3 out3 s3,
      let blocks := mkLinkType i1 "Blocks" in1 out1 s1 in
      let blocked_by := mkLinkType i2 "Blocked by" in2 out2 s2 in
      let relates := mkLinkType i3 "Relates" in3 out3 s3 in
      Linker.find_in_catalog
        (JArr (map link_type_json [blocks; blocked_by; relates])) "block" =
      Ret (link_type_json blocks))
  /\ (forall i1 to1 i2 to2 i3 to3,
      let blocks := mkTransition i1 "Blocks" to1 in
      let blocked_by := mkTransition i2 "Blocked by" to2 in
      let relates := mkTransition i3 "Relates" to3 in
      Transitioner.find_in_catalog
        (JArr (map transition_json [blocks; blocked_by; relates])) "block" =
      Ret (Some (JStr i1, JStr "Blocks"))).
Proof.
  split; [|split; [|split]].
  - exact find_link_type_policy.
  - intros catalog query. rewrite find_transition_policy.
    unfold resolve_transition.
    destruct (first_tier_first_candidate _ catalog); reflexivity.
  - intros. rewrite find_link_type_policy. reflexivity.
  - intros. rewrite find_transition_policy. reflexivity.
Qed.

End ResolverClaims.

(** ** Runs: traces of composed computations *)

Section Runs.
Import Py IO.
Context {St : Type}.

Lemma requests_app (t1 t2 : list event) :
  requests (t1 ++ t2) = (requests t1 ++ requests t2)%list.
Proof. unfold requests. apply flat_map_app. Qed.

Lemma stdout_app (t1 t2 : list event) :
  stdout (t1 ++ t2) = (stdout t1 ++ stdout t2)%list.
Proof. unfold stdout. apply flat_map_app. Qed.

Lemma requests_stdout (line : string) (t : list event) :
  requests (Stdout line :: t) = requests t.
Proof. reflexivity. Qed.

Lemma trace_bind {A B} (m : io St A) (k : A -> io St B) (s : St) :
  trace (bind m k s) =
  (trace (m s) ++ match m s with
                  | (Ret a, s1, _) => trace (k a s1)
                  | _ => []
                  end)%list.
Proof.
  unfold bind, trace. destruct (m s) as [[[a|e|c] s1] t1]; simpl.
  - destruct (k a s1) as [[o s2] t2]. reflexivity.
  - now rewrite app_nil_r.
  - now rewrite app_nil_r.
Qed.

Lemma trace_print_then {B} (line : string) (k : unit -> io St B) (s : St) :
  trace (bind (print line) k s) = Stdout line :: trace (k tt s).
Proof.
  unfold bind, print, trace. destruct (k tt s) as [[o s2] t2]. reflexivity.
Qed.

Lemma trace_lift_then {A B} (o : outcome A) (k : A -> io St B) (s : St) :
  trace (bind (lift o) k s) =
  match o with
  | Ret a => trace (k a s)
  | _ => []
  end.
Proof.
  unfold bind, lift, trace. destruct o as [a|e|c]; [|reflexivity..].
  destruct (k a s) as [[o s2] t2]. reflexivity.
Qed.

Lemma trace_try_except {A} (m : io St A) (h : exn -> io St A) (s : St) :
  trace (try_except m h s) =
  (trace (m s) ++ match m s with
                  | (Raise e, s1, _) => trace (h e s1)
                  | _ => []
                  end)%list.
Proof.
  unfold try_except, trace. destruct (m s) as [[[a|e|c] s1] t1]; simpl.
  - now rewrite app_nil_r.
  - destruct (h e s1) as [[o s2] t2]. reflexivity.
  - now rewrite app_nil_r.
Qed.

(** The handler every command ends with prints and exits: it sends nothing. *)
Lemma requests_try_exit {A} (m : io St A) (prefix : string) (s : St) :
  requests (trace (try_except m
              (fun e => bind (eprint_exc prefix e) (fun _ => sys_exit 1)) s)) =
  requests (trace (m s)).
Proof.
  rewrite trace_try_except, requests_app.
  destruct (m s) as [[[a|e|c] s1] t1]; simpl; now rewrite app_nil_r.
Qed.

Lemma take_while_all {A} (p : A -> bool) (xs : list A) :
  forallb p (take_while p xs) = true.
Proof.
  induction xs as [|x xs IH]; simpl; [reflexivity|].
  destruct (p x) eqn:E; simpl; [now rewrite E|reflexivity].
Qed.

Lemma take_while_app {A} (p : A -> bool) (xs ys : list A) :
  forallb p xs = true ->
  take_while p (xs ++ ys) = (xs ++ take_while p ys)%list.
Proof.
  induction xs as [|x xs IH]; simpl; [reflexivity|].
  intros H. apply andb_true_iff in H as [Hx Hxs].
  rewrite Hx. f_equal. auto.
Qed.

Lemma same_reads_bind {A B} (m : io St A) (kd kr : A -> io St B) (s : St) :
  forallb reading (requests (trace (m s))) = true ->
  (forall a s1 t1, m s = (Ret a, s1, t1) -> same_reads (kd a s1) (kr a s1)) ->
  same_reads (bind m kd s) (bind m kr s).
Proof.
  unfold same_reads. intros Hm Hk.
  rewrite !trace_bind, !requests_app, take_while_app by exact Hm.
  f_equal. destruct (m s) as [[[a|e|c] s1] t1]; [|reflexivity..].
  now apply (Hk a s1 t1).
Qed.

Lemma same_reads_try {A} (md mr : io St A) (prefix : string) (s : St) :
  same_reads (md s) (mr s) ->
  same_reads
    (try_except md (fun e => bind (eprint_exc prefix e) (fun _ => sys_exit 1)) s)
    (try_except mr (fun e => bind (eprint_exc prefix e) (fun _ => sys_exit 1)) s).
Proof. unfold same_reads. now rewrite !requests_try_exit. Qed.

Lemma same_reads_refl {A} (r : outcome A * St * list event) :
  forallb reading (requests (trace r)) = true -> same_reads r r.
Proof.
  unfold same_reads. intros H.
  rewrite <- (app_nil_r (requests (trace r))) at 2.
  rewrite take_while_app by exact H. simpl. now rewrite app_nil_r.
Qed.

End Runs.

(** ** What each method of the link tool sends *)

Section LinkerRequests.
Import Py IO.
Context {St : Type}.
Variable urlopen : St -> request -> St * reply.
Variable repr : json -> string.
Variable self : Linker.JiraLinker.

Lemma linker_request_trace url method data s :
  exists r, trace (Linker._make_request urlopen repr self url method data s) = [Sent r]
            /\ meth r = method /\ IO.url r = url /\ IO.data r = if_data data.
Proof.
  unfold Linker._make_request, trace.
  destruct (urlopen s _) as [s' r]. simpl. eexists; repeat split.
Qed.


Local Abbreviation get_link_types := (Linker.get_link_types urlopen repr self).
Local Abbreviation find_link_type := (Linker.find_link_type urlopen repr self).
Local Abbreviation get_ticket := (Linker.get_ticket urlopen repr self).
Local Abbreviation get_issue_links := (Linker.get_issue_links urlopen repr self).
Local Abbreviation create_link := (Linker.create_link urlopen repr self).
Local Abbreviation delete_link := (Linker.delete_link urlopen repr self).

(** A fetch followed by a pure step sends the one request of the fetch. *)
Lemma linker_fetch_then {A} url (f : json -> outcome A) s :
  exists r, trace (bind (Linker._make_request urlopen repr self url GET None)
                     (fun x => lift (f x)) s) = [Sent r] /\ meth r = GET.
Proof.
  rewrite trace_bind.
  destruct (linker_request_trace url GET None s) as (r & Ht & Hm & _).
  exists r. rewrite Ht. split; [|exact Hm].
  destruct (Linker._make_request _ _ _ _ _ _ s) as [[[a|e|c] s1] t1]; reflexivity.
Qed.

Lemma get_link_types_reads s :
  forallb reading (requests (trace (get_link_types s))) = true.
Proof.
  unfold Linker.get_link_types.
  destruct (linker_fetch_then (Linker.base_url self ++ "/issueLinkType")
              (fun response => get response "issueLinkTypes" (JArr [])) s)
    as (r & Ht & Hm).
  rewrite Ht. simpl. unfold reading, mutating. now rewrite Hm.
Qed.

Lemma find_link_type_reads name s :
  forallb reading (requests (trace (find_link_type name s))) = true.
Proof.
  unfold Linker.find_link_type. rewrite trace_bind, requests_app, forallb_app.
  rewrite get_link_types_reads.
  destruct (get_link_types s) as [[[a|e|c] s1] t1]; reflexivity.
Qed.

Lemma get_ticket_reads key s :
  forallb reading (requests (trace (get_ticket key s))) = true.
Proof.
  unfold Linker.get_ticket.
  destruct (linker_request_trace
              (Linker.base_url self ++ "/issue/" ++ key
               ++ "?fields=summary,status,issuelinks") GET None s)
    as (r & Ht & Hm & _).
  rewrite Ht. simpl. unfold reading, mutating. now rewrite Hm.
Qed.

Lemma get_issue_links_reads key s :
  forallb reading (requests (trace (get_issue_links key s))) = true.
Proof.
  unfold Linker.get_issue_links. rewrite trace_bind, requests_app, forallb_app.
  rewrite get_ticket_reads.
  destruct (get_ticket key s) as [[[a|e|c] s1] t1]; reflexivity.
Qed.

(** [create_link] sends one request, the POST of its payload. *)
Lemma create_link_trace source target name comment s :
  exists r, trace (create_link source target name comment s) = [Sent r]
            /\ meth r = POST
            /\ IO.url r = Linker.base_url self ++ "/issueLink"
            /\ IO.data r = Some (Linker.create_link_data source target name comment).
Proof.
  unfold Linker.create_link. rewrite trace_bind.
  destruct (linker_request_trace (Linker.base_url self ++ "/issueLink") POST
              (Some (Linker.create_link_data source target name comment)) s)
    as (r & Ht & Hm & Hu & Hd).
  exists r. rewrite Ht. repeat split; try assumption.
  - destruct (Linker._make_request _ _ _ _ _ _ s) as [[[a|e|c] s1] t1]; reflexivity.
  - rewrite Hd. unfold Linker.create_link_data.
    destruct comment as [c|]; [destruct (given (Some c))|]; reflexivity.
Qed.

Lemma delete_link_trace link_id s :
  exists r, trace (delete_link link_id s) = [Sent r]
            /\ meth r = DELETE
            /\ IO.url r = Linker.base_url self ++ "/issueLink/" ++ link_id.
Proof.
  unfold Linker.delete_link. rewrite trace_bind.
  destruct (linker_request_trace (Linker.base_url self ++ "/issueLink/" ++ link_id)
              DELETE None s) as (r & Ht & Hm & Hu & _).
  exists r. rewrite Ht. repeat split; try assumption.
  destruct (Linker._make_request _ _ _ _ _ _ s) as [[[a|e|c] s1] t1]; reflexivity.
Qed.

End LinkerRequests.

(** ** Dry runs *)

Section DryRunLink.
Import Py IO.
Context {St : Type}.
Variable urlopen : St -> request -> St * reply.
Variable repr : json -> string.
Variable self : Linker.JiraLinker.

Lemma execute_link_same_reads source target type_name comment s :
  same_reads
    (Linker.execute_link urlopen repr self source target type_name comment true s)
    (Linker.execute_link urlopen repr self source target type_name comment false s).
Proof.
  unfold Linker.execute_link. apply same_reads_try.
  apply same_reads_bind; [apply find_link_type_reads|intros link_type s1 t1 _; cbv beta].
  apply same_reads_bind; [destruct (truthy link_type); reflexivity|intros _ s2 t2 _; cbv beta].
  apply same_reads_bind; [apply get_ticket_reads|intros source_ticket s3 t3 _; cbv beta].
  apply same_reads_bind; [apply get_ticket_reads|intros target_ticket s4 t4 _; cbv beta].
  do 10 (apply same_reads_bind; [reflexivity|intros ? ? ? _; cbv beta]).
  apply same_reads_bind;
    [destruct comment as [c|]; [destruct (given (Some c))|]; reflexivity
    |intros _ sf tf _; cbv beta].
  unfold same_reads. rewrite trace_bind.
  destruct (getitem link_type "name") as [name|e|c]; try reflexivity.
  cbn [lift trace snd app]. rewrite trace_bind.
  destruct (create_link_trace urlopen repr self source target name comment sf)
    as (r & Ht & Hm & _).
  rewrite Ht. cbn [app requests flat_map take_while print trace snd].
  unfold reading, mutating. now rewrite Hm.
Qed.

End DryRunLink.

(** ** What each method of the transition tool sends *)

Section TransitionerRequests.
Import Py IO.
Context {St : Type}.
Variable urlopen : St -> request -> St * reply.
Variable repr : json -> string.
Variable self : Transitioner.JiraTransitioner.

Local Abbreviation get_ticket := (Transitioner.get_ticket urlopen repr self).
Local Abbreviation get_transitions := (Transitioner.get_transitions urlopen repr self).
Local Abbreviation find_transition := (Transitioner.find_transition urlopen repr self).
Local Abbreviation transition_ticket := (Transitioner.transition_ticket urlopen repr self).

Lemma transitioner_request_trace url method data s :
  exists r, trace (Transitioner._make_request urlopen repr self url method data s)
            = [Sent r]
            /\ meth r = method /\ IO.url r = url /\ IO.data r = if_data data.
Proof.
  unfold Transitioner._make_request, trace.
  destruct (urlopen s _) as [s' r]. simpl. eexists; repeat split.
Qed.

Lemma transitioner_get_ticket_trace key s :
  exists r, trace (get_ticket key s) = [Sent r] /\ meth r = GET
            /\ IO.url r = Transitioner.base_url self ++ "/issue/" ++ key.
Proof.
  unfold Transitioner.get_ticket.
  destruct (transitioner_request_trace
              (Transitioner.base_url self ++ "/issue/" ++ key) GET None s)
    as (r & Ht & Hm & Hu & _).
  now exists r.
Qed.

Lemma transitioner_get_ticket_reads key s :
  forallb reading (requests (trace (get_ticket key s))) = true.
Proof.
  destruct (transitioner_get_ticket_trace key s) as (r & Ht & Hm & _).
  rewrite Ht. simpl. unfold reading, mutating. now rewrite Hm.
Qed.

Lemma get_transitions_trace key s :
  exists r, trace (get_transitions key s) = [Sent r] /\ meth r = GET.
Proof.
  unfold Transitioner.get_transitions. rewrite trace_bind.
  destruct (transitioner_request_trace
              (Transitioner.base_url self ++ "/issue/" ++ key ++ "/transitions")
              GET None s) as (r & Ht & Hm & _).
  exists r. rewrite Ht. split; [|exact Hm].
  destruct (Transitioner._make_request _ _ _ _ _ _ s) as [[[a|e|c] s1] t1];
    reflexivity.
Qed.

Lemma get_transitions_reads key s :
  forallb reading (requests (trace (get_transitions key s))) = true.
Proof.
  destruct (get_transitions_trace key s) as (r & Ht & Hm).
  rewrite Ht. simpl. unfold reading, mutating. now rewrite Hm.
Qed.

Lemma find_transition_reads key status s :
  forallb reading (requests (trace (find_transition key status s))) = true.
Proof.
  unfold Transitioner.find_transition. rewrite trace_bind, requests_app, forallb_app.
  rewrite get_transitions_reads.
  destruct (get_transitions key s) as [[[a|e|c] s1] t1]; reflexivity.
Qed.

(** [transition_ticket] without fields sends one request, the POST of the
    transition id. *)
Lemma transition_ticket_trace key transition_id s :
  exists r, trace (transition_ticket key transition_id None s) = [Sent r]
            /\ meth r = POST
            /\ IO.url r = Transitioner.base_url self ++ "/issue/" ++ key ++ "/transitions"
            /\ IO.data r = Some (JObj [("transition", JObj [("id", transition_id)])]).
Proof.
  unfold Transitioner.transition_ticket. rewrite trace_bind.
  cbn [if_data].
  destruct (transitioner_request_trace
              (Transitioner.base_url self ++ "/issue/" ++ key ++ "/transitions") POST
              (Some (JObj [("transition", JObj [("id", transition_id)])])) s)
    as (r & Ht & Hm & Hu & Hd).
  exists r. rewrite Ht. repeat split; try assumption.
  destruct (Transitioner._make_request _ _ _ _ _ _ s) as [[[a|e|c] s1] t1];
    reflexivity.
Qed.

(** Listing the catalog prints and sends nothing. *)
Lemma available_rows_silent (items : list json) (s : St) :
  requests (trace (for_each (Transitioner.available_row repr) items s)) = [].
Proof.
  revert s. induction items as [|t items IH]; intros s; [reflexivity|].
  cbn [for_each]. rewrite trace_bind, requests_app.
  unfold Transitioner.available_row at 1 2.
  destruct (obind (get t "to" (JObj [])) _) as [line|e|c]; cbn; auto.
Qed.

End TransitionerRequests.

Section DryRunTransition.
Import Py IO.
Context {St : Type}.
Variable urlopen : St -> request -> St * reply.
Variable repr : json -> string.
Variable self : Transitioner.JiraTransitioner.

Lemma execute_transition_same_reads key status s :
  same_reads
    (Transitioner.execute_transition urlopen repr self key status true s)
    (Transitioner.execute_transition urlopen repr self key status false s).
Proof.
  unfold Transitioner.execute_transition. apply same_reads_try.
  apply same_reads_bind;
    [apply transitioner_get_ticket_reads|intros ticket s1 t1 _; cbv beta].
  do 4 (apply same_reads_bind; [reflexivity|intros ? ? ? _; cbv beta]).
  apply same_reads_bind;
    [apply find_transition_reads|intros [[transition_id transition_name]|] sb tb _].
  - apply same_reads_bind;
      [apply get_transitions_reads|intros transitions sc tc _; cbv beta].
    apply same_reads_bind; [reflexivity|intros found sd td _; cbv beta].
    unfold same_reads. rewrite !trace_print_then.
    cbn [print trace snd]. rewrite trace_bind.
    destruct (transition_ticket_trace urlopen repr self key transition_id sd)
      as (r & Ht & Hm & _).
    rewrite Ht. cbn [app requests flat_map take_while bind print trace snd].
    unfold reading, mutating. now rewrite Hm.
  - apply same_reads_refl.
    rewrite !trace_print_then, !requests_stdout.
    rewrite trace_bind, requests_app, forallb_app, get_transitions_reads.
    cbn [andb].
    destruct (Transitioner.get_transitions _ _ _ key sb) as [[[tr|e|c] sc] tc];
      [|reflexivity..].
    rewrite trace_lift_then.
    destruct (iter tr) as [items|e|c]; [|reflexivity..].
    rewrite trace_bind, requests_app, available_rows_silent.
    destruct (for_each _ items sc) as [[[u|e|c] sd] td]; reflexivity.
Qed.

End DryRunTransition.

Section DryRun.
Import Py IO.
Context {St : Type}.
Variable urlopen : St -> request -> St * reply.
Variable repr : json -> string.

Lemma no_mutation_of_reads (rs : list request) :
  forallb reading rs = true -> filter mutating rs = [].
Proof.
  induction rs as [|r rs IH]; simpl; [reflexivity|].
  unfold reading at 1. destruct (mutating r); simpl; [discriminate|exact IH].
Qed.

Lemma same_reads_no_mutation {A B} (dry : outcome A * St * list event)
  (real : outcome B * St * list event) :
  same_reads dry real -> filter mutating (requests (trace dry)) = [].
Proof.
  unfold same_reads. intros ->. apply no_mutation_of_reads, take_while_all.
Qed.

(** C5. A dry run of link creation or of a transition sends no mutating
    (POST or DELETE) request, and the requests it does send are exactly the
    ones the real run sends before its first mutating request. *)
Theorem dry_run_no_op :
  (forall (self : Linker.JiraLinker) source target type_name comment (s : St),
      let dry := Linker.execute_link urlopen repr self source target type_name
                   comment true s in
      let real := Linker.execute_link urlopen repr self source target type_name
                    comment false s in
      filter mutating (requests (trace dry)) = []
      /\ requests (trace dry) = take_while reading (requests (trace real)))
  /\ (forall (self : Transitioner.JiraTransitioner) key status (s : St),
      let dry := Transitioner.execute_transition urlopen repr self key status true s in
      let real := Transitioner.execute_transition urlopen repr self key status false s in
      filter mutating (requests (trace dry)) = []
      /\ requests (trace dry) = take_while reading (requests (trace real))).
Proof.
  split; intros; split.
  - eapply same_reads_no_mutation, execute_link_same_reads.
  - apply execute_link_same_reads.
  - eapply same_reads_no_mutation, execute_transition_same_reads.
  - apply execute_transition_same_reads.
Qed.

End DryRun.

(** ** Failed requests *)

Section ErrorMessages.
Import Py IO Model.
Context {St : Type}.
Variable urlopen : St -> request -> St * reply.
Variable repr : json -> string.

Lemma linker_http_failure {A} code msg error_body :
  exists text,
    @Linker.http_failure repr A code msg error_body =
    Raise (Failure ("HTTP " ++ str_of_Z code ++ ": " ++ text))
    /\ extracted error_body (http_error_str code msg) text.
Proof.
  unfold Linker.http_failure, extracted.
  destruct error_body as [t|j|]; cbn.
  - eexists; split; [reflexivity|].
    repeat split; intros; try discriminate; reflexivity.
  - destruct j as [| b | n | str0 | xs | kvs]; cbn;
      try (eexists; split; [reflexivity|]; repeat split; intros; discriminate).
    destruct (assoc "errorMessages" kvs) as [v|] eqn:E; cbn.
    + destruct v as [| b | n | [|ch str0] | [|x xs] | kvs']; cbn;
        (eexists; split; [reflexivity|]);
        (repeat split; intros ? ; intros; try discriminate;
         match goal with
         | H : Json _ = Json _ |- _ => injection H as <-
         end;
         match goal with
         | H : assoc _ _ = _ |- _ => rewrite E in H; try discriminate
         end);
        try reflexivity.
      match goal with
      | H : Some _ = Some _ |- _ => injection H as -> _
      end. reflexivity.
    + eexists; split; [reflexivity|].
      repeat split; intros ? ; intros; try discriminate;
        match goal with
        | H : Json _ = Json _ |- _ => injection H as <-
        end; try congruence; reflexivity.
  - eexists; split; [reflexivity|].
    repeat split; intros; discriminate.
Qed.

(** C8. When [urlopen] raises [HTTPError] and the body of the error decodes,
    the exception [_make_request] raises carries the numeric status code and
    a message: the first string of the body's [errorMessages] list when the
    body is JSON with such a non-empty list, and [str(e)], which reads
    "HTTP Error code: reason", when the body is not JSON, has no
    [errorMessages] key, or has an empty list there.  When the body does not
    decode, the decoder's error is what is raised, and it carries no status
    code.  Both tools do the same. *)
Theorem error_message_extraction
  (url : string) (method : IO.method) (data : option json) (s s' : St)
  (code : Z) (msg : string) (raw : body) :
  (forall self : Linker.JiraLinker,
      urlopen s (Linker.build_request self url method data)
      = (s', HTTPError code msg raw) ->
      (raw <> Garbled ->
       exists text,
         Linker._make_request urlopen repr self url method data s
         = (Raise (Failure ("HTTP " ++ str_of_Z code ++ ": " ++ text)), s',
            [Sent (Linker.build_request self url method data)])
         /\ extracted raw (http_error_str code msg) text)
      /\ (raw = Garbled ->
          Linker._make_request urlopen repr self url method data s
          = (Raise UnicodeDecodeError, s',
             [Sent (Linker.build_request self url method data)])))
  /\ (forall self : Transitioner.JiraTransitioner,
      urlopen s (Transitioner.build_request self url method data)
      = (s', HTTPError code msg raw) ->
      (raw <> Garbled ->
       exists text,
         Transitioner._make_request urlopen repr self url method data s
         = (Raise (Failure ("HTTP " ++ str_of_Z code ++ ": " ++ text)), s',
            [Sent (Transitioner.build_request self url method data)])
         /\ extracted raw (http_error_str code msg) text)
      /\ (raw = Garbled ->
          Transitioner._make_request urlopen repr self url method data s
          = (Raise UnicodeDecodeError, s',
             [Sent (Transitioner.build_request self url method data)]))).
Proof.
  split; intros self H; (split; [intros Hraw|intros ->]).
  - destruct (@linker_http_failure json code msg raw) as (text & Hf & Hx).
    exists text. split; [|exact Hx].
    unfold Linker._make_request. rewrite H.
    destruct raw as [t|j|]; [| |contradiction]; cbn [decode obind];
      rewrite Hf; reflexivity.
  - unfold Linker._make_request. rewrite H. reflexivity.
  - destruct (@linker_http_failure json code msg raw) as (text & Hf & Hx).
    exists text. split; [|exact Hx].
    unfold Transitioner._make_request. rewrite H.
    change (@Transitioner.http_failure repr json code msg)
      with (@Linker.http_failure repr json code msg).
    destruct raw as [t|j|]; [| |contradiction]; cbn [decode obind];
      rewrite Hf; reflexivity.
  - unfold Transitioner._make_request. rewrite H. reflexivity.
Qed.

End ErrorMessages.

Lemma error_message_extraction_witness :
  exists text,
    Linker._make_request Script.urlopen Script.repr Samples.linker
      "https://example.atlassian.net/rest/api/3/issue/PROJ-1" IO.GET None
      [Samples.not_found]
    = (Py.Raise (Py.Failure ("HTTP " ++ Py.str_of_Z 404 ++ ": " ++ text)), [],
       [IO.Sent (Linker.build_request Samples.linker
                   "https://example.atlassian.net/rest/api/3/issue/PROJ-1"
                   IO.GET None)])
    /\ Model.extracted
         (IO.Json (Py.JObj [("errorMessages", Py.JArr [Py.JStr "Issue does not exist"]);
                            ("errors", Py.JObj [])]))
         (IO.http_error_str 404 "Not Found") text.
Proof.
  refine (proj1 (proj1 (error_message_extraction Script.urlopen Script.repr
                          "https://example.atlassian.net/rest/api/3/issue/PROJ-1"
                          IO.GET None [Samples.not_found] [] 404 "Not Found" _)
                   Samples.linker eq_refl) _).
  discriminate.
Defined.

(** The fallback is not the status text: a 404 whose body is a page, not
    JSON, surfaces "HTTP 404: HTTP Error 404: Not Found", and no reading of
    the run gives the message "Not Found" that the status text alone would
    be. *)
Lemma fallback_is_not_the_status_text :
  Linker._make_request Script.urlopen Script.repr Samples.linker
    "https://example.atlassian.net/rest/api/3/issue/PROJ-1" IO.GET None
    [IO.HTTPError 404 "Not Found" (IO.Text "<html>Not Found</html>")]
  = (Py.Raise (Py.Failure "HTTP 404: HTTP Error 404: Not Found"), [],
     [IO.Sent (Linker.build_request Samples.linker
                 "https://example.atlassian.net/rest/api/3/issue/PROJ-1"
                 IO.GET None)])
  /\ ~ (exists text,
          Linker._make_request Script.urlopen Script.repr Samples.linker
            "https://example.atlassian.net/rest/api/3/issue/PROJ-1" IO.GET None
            [IO.HTTPError 404 "Not Found" (IO.Text "<html>Not Found</html>")]
          = (Py.Raise (Py.Failure ("HTTP " ++ Py.str_of_Z 404 ++ ": " ++ text)), [],
             [IO.Sent (Linker.build_request Samples.linker
                         "https://example.atlassian.net/rest/api/3/issue/PROJ-1"
                         IO.GET None)])
          /\ Model.extracted (IO.Text "<html>Not Found</html>") "Not Found" text).
Proof.
  split; [reflexivity|].
  intros (text & Hrun & _ & Htext & _).
  rewrite (Htext "<html>Not Found</html>" eq_refl) in Hrun.
  discriminate Hrun.
Qed.

(** Nor does every failed request surface its status code: when the body of
    the error is not UTF-8, the decoder's error is raised. *)
Example undecodable_error_body :
  IO.result (Linker._make_request Script.urlopen Script.repr Samples.linker
               "https://example.atlassian.net/rest/api/3/issue/PROJ-1" IO.GET None
               [IO.HTTPError 502 "Bad Gateway" IO.Garbled])
  = Py.Raise Py.UnicodeDecodeError.
Proof. reflexivity. Qed.

(** The sample 404 surfaces the envelope's message with the code. *)
Example not_found_message :
  IO.result (Linker._make_request Script.urlopen Script.repr Samples.linker
               "https://example.atlassian.net/rest/api/3/issue/PROJ-1" IO.GET None
               [Samples.not_found])
  = Py.Raise (Py.Failure "HTTP 404: Issue does not exist").
Proof. reflexivity. Qed.

(** ** The payload of link creation *)

Section Mutations.
Import Py IO.
Context {St : Type}.

Lemma mutations_app (t1 t2 : list event) :
  mutations (t1 ++ t2) = (mutations t1 ++ mutations t2)%list.
Proof. unfold mutations. now rewrite requests_app, filter_app. Qed.

Lemma mutations_stdout (line : string) (t : list event) :
  mutations (Stdout line :: t) = mutations t.
Proof. reflexivity. Qed.

Lemma stdout_stdout (line : string) (t : list event) :
  stdout (Stdout line :: t) = line :: stdout t.
Proof. reflexivity. Qed.

Lemma mutations_lines {A} (f : A -> string) (xs : list A) :
  mutations (map (fun x => Stdout (f x)) xs) = [].
Proof. induction xs as [|x xs IH]; [reflexivity|exact IH]. Qed.

Lemma stdout_lines {A} (f : A -> string) (xs : list A) :
  stdout (map (fun x => Stdout (f x)) xs) = map f xs.
Proof.
  induction xs as [|x xs IH]; [reflexivity|].
  cbn [map]. now rewrite stdout_stdout, IH.
Qed.

Lemma stdout_of_lines (lines : list string) : stdout (map Stdout lines) = lines.
Proof.
  induction lines as [|l lines IH]; [reflexivity|].
  cbn [map]. now rewrite stdout_stdout, IH.
Qed.

Lemma stdout_of_blocks {A} (f : A -> list string) (xs : list A) :
  stdout (flat_map (fun x => map Stdout (f x)) xs) = flat_map f xs.
Proof.
  induction xs as [|x xs IH]; [reflexivity|].
  cbn [flat_map]. now rewrite stdout_app, stdout_of_lines, IH.
Qed.

Lemma mutations_of_reads (t : list event) :
  forallb reading (requests t) = true -> mutations t = [].
Proof. apply no_mutation_of_reads. Qed.

Lemma all_mutations_bind {A B} (P : request -> Prop) (m : io St A)
  (k : A -> io St B) (s : St) :
  Forall P (mutations (trace (m s))) ->
  (forall a s1 t1, m s = (Ret a, s1, t1) -> Forall P (mutations (trace (k a s1)))) ->
  Forall P (mutations (trace (bind m k s))).
Proof.
  intros Hm Hk. rewrite trace_bind, mutations_app. apply Forall_app. split; [exact Hm|].
  destruct (m s) as [[[a|e|c] s1] t1]; [|constructor..].
  now apply (Hk a s1 t1).
Qed.

Lemma all_mutations_try {A} (P : request -> Prop) (m : io St A)
  (prefix : string) (s : St) :
  Forall P (mutations (trace (m s))) ->
  Forall P (mutations (trace (try_except m
              (fun e => bind (eprint_exc prefix e) (fun _ => sys_exit 1)) s))).
Proof. unfold mutations. now rewrite requests_try_exit. Qed.

End Mutations.

Section LinkPayload.
Import Py IO Model.
Context {St : Type}.
Variable urlopen : St -> request -> St * reply.
Variable repr : json -> string.
Variable self : Linker.JiraLinker.

Lemma create_link_data_slots source target name comment :
  let payload := Linker.create_link_data source target name comment in
  Linker.slot_key payload "inwardIssue" = Ret (JStr source)
  /\ Linker.slot_key payload "outwardIssue" = Ret (JStr target)
  /\ (ty <~ getitem payload "type" ;; getitem ty "name") = Ret name.
Proof.
  unfold Linker.create_link_data.
  destruct comment as [c|]; [destruct (given (Some c))|]; repeat split.
Qed.

(** What holds of the one mutating request [execute_link] can send. *)
Local Abbreviation link_post source target type_name comment s :=
  (fun r : request =>
     meth r = POST
     /\ IO.url r = Linker.base_url self ++ "/issueLink"
     /\ exists link_type name,
         result (Linker.find_link_type urlopen repr self type_name s) = Ret link_type
         /\ getitem link_type "name" = Ret name
         /\ IO.data r = Some (Linker.create_link_data source target name comment)).

Lemma execute_link_mutations source target type_name comment dry_run s :
  Forall (link_post source target type_name comment s)
    (mutations (trace (Linker.execute_link urlopen repr self source target
                         type_name comment dry_run s))).
Proof.
  unfold Linker.execute_link. apply all_mutations_try.
  apply all_mutations_bind;
    [rewrite mutations_of_reads by apply find_link_type_reads; constructor
    |intros link_type s1 t1 Efind; cbv beta].
  apply all_mutations_bind;
    [destruct (truthy link_type); constructor|intros _ s2 t2 _; cbv beta].
  apply all_mutations_bind;
    [rewrite mutations_of_reads by apply get_ticket_reads; constructor
    |intros source_ticket s3 t3 _; cbv beta].
  apply all_mutations_bind;
    [rewrite mutations_of_reads by apply get_ticket_reads; constructor
    |intros target_ticket s4 t4 _; cbv beta].
  do 10 (apply all_mutations_bind; [constructor|intros ? ? ? _; cbv beta]).
  apply all_mutations_bind;
    [destruct comment as [c|]; [destruct (given (Some c))|]; constructor
    |intros _ sf tf _; cbv beta].
  destruct dry_run; [constructor|].
  rewrite trace_lift_then.
  destruct (getitem link_type "name") as [name|e|c] eqn:Ename; [|constructor..].
  rewrite trace_bind.
  destruct (create_link_trace urlopen repr self source target name comment sf)
    as (r & Ht & Hm & Hu & Hd).
  rewrite Ht, mutations_app. apply Forall_app. split.
  - unfold mutations. cbn [requests flat_map app filter]. unfold mutating at 1.
    rewrite Hm. constructor; [|constructor].
    split; [exact Hm|]. split; [exact Hu|].
    exists link_type, name. rewrite Efind. auto.
  - destruct (Linker.create_link _ _ _ _ _ _ _ sf) as [[[u|e|c] sg] tg]; constructor.
Qed.

End LinkPayload.

Section LinkPayloadClaim.
Import Py IO Model.
Context {St : Type}.
Variable urlopen : St -> request -> St * reply.
Variable repr : json -> string.
Variable self : Linker.JiraLinker.

Lemma result_bind_lift {A B} (m : io St A) (f : A -> outcome B) (s : St) :
  result (bind m (fun x => lift (f x)) s) = obind (result (m s)) f.
Proof.
  unfold bind, lift, result. destruct (m s) as [[[a|e|c] s1] t1]; reflexivity.
Qed.

(** Resolution over a fetched, well-formed catalog is the policy. *)
Lemma find_link_type_result catalog type_name s :
  result (Linker.get_link_types urlopen repr self s)
  = Ret (JArr (map link_type_json catalog)) ->
  result (Linker.find_link_type urlopen repr self type_name s)
  = Ret (match resolve_link_type catalog type_name with
         | Some lt => link_type_json lt
         | None => JNull
         end).
Proof.
  intros H. unfold Linker.find_link_type. rewrite result_bind_lift, H.
  apply find_link_type_policy.
Qed.

(** C2. Whatever the server answers, a mutating request sent by link
    creation is the POST to [/issueLink] whose payload holds the source key
    in the inward-issue slot and the target key in the outward-issue slot;
    its type name is the name of the link type the resolver returned, which
    for a fetched catalog is the canonical name of the resolved entry. *)
Theorem write_path_slot_swap
  (source target type_name : string) (comment : option string)
  (dry_run : bool) (s : St) (r : request) :
  In r (requests (trace (Linker.execute_link urlopen repr self source target
                           type_name comment dry_run s))) ->
  mutating r = true ->
  meth r = POST
  /\ IO.url r = Linker.base_url self ++ "/issueLink"
  /\ exists payload name,
      IO.data r = Some payload
      /\ Linker.slot_key payload "inwardIssue" = Ret (JStr source)
      /\ Linker.slot_key payload "outwardIssue" = Ret (JStr target)
      /\ (ty <~ getitem payload "type" ;; getitem ty "name") = Ret name
      /\ (exists link_type,
             result (Linker.find_link_type urlopen repr self type_name s)
             = Ret link_type
             /\ getitem link_type "name" = Ret name)
      /\ (forall catalog,
             result (Linker.get_link_types urlopen repr self s)
             = Ret (JArr (map link_type_json catalog)) ->
             exists lt, resolve_link_type catalog type_name = Some lt
                        /\ name = JStr (lt_name lt)).
Proof.
  intros Hin Hmut.
  pose proof (execute_link_mutations urlopen repr self source target type_name
                comment dry_run s) as Hall.
  rewrite Forall_forall in Hall.
  destruct (Hall r) as (Hm & Hu & link_type & name & Hfind & Hname & Hdata).
  { unfold mutations. apply filter_In. now split. }
  split; [exact Hm|]. split; [exact Hu|].
  exists (Linker.create_link_data source target name comment), name.
  destruct (create_link_data_slots source target name comment) as (Hi & Ho & Ht).
  repeat split; try assumption.
  - now exists link_type.
  - intros catalog Hcat.
    rewrite (find_link_type_result catalog type_name s Hcat) in Hfind.
    injection Hfind as <-.
    destruct (resolve_link_type catalog type_name) as [lt|]; [|discriminate].
    exists lt. split; [reflexivity|].
    cbn in Hname. now injection Hname as <-.
Qed.

End LinkPayloadClaim.

Lemma write_path_slot_swap_witness :
  In Samples.create_post
    (IO.requests (IO.trace (Linker.execute_link Script.urlopen Script.repr
                              Samples.linker "PROJ-1" "PROJ-2" "blocks" None false
                              Samples.create_replies)))
  /\ IO.meth Samples.create_post = IO.POST
  /\ exists payload name,
      IO.data Samples.create_post = Some payload
      /\ Linker.slot_key payload "inwardIssue" = Py.Ret (Py.JStr "PROJ-1")
      /\ Linker.slot_key payload "outwardIssue" = Py.Ret (Py.JStr "PROJ-2")
      /\ exists lt,
          Model.resolve_link_type [Samples.blocks; Samples.relates] "blocks" = Some lt
          /\ name = Py.JStr (Model.lt_name lt).
Proof.
  assert (Hin : In Samples.create_post
                  (IO.requests (IO.trace (Linker.execute_link Script.urlopen
                     Script.repr Samples.linker "PROJ-1" "PROJ-2" "blocks" None
                     false Samples.create_replies)))).
  { vm_compute. right. right. right. left. reflexivity. }
  split; [exact Hin|].
  destruct (write_path_slot_swap Script.urlopen Script.repr Samples.linker
              "PROJ-1" "PROJ-2" "blocks" None false Samples.create_replies
              Samples.create_post Hin eq_refl)
    as (Hm & _ & payload & name & Hd & Hi & Ho & _ & _ & Hcat).
  split; [exact Hm|].
  exists payload, name. repeat split; try assumption.
  apply (Hcat [Samples.blocks; Samples.relates]). reflexivity.
Defined.

(** ** Runs with known steps *)

Section KnownSteps.
Import Py IO.
Context {St : Type}.

Lemma run_bind_ret {A B} (m : io St A) (k : A -> io St B) s a s1 t1 :
  m s = (Ret a, s1, t1) ->
  bind m k s = (result (k a s1), final (k a s1), (t1 ++ trace (k a s1))%list).
Proof.
  intros H. unfold bind, result, final, trace. rewrite H.
  destruct (k a s1) as [[o s2] t2]. reflexivity.
Qed.

Lemma run_try_exit {A} (m : io St A) (h : exn -> io St A) s c s1 t1 :
  m s = (SysExit c, s1, t1) -> try_except m h s = (SysExit c, s1, t1).
Proof. intros H. unfold try_except. now rewrite H. Qed.

Lemma run_try_ret {A} (m : io St A) (h : exn -> io St A) s a s1 t1 :
  m s = (Ret a, s1, t1) -> try_except m h s = (Ret a, s1, t1).
Proof. intros H. unfold try_except. now rewrite H. Qed.

(** Stepping through a run whose first step is known. *)
Lemma step_bind {A B} (m : io St A) (k : A -> io St B) s a s1 t1 o s2 t2 :
  m s = (Ret a, s1, t1) ->
  k a s1 = (o, s2, t2) ->
  bind m k s = (o, s2, (t1 ++ t2)%list).
Proof. intros H1 H2. unfold bind. now rewrite H1, H2. Qed.

Lemma step_print {B} (line : string) (k : unit -> io St B) s o s2 t2 :
  k tt s = (o, s2, t2) ->
  bind (print line) k s = (o, s2, Stdout line :: t2).
Proof. intros H. unfold bind, print. now rewrite H. Qed.

Lemma step_lift {A B} (x : outcome A) (k : A -> io St B) s a o s2 t2 :
  x = Ret a ->
  k a s = (o, s2, t2) ->
  bind (lift x) k s = (o, s2, t2).
Proof. intros -> H. unfold bind, lift. now rewrite H. Qed.

Lemma result_bind {A B} (m : io St A) (k : A -> io St B) (s : St) :
  result (bind m k s) =
  match m s with
  | (Ret a, s1, _) => result (k a s1)
  | (Raise e, _, _) => Raise e
  | (SysExit c, _, _) => SysExit c
  end.
Proof.
  unfold bind, result. destruct (m s) as [[[a|e|c] s1] t1]; try reflexivity.
  now destruct (k a s1) as [[o s2] t2].
Qed.

Lemma run_eta {A} (r : outcome A * St * list event) :
  r = (result r, final r, trace r).
Proof. now destruct r as [[o s] t]. Qed.

Lemma final_bind_lift {A B} (m : io St A) (f : A -> outcome B) (s : St) :
  final (bind m (fun x => lift (f x)) s) = final (m s).
Proof.
  unfold bind, lift, final. destruct (m s) as [[[a|e|c] s1] t1]; reflexivity.
Qed.

Lemma trace_bind_lift {A B} (m : io St A) (f : A -> outcome B) (s : St) :
  trace (bind m (fun x => lift (f x)) s) = trace (m s).
Proof.
  unfold bind, lift, trace. destruct (m s) as [[[a|e|c] s1] t1]; simpl;
    try reflexivity. apply app_nil_r.
Qed.

End KnownSteps.

(** ** When nothing matches *)

Section NotFoundLink.
Import Py IO Model.
Context {St : Type}.
Variable urlopen : St -> request -> St * reply.
Variable repr : json -> string.
Variable self : Linker.JiraLinker.

Lemma find_link_type_run catalog type_name s :
  result (Linker.get_link_types urlopen repr self s)
  = Ret (JArr (map link_type_json catalog)) ->
  Linker.find_link_type urlopen repr self type_name s
  = (Ret (match resolve_link_type catalog type_name with
          | Some lt => link_type_json lt
          | None => JNull
          end),
     final (Linker.get_link_types urlopen repr self s),
     trace (Linker.get_link_types urlopen repr self s)).
Proof.
  intros H. rewrite (run_eta (Linker.find_link_type _ _ _ _ _)).
  rewrite (find_link_type_result urlopen repr self catalog type_name s H).
  unfold Linker.find_link_type. now rewrite final_bind_lift, trace_bind_lift.
Qed.

Lemma get_link_types_stdout s :
  stdout (trace (Linker.get_link_types urlopen repr self s)) = []
  /\ mutations (trace (Linker.get_link_types urlopen repr self s)) = [].
Proof.
  split; [|apply mutations_of_reads, get_link_types_reads].
  unfold Linker.get_link_types.
  destruct (linker_fetch_then urlopen repr self
              (Linker.base_url self ++ "/issueLinkType")
              (fun response => get response "issueLinkTypes" (JArr [])) s)
    as (r & Ht & _).
  now rewrite Ht.
Qed.

(** On the link path an unresolved name ends the command with the error and
    the hint to list the types; nothing else is printed or sent. *)
Lemma execute_link_unknown catalog source target type_name comment dry_run s :
  result (Linker.get_link_types urlopen repr self s)
  = Ret (JArr (map link_type_json catalog)) ->
  resolve_link_type catalog type_name = None ->
  let run := Linker.execute_link urlopen repr self source target type_name
               comment dry_run s in
  result run = SysExit 1
  /\ mutations (trace run) = []
  /\ stdout (trace run)
     = ["Error: Unknown link type '" ++ type_name ++ "'";
        nl ++ "Use --list-types to see available link types"].
Proof.
  intros Hcat Hres run.
  assert (Hrun : run = (SysExit 1, final (Linker.get_link_types urlopen repr self s),
                        (trace (Linker.get_link_types urlopen repr self s)
                         ++ [Stdout ("Error: Unknown link type '" ++ type_name ++ "'");
                             Stdout (nl ++ "Use --list-types to see available link types")])%list)).
  { unfold run, Linker.execute_link. apply run_try_exit.
    erewrite run_bind_ret by (apply (find_link_type_run catalog); exact Hcat).
    rewrite Hres. reflexivity. }
  destruct (get_link_types_stdout s) as [Hout Hmut].
  rewrite Hrun.
  set (t := trace (Linker.get_link_types urlopen repr self s)) in *.
  cbn [result trace fst snd].
  rewrite mutations_app, stdout_app, Hout, Hmut. repeat split.
Qed.

End NotFoundLink.

Section NotFoundTransition.
Import Py IO Model.
Context {St : Type}.
Variable urlopen : St -> request -> St * reply.
Variable repr : json -> string.
Variable self : Transitioner.JiraTransitioner.

Local Abbreviation get_ticket := (Transitioner.get_ticket urlopen repr self).
Local Abbreviation get_transitions := (Transitioner.get_transitions urlopen repr self).
Local Abbreviation find_transition := (Transitioner.find_transition urlopen repr self).

Lemma find_transition_run catalog key status s :
  result (get_transitions key s) = Ret (JArr (map transition_json catalog)) ->
  find_transition key status s
  = (Ret (option_map (fun t => (JStr (tr_id t), JStr (tr_name t)))
            (resolve_transition catalog status)),
     final (get_transitions key s), trace (get_transitions key s)).
Proof.
  intros H. rewrite (run_eta (find_transition _ _ _)).
  unfold Transitioner.find_transition.
  rewrite result_bind_lift, final_bind_lift, trace_bind_lift, H.
  cbn [obind]. now rewrite find_transition_policy.
Qed.

(** The line printed for one entry of the catalog. *)
Local Abbreviation shown t := ("  - " ++ tr_name t ++ " → " ++ tr_to t).

Lemma available_rows_run (catalog : list Transition) (s : St) :
  for_each (Transitioner.available_row repr) (map transition_json catalog) s
  = (Ret tt, s, map (fun t => Stdout (shown t)) catalog).
Proof.
  induction catalog as [|t catalog IH]; [reflexivity|].
  cbn [map for_each]. eapply (step_bind _ _ _ _ _ [Stdout (shown t)]); [reflexivity|].
  exact IH.
Qed.

Lemma get_transitions_quiet key s :
  stdout (trace (get_transitions key s)) = []
  /\ mutations (trace (get_transitions key s)) = [].
Proof.
  split; [|apply mutations_of_reads, get_transitions_reads].
  destruct (get_transitions_trace urlopen repr self key s) as (r & Ht & _).
  now rewrite Ht.
Qed.

Lemma transitioner_get_ticket_quiet key s :
  stdout (trace (get_ticket key s)) = []
  /\ mutations (trace (get_ticket key s)) = [].
Proof.
  split; [|apply mutations_of_reads, transitioner_get_ticket_reads].
  destruct (transitioner_get_ticket_trace urlopen repr self key s) as (r & Ht & _).
  now rewrite Ht.
Qed.

Local Abbreviation head_line key summary :=
  (nl ++ "📋 " ++ key ++ ": " ++ str repr summary).
Local Abbreviation status_line current := ("Current Status: " ++ str repr current).
Local Abbreviation cannot_line status :=
  (nl ++ "❌ Cannot transition to '" ++ status ++ "'").
Local Abbreviation available_line := (nl ++ "Available transitions:").

(** On the transition path an unresolved name ends the command after the
    catalog, fetched again, has been listed entry by entry. *)
Lemma execute_transition_unknown catalog relisted key status dry_run
  ticket current summary s :
  result (get_ticket key s) = Ret ticket ->
  (f <~ getitem ticket "fields" ;; st <~ getitem f "status" ;; getitem st "name")
  = Ret current ->
  (f <~ getitem ticket "fields" ;; getitem f "summary") = Ret summary ->
  let s1 := final (get_ticket key s) in
  result (get_transitions key s1) = Ret (JArr (map transition_json catalog)) ->
  resolve_transition catalog status = None ->
  let s2 := final (get_transitions key s1) in
  result (get_transitions key s2) = Ret (JArr (map transition_json relisted)) ->
  let run := Transitioner.execute_transition urlopen repr self key status dry_run s in
  result run = SysExit 1
  /\ mutations (trace run) = []
  /\ stdout (trace run)
     = ([head_line key summary; status_line current;
         cannot_line status; available_line]
        ++ map (fun t => shown t) relisted)%list.
Proof.
  intros Hticket Hcur Hsum s1 Hcat Hres s2 Hagain run.
  assert (Hrun : exists sx tx,
             run = (SysExit 1, sx, tx)
             /\ mutations tx = []
             /\ stdout tx = ([head_line key summary; status_line current;
                              cannot_line status; available_line]
                             ++ map (fun t => shown t) relisted)%list).
  { eexists. eexists. split.
    - unfold run, Transitioner.execute_transition. apply run_try_exit.
      eapply step_bind.
      { rewrite (run_eta (get_ticket key s)), Hticket. reflexivity. }
      eapply step_lift; [exact Hcur|].
      eapply step_lift; [exact Hsum|].
      do 2 eapply step_print.
      eapply step_bind.
      { apply (find_transition_run catalog). exact Hcat. }
      rewrite Hres. cbn [option_map].
      do 2 eapply step_print.
      eapply step_bind.
      { rewrite (run_eta (get_transitions key _)). fold s1 s2. rewrite Hagain.
        reflexivity. }
      eapply step_lift; [reflexivity|].
      eapply step_bind; [apply available_rows_run|].
      reflexivity.
    - destruct (transitioner_get_ticket_quiet key s) as [Ho1 Hm1].
      destruct (get_transitions_quiet key s1) as [Ho2 Hm2].
      destruct (get_transitions_quiet key s2) as [Ho3 Hm3].
      fold s1 s2.
      repeat rewrite ?mutations_app, ?stdout_app, ?mutations_stdout, ?stdout_stdout.
      rewrite Ho1, Hm1, Ho2, Hm2, Ho3, Hm3, mutations_lines, stdout_lines.
      split; [reflexivity|]. cbn. now rewrite app_nil_r. }
  destruct Hrun as (sx & tx & -> & Hm & Ho). repeat split; assumption.
Qed.

End NotFoundTransition.

Section NotFoundTransitionAnyListing.
Import Py IO Model.
Context {St : Type}.
Variable urlopen : St -> request -> St * reply.
Variable repr : json -> string.
Variable self : Transitioner.JiraTransitioner.

Local Abbreviation get_ticket := (Transitioner.get_ticket urlopen repr self).
Local Abbreviation get_transitions := (Transitioner.get_transitions urlopen repr self).
Local Abbreviation stays o :=
  (match o with SysExit _ => False | _ => True end).

Lemma transitioner_request_stays url method data s :
  stays (result (Transitioner._make_request urlopen repr self url method data s)).
Proof.
  unfold Transitioner._make_request, result.
  destruct (urlopen s _) as [s' [status b|code msg b|reason]]; cbn [fst].
  - destruct (Z.eqb status 204); [exact I|]. now destruct b.
  - change (@Transitioner.http_failure repr json code msg)
      with (@Linker.http_failure repr json code msg).
    destruct b as [t|j|]; cbn [decode obind]; [| |exact I].
    + destruct (@linker_http_failure repr json code msg (Text t)) as (text & -> & _).
      exact I.
    + destruct (@linker_http_failure repr json code msg (Json j)) as (text & -> & _).
      exact I.
  - exact I.
Qed.

Lemma get_transitions_stays key s :
  stays (result (get_transitions key s)).
Proof.
  unfold Transitioner.get_transitions. rewrite result_bind_lift.
  pose proof (transitioner_request_stays
                (Transitioner.base_url self ++ "/issue/" ++ key ++ "/transitions")
                GET None s) as H.
  destruct (result _) as [response|e|c]; [|exact I|exact H].
  cbn [obind]. destruct response as [| | | | |kvs]; try exact I.
  cbn. now destruct (assoc "transitions" kvs).
Qed.

Lemma available_rows_stay (items : list json) (s : St) :
  stays (result (for_each (Transitioner.available_row repr) items s)).
Proof.
  revert s. induction items as [|t items IH]; intros s; [exact I|].
  cbn [for_each]. unfold bind.
  destruct (Transitioner.available_row repr t s) as [[[u|e|c] s1] t1] eqn:E.
  - specialize (IH s1). destruct (for_each _ items s1) as [[o s2] t2]. exact IH.
  - exact I.
  - exfalso. revert E. unfold Transitioner.available_row, bind, lift.
    destruct (obind (get t "to" (JObj [])) _) as [line|e|c'] eqn:F;
      cbn; try discriminate.
    revert F. destruct t as [| | | | |kvs]; cbn; try discriminate.
    destruct (assoc "to" kvs) as [[| | | | |kvs']|]; cbn; try discriminate;
      try (destruct (assoc "name" kvs'); cbn);
      destruct (assoc "name" kvs); discriminate.
Qed.

(** After a failed resolution the rest of [execute_transition] sends no
    mutating request and never returns normally. *)
Lemma listing_tail key (s : St) :
  let r := bind (get_transitions key) (fun transitions =>
           bind (lift (iter transitions)) (fun items =>
           bind (for_each (Transitioner.available_row repr) items) (fun _ =>
           sys_exit (A := unit) 1))) s in
  mutations (trace r) = []
  /\ (result r = SysExit 1 \/ exists e, result r = Raise e).
Proof.
  intros r. subst r. split.
  - rewrite trace_bind, mutations_app.
    rewrite (proj2 (get_transitions_quiet urlopen repr self key s)).
    destruct (get_transitions key s) as [[[tr|e|c] s1] t1]; [|reflexivity..].
    rewrite trace_lift_then. destruct (iter tr) as [items|e|c]; [|reflexivity..].
    rewrite trace_bind, mutations_app. unfold mutations at 1.
    rewrite available_rows_silent.
    destruct (for_each _ items s1) as [[[u|e|c] s2] t2]; reflexivity.
  - pose proof (get_transitions_stays key s) as H1.
    rewrite result_bind.
    destruct (get_transitions key s) as [[[tr|e|c] s1] t1]; cbn [result fst] in H1;
      [|right; now exists e|contradiction].
    rewrite result_bind. unfold lift.
    destruct (iter tr) as [items|e|c] eqn:Ei;
      [|right; now exists e|destruct tr; discriminate].
    pose proof (available_rows_stay items s1) as H2.
    rewrite result_bind.
    destruct (for_each _ items s1) as [[[u|e|c] s2] t2]; cbn [result fst] in H2;
      [left; reflexivity|right; now exists e|contradiction].
Qed.

End NotFoundTransitionAnyListing.

Section Substrings.
Import Py.

Lemma prefix_app (x b : string) : String.prefix x (x ++ b) = true.
Proof.
  induction x as [|c x IH]; simpl; [now destruct b|].
  destruct (ascii_dec c c) as [_|n]; [exact IH|now destruct n].
Qed.

Lemma contains_prefix (x y : string) : String.prefix x y = true -> contains x y = true.
Proof. intros H. destruct y; cbn [contains]; now rewrite H. Qed.

Lemma contains_skip (a x y : string) : contains x y = true -> contains x (a ++ y) = true.
Proof.
  intros H. induction a as [|c a IH]; [exact H|].
  change (String c a ++ y) with (String c (a ++ y)).
  cbn [contains]. rewrite IH. now destruct (String.prefix x (String c (a ++ y))).
Qed.

Lemma contains_middle (a x b : string) : contains x (a ++ x ++ b) = true.
Proof. apply contains_skip, contains_prefix, prefix_app. Qed.

End Substrings.

Section NotFoundClaim.
Import Py IO Model.
Context {St : Type}.
Variable urlopen : St -> request -> St * reply.
Variable repr : json -> string.

Lemma try_exit_result {A} (m : io St A) (prefix : string) (s : St) :
  result (m s) = SysExit 1 \/ (exists e, result (m s) = Raise e) ->
  result (try_except m (fun e => bind (eprint_exc prefix e) (fun _ => sys_exit 1)) s)
  = SysExit 1.
Proof.
  unfold try_except, result.
  destruct (m s) as [[[a|e|c] s1] t1]; cbn [fst];
    intros [H|[e' H]]; try discriminate; try exact H; reflexivity.
Qed.

Lemma execute_transition_unresolved (self : Transitioner.JiraTransitioner)
  catalog key status dry_run ticket current summary s :
  result (Transitioner.get_ticket urlopen repr self key s) = Ret ticket ->
  (f <~ getitem ticket "fields" ;; st <~ getitem f "status" ;; getitem st "name")
  = Ret current ->
  (f <~ getitem ticket "fields" ;; getitem f "summary") = Ret summary ->
  result (Transitioner.get_transitions urlopen repr self key
            (final (Transitioner.get_ticket urlopen repr self key s)))
  = Ret (JArr (map transition_json catalog)) ->
  resolve_transition catalog status = None ->
  let run := Transitioner.execute_transition urlopen repr self key status dry_run s in
  result run = SysExit 1 /\ mutations (trace run) = [].
Proof.
  intros Hticket Hcur Hsum Hcat Hres run.
  set (s1 := final (Transitioner.get_ticket urlopen repr self key s)) in *.
  set (s2 := final (Transitioner.get_transitions urlopen repr self key s1)).
  pose proof (listing_tail urlopen repr self key s2) as [Hmut Hend].
  cbv zeta in Hmut, Hend.
  match type of Hmut with
  | mutations (trace ?r) = [] => set (tail := r) in *
  end.
  unfold run, Transitioner.execute_transition.
  match goal with
  | |- result (try_except ?body ?h s) = _ /\ _ =>
      assert (Hrun : exists tx, body s = (result tail, final tail, tx)
                                /\ mutations tx = [])
  end.
  { eexists. split.
    - eapply step_bind.
      { rewrite (run_eta (Transitioner.get_ticket _ _ _ key s)), Hticket.
        reflexivity. }
      eapply step_lift; [exact Hcur|].
      eapply step_lift; [exact Hsum|].
      do 2 eapply step_print.
      eapply step_bind.
      { apply (find_transition_run urlopen repr self catalog). exact Hcat. }
      rewrite Hres. cbn [option_map].
      do 2 eapply step_print.
      apply run_eta.
    - fold s1 s2.
      repeat rewrite ?mutations_app, ?mutations_stdout.
      rewrite (proj2 (transitioner_get_ticket_quiet urlopen repr self key s)).
      rewrite (proj2 (get_transitions_quiet urlopen repr self key s1)).
      exact Hmut. }
  destruct Hrun as (tx & Hrun & Htx). split.
  - apply try_exit_result. now rewrite Hrun.
  - unfold mutations. rewrite requests_try_exit, Hrun. exact Htx.
Qed.

End NotFoundClaim.

Section ListTypes.
Import Py IO Model.
Context {St : Type}.
Variable urlopen : St -> request -> St * reply.
Variable repr : json -> string.
Variable self : Linker.JiraLinker.

Local Abbreviation type_lines lt :=
  [nl ++ "  " ++ lt_name lt ++ " (ID: " ++ lt_id lt ++ ")";
   "    Outward: " ++ dq ++ lt_outward lt ++ dq;
   "    Inward:  " ++ dq ++ lt_inward lt ++ dq].

Lemma list_link_types_rows_run (catalog : list LinkType) (s : St) :
  for_each (Linker.list_link_types_row repr) (map link_type_json catalog) s
  = (Ret tt, s, flat_map (fun lt => map Stdout (type_lines lt)) catalog).
Proof.
  induction catalog as [|lt catalog IH]; [reflexivity|].
  cbn [map for_each flat_map].
  eapply step_bind; [reflexivity|exact IH].
Qed.

(** The command the hint points to, [--list-types], does show every entry of
    the catalog. *)
Lemma list_link_types_presents (catalog : list LinkType) (s : St) :
  result (Linker.get_link_types urlopen repr self s)
  = Ret (JArr (map link_type_json catalog)) ->
  catalog <> [] ->
  let run := Linker.list_link_types urlopen repr self s in
  result run = Ret tt
  /\ mutations (trace run) = []
  /\ presents lt_name catalog (stdout (trace run)).
Proof.
  intros Hcat Hne run.
  assert (Hrun : exists tx,
             run = (Ret tt, final (Linker.get_link_types urlopen repr self s),
                    (trace (Linker.get_link_types urlopen repr self s)
                     ++ Stdout (nl ++ "Available Link Types:")
                     :: Stdout (times "=" 60)
                     :: flat_map (fun lt => map Stdout (type_lines lt)) catalog
                     ++ map Stdout tx)%list)).
  { eexists. unfold run, Linker.list_link_types. apply run_try_ret.
    eapply step_bind.
    { rewrite (run_eta (Linker.get_link_types _ _ _ s)), Hcat. reflexivity. }
    do 2 eapply step_print.
    destruct catalog as [|lt0 catalog0]; [contradiction|].
    cbn [truthy map negb].
    eapply step_lift; [reflexivity|].
    eapply step_bind; [apply (list_link_types_rows_run (lt0 :: catalog0))|].
    instantiate (1 := [_; _; _; _]). reflexivity. }
  destruct Hrun as (tx & ->). cbn [result trace fst snd].
  destruct (get_link_types_stdout urlopen repr self s) as [Hout Hmut].
  split; [reflexivity|]. split.
  - rewrite mutations_app, Hmut, !mutations_stdout, mutations_app.
    rewrite (mutations_lines (fun l : string => l)).
    cbn [app]. clear. induction catalog as [|lt catalog IH]; [reflexivity|exact IH].
  - intros lt Hin. exists (nl ++ "  " ++ lt_name lt ++ " (ID: " ++ lt_id lt ++ ")").
    split; [|apply (contains_middle (nl ++ "  "))].
    rewrite stdout_app, Hout, !stdout_stdout, stdout_app. cbn [app].
    right. right. apply in_or_app. left.
    rewrite (stdout_of_blocks (fun lt => type_lines lt)).
    apply in_flat_map. exists lt. split; [exact Hin|now left].
Qed.

End ListTypes.

Section UnresolvedClaim.
Import Py IO Model.
Context {St : Type}.
Variable urlopen : St -> request -> St * reply.
Variable repr : json -> string.

Local Abbreviation shown t := ("  - " ++ tr_name t ++ " → " ++ tr_to t).

Lemma presents_listing (before : list string) (relisted : list Transition) :
  presents tr_name relisted (before ++ map (fun t => shown t) relisted).
Proof.
  intros t Hin. exists (shown t). split.
  - apply in_or_app. right. now apply (in_map (fun t => shown t)).
  - apply contains_middle.
Qed.

(** C4. A name that no tier matches resolves to nothing, and the
    command then ends with exit status 1 without any mutating request.  The
    transition tool fetches the transitions again and prints one line per
    entry, so every entry of that catalog is shown; the link tool prints the
    unknown-type error and the hint to run --list-types, and nothing else. *)
Theorem unresolved_name_ends_command :
  (forall (self : Linker.JiraLinker) catalog source target type_name comment
          dry_run (s : St),
      result (Linker.get_link_types urlopen repr self s)
      = Ret (JArr (map link_type_json catalog)) ->
      first_tier_first_candidate (link_type_tiers type_name) catalog = None ->
      let run := Linker.execute_link urlopen repr self source target type_name
                   comment dry_run s in
      result (Linker.find_link_type urlopen repr self type_name s) = Ret JNull
      /\ result run = SysExit 1
      /\ mutations (trace run) = []
      /\ stdout (trace run)
         = ["Error: Unknown link type '" ++ type_name ++ "'";
            nl ++ "Use --list-types to see available link types"])
  /\ (forall (self : Transitioner.JiraTransitioner) catalog key status dry_run
             ticket current summary (s : St),
      result (Transitioner.get_ticket urlopen repr self key s) = Ret ticket ->
      (f <~ getitem ticket "fields" ;; st <~ getitem f "status" ;; getitem st "name")
      = Ret current ->
      (f <~ getitem ticket "fields" ;; getitem f "summary") = Ret summary ->
      let s1 := final (Transitioner.get_ticket urlopen repr self key s) in
      result (Transitioner.get_transitions urlopen repr self key s1)
      = Ret (JArr (map transition_json catalog)) ->
      first_tier_first_candidate (transition_tiers status) catalog = None ->
      let run := Transitioner.execute_transition urlopen repr self key status
                   dry_run s in
      result (Transitioner.find_transition urlopen repr self key status s1) = Ret None
      /\ result run = SysExit 1
      /\ mutations (trace run) = []
      /\ forall relisted,
          result (Transitioner.get_transitions urlopen repr self key
                    (final (Transitioner.get_transitions urlopen repr self key s1)))
          = Ret (JArr (map transition_json relisted)) ->
          presents tr_name relisted (stdout (trace run))
          /\ length (filter (fun line => String.prefix "  - " line)
                       (stdout (trace run))) = length relisted).
Proof.
  split.
  - intros self catalog source target type_name comment dry_run s Hcat Hres run.
    split.
    + rewrite (find_link_type_result urlopen repr self catalog type_name s Hcat).
      unfold resolve_link_type. now rewrite Hres.
    + now apply (execute_link_unknown urlopen repr self catalog).
  - intros self catalog key status dry_run ticket current summary s
      Hticket Hcur Hsum s1 Hcat Hres run.
    split; [|split; [|split]].
    + rewrite (find_transition_run urlopen repr self catalog key status s1 Hcat).
      unfold resolve_transition. now rewrite Hres.
    + now apply (execute_transition_unresolved urlopen repr self catalog key status dry_run
                   ticket current summary s).
    + now apply (execute_transition_unresolved urlopen repr self catalog key status dry_run
                   ticket current summary s).
    + intros relisted Hagain.
      destruct (execute_transition_unknown urlopen repr self catalog relisted key
                  status dry_run ticket current summary s
                  Hticket Hcur Hsum Hcat Hres Hagain) as (_ & _ & Hout).
      fold run in Hout. rewrite Hout. split; [apply presents_listing|].
      rewrite filter_app, length_app.
      assert (Hhead : forall l, String.prefix "  - " (nl ++ l) = false)
        by reflexivity.
      cbn [filter]. rewrite !Hhead.
      replace (String.prefix "  - " ("Current Status: " ++ str repr current))
        with false by reflexivity.
      cbn [length Nat.add].
      clear. induction relisted as [|t l IH]; [reflexivity|].
      cbn [map filter].
      rewrite (prefix_app "  - ").
      cbn [length]. f_equal. exact IH.
Qed.

End UnresolvedClaim.

Lemma unresolved_name_ends_command_witness :
  (IO.result (Linker.execute_link Script.urlopen Script.repr Samples.linker
                "PROJ-1" "PROJ-2" "Duplicate" None false
                Samples.unknown_type_replies) = Py.SysExit 1
   /\ IO.stdout (IO.trace (Linker.execute_link Script.urlopen Script.repr
                   Samples.linker "PROJ-1" "PROJ-2" "Duplicate" None false
                   Samples.unknown_type_replies))
      = ["Error: Unknown link type '" ++ "Duplicate" ++ "'";
         IO.nl ++ "Use --list-types to see available link types"])
  /\ (IO.result (Transitioner.execute_transition Script.urlopen Script.repr
                   Samples.transitioner "PROJ-1" "Reopen" false
                   Samples.unknown_status_replies) = Py.SysExit 1
      /\ Model.presents Model.tr_name [Samples.start_progress; Samples.done]
           (IO.stdout (IO.trace (Transitioner.execute_transition Script.urlopen
              Script.repr Samples.transitioner "PROJ-1" "Reopen" false
              Samples.unknown_status_replies)))).
Proof.
  destruct (unresolved_name_ends_command Script.urlopen Script.repr) as [Hlink Htrans].
  split.
  - destruct (Hlink Samples.linker [Samples.blocks; Samples.relates]
                "PROJ-1" "PROJ-2" "Duplicate" None false
                Samples.unknown_type_replies eq_refl eq_refl)
      as (_ & Hexit & _ & Hout).
    split; assumption.
  - destruct (Htrans Samples.transitioner [Samples.start_progress; Samples.done]
                "PROJ-1" "Reopen" false Samples.login_bug
                (Py.JStr "Open") (Py.JStr "Login fails")
                Samples.unknown_status_replies
                eq_refl eq_refl eq_refl eq_refl eq_refl)
      as (_ & Hexit & _ & Hlist).
    split; [exact Hexit|].
    apply (Hlist [Samples.start_progress; Samples.done] eq_refl).
Defined.

(** The link tool does not show the catalog when the type is unknown: with
    the catalog Blocks, Relates and the name Duplicate, no printed line
    mentions Blocks. *)
Lemma link_path_catalog_not_shown :
  Model.resolve_link_type [Samples.blocks; Samples.relates] "Duplicate" = None
  /\ IO.mutations (IO.trace (Linker.execute_link Script.urlopen Script.repr
                     Samples.linker "PROJ-1" "PROJ-2" "Duplicate" None false
                     Samples.unknown_type_replies)) = []
  /\ ~ Model.presents Model.lt_name [Samples.blocks; Samples.relates]
         (IO.stdout (IO.trace (Linker.execute_link Script.urlopen Script.repr
            Samples.linker "PROJ-1" "PROJ-2" "Duplicate" None false
            Samples.unknown_type_replies))).
Proof.
  split; [reflexivity|]. split; [reflexivity|].
  intros H. destruct (H Samples.blocks (or_introl eq_refl)) as (line & Hin & Hc).
  vm_compute in Hin. destruct Hin as [<-|[<-|[]]]; vm_compute in Hc; discriminate.
Qed.

(** ** The read path *)

Section ReadPath.
Import Py IO Model.

(** The preview of a removal picks label and key as the listing does. *)
Lemma remove_direction_as_listed (link : json) :
  Linker.remove_direction link =
  (dl <~ Linker.list_direction link ;;
   linked_key <~ getitem (snd dl) "key" ;;
   Ret (fst dl, linked_key)).
Proof.
  unfold Linker.remove_direction, Linker.list_direction.
  destruct (has_key "outwardIssue" link) as [[|]|e|c]; cbn [obind]; try reflexivity.
  - destruct (getitem link "type") as [ty|e|c]; cbn [obind]; try reflexivity.
    destruct (getitem ty "outward") as [d|e|c]; cbn [obind]; try reflexivity.
    destruct (getitem link "outwardIssue") as [oi|e|c]; reflexivity.
  - destruct (getitem link "type") as [ty|e|c]; cbn [obind]; try reflexivity.
    destruct (getitem ty "inward") as [d|e|c]; cbn [obind]; try reflexivity.
    destruct (getitem link "inwardIssue") as [oi|e|c]; reflexivity.
Qed.

Lemma list_direction_read_path (l : IssueLink) :
  Linker.list_direction (issue_link_json l)
  = Ret (JStr (fst (read_path l)), peer_json (snd (read_path l))).
Proof.
  unfold read_path, issue_link_json. destruct (link_end l) as [p|p]; reflexivity.
Qed.

Lemma remove_direction_read_path (l : IssueLink) :
  Linker.remove_direction (issue_link_json l)
  = Ret (JStr (fst (read_path l)), JStr (peer_key (snd (read_path l)))).
Proof.
  rewrite remove_direction_as_listed, list_direction_read_path. reflexivity.
Qed.

Lemma same_id_search (repr : json -> string) (id : string) (links : list IssueLink) :
  for_return (Linker.same_id repr id) (map issue_link_json links)
  = Ret (option_map issue_link_json
           (find (fun l => String.eqb (link_id l) id) links)).
Proof.
  apply for_return_search. intros l. unfold Linker.same_id, issue_link_json.
  cbn. now destruct (String.eqb (link_id l) id).
Qed.

End ReadPath.

Section TryExit.
Import Py IO.
Context {St : Type}.

Lemma trace_try_exit {A} (m : io St A) (prefix : string) (s : St) :
  exists extra,
    trace (try_except m (fun e => bind (eprint_exc prefix e) (fun _ => sys_exit 1)) s)
    = (trace (m s) ++ extra)%list
    /\ requests extra = [] /\ stdout extra = [].
Proof.
  rewrite trace_try_except.
  destruct (m s) as [[[a|e|c] s1] t1]; eexists; repeat split.
Qed.

End TryExit.

(** ** Removing a link *)

Section Remove.
Import Py IO Model.
Context {St : Type}.
Variable urlopen : St -> request -> St * reply.
Variable repr : json -> string.
Variable self : Linker.JiraLinker.

Local Abbreviation get_issue_links := (Linker.get_issue_links urlopen repr self).
Local Abbreviation execute_remove := (Linker.execute_remove urlopen repr self).

Lemma get_issue_links_trace key s :
  exists r, trace (get_issue_links key s) = [Sent r] /\ meth r = GET.
Proof.
  unfold Linker.get_issue_links, Linker.get_ticket.
  apply (linker_fetch_then urlopen repr self _
           (fun ticket => fields <~ get ticket "fields" (JObj []) ;;
                          get fields "issuelinks" (JArr []))).
Qed.

Lemma find_absent (id : string) (links : list IssueLink) :
  (forall l, In l links -> link_id l <> id) ->
  find (fun l => String.eqb (link_id l) id) links = None.
Proof.
  intros H. apply find_none. apply forallb_forall. intros l Hin.
  apply negb_true_iff, String.eqb_neq. now apply H.
Qed.

Lemma execute_remove_absent links key id s :
  result (get_issue_links key s) = Ret (JArr (map issue_link_json links)) ->
  find (fun l => String.eqb (link_id l) id) links = None ->
  execute_remove key id s
  = (SysExit 1, final (get_issue_links key s),
     (trace (get_issue_links key s)
      ++ [Stdout ("Error: Link ID " ++ id ++ " not found on " ++ key);
          Stdout (nl ++ "Use --list to see existing links and their IDs")])%list).
Proof.
  intros Hlinks Hfind. unfold Linker.execute_remove. apply run_try_exit.
  eapply step_bind.
  { rewrite (run_eta (get_issue_links key s)), Hlinks. reflexivity. }
  eapply step_lift.
  { cbn [iter obind]. rewrite same_id_search, Hfind. reflexivity. }
  reflexivity.
Qed.

Lemma execute_remove_present links key id l s :
  result (get_issue_links key s) = Ret (JArr (map issue_link_json links)) ->
  find (fun l => String.eqb (link_id l) id) links = Some l ->
  let s1 := final (get_issue_links key s) in
  exists o sx,
    Linker.execute_remove urlopen repr self key id s = (o, sx,
      (trace (get_issue_links key s)
       ++ [Stdout (nl ++ "Removing link from " ++ key ++ ":");
           Stdout ("  Link ID: " ++ id);
           Stdout ("  Type: " ++ lt_name (link_type l));
           Stdout ("  " ++ fst (read_path l) ++ " " ++ peer_key (snd (read_path l)))]
       ++ trace (Linker.delete_link urlopen repr self id s1)
       ++ match result (Linker.delete_link urlopen repr self id s1) with
          | Ret _ => [Stdout (nl ++ "Link removed successfully!")]
          | Raise e => [StderrExc "Error: " e]
          | SysExit _ => []
          end)%list).
Proof.
  intros Hlinks Hfind s1.
  set (tail := bind (Linker.delete_link urlopen repr self id)
                 (fun _ => print (nl ++ "Link removed successfully!"))).
  unfold Linker.execute_remove. fold tail.
  match goal with
  | |- exists o sx, try_except ?body ?h s = _ =>
      assert (Hrun : body s = (result (tail s1), final (tail s1),
                (trace (get_issue_links key s)
                 ++ Stdout (nl ++ "Removing link from " ++ key ++ ":")
                 :: Stdout ("  Link ID: " ++ id)
                 :: Stdout ("  Type: " ++ lt_name (link_type l))
                 :: Stdout ("  " ++ fst (read_path l) ++ " "
                                 ++ peer_key (snd (read_path l)))
                 :: trace (tail s1))%list))
  end.
  { eapply step_bind.
    { rewrite (run_eta (get_issue_links key s)), Hlinks. reflexivity. }
    eapply step_lift.
    { cbn [iter obind]. rewrite same_id_search, Hfind. reflexivity. }
    cbv zeta.
    eapply (step_bind _ _ _ tt _ []); [reflexivity|].
    eapply step_lift; [reflexivity|].
    eapply step_lift; [apply remove_direction_read_path|].
    cbv iota beta. do 4 eapply step_print.
    apply run_eta. }
  unfold try_except. rewrite Hrun.
  subst tail. rewrite result_bind, trace_bind.
  destruct (Linker.delete_link urlopen repr self id s1) as [[[u|e|c] s2] t2];
    cbn [result trace fst snd print eprint_exc sys_exit bind];
    eexists; eexists; rewrite <- ?app_assoc; cbn [app]; rewrite ?app_nil_r;
    reflexivity.
Qed.

End Remove.

Section RemoveClaim.
Import Py IO Model.
Context {St : Type}.
Variable urlopen : St -> request -> St * reply.
Variable repr : json -> string.
Variable self : Linker.JiraLinker.

(** C6. When no fetched link of the ticket has the requested id, removal
    ends with exit status 1 after the not-found message and sends nothing
    but the fetch: no DELETE.  When a link has the id, its preview (the label
    and the key chosen as the listing chooses them: outward label with the
    outward reference, else inward label with the inward reference) is
    printed before the DELETE of that id is sent. *)
Theorem remove_by_id (links : list IssueLink) (key id : string) (s : St) :
  result (Linker.get_issue_links urlopen repr self key s)
  = Ret (JArr (map issue_link_json links)) ->
  let run := Linker.execute_remove urlopen repr self key id s in
  ((forall l, In l links -> link_id l <> id) ->
   result run = SysExit 1
   /\ exit_code (result run) = 1%Z
   /\ (forall r, In r (requests (trace run)) -> meth r = GET)
   /\ stdout (trace run)
      = ["Error: Link ID " ++ id ++ " not found on " ++ key;
         nl ++ "Use --list to see existing links and their IDs"])
  /\ (forall l,
      find (fun l => String.eqb (link_id l) id) links = Some l ->
      Linker.list_direction (issue_link_json l)
      = Ret (JStr (fst (read_path l)), peer_json (snd (read_path l)))
      /\ exists fetch delete after,
          trace run
          = ([Sent fetch;
              Stdout (nl ++ "Removing link from " ++ key ++ ":");
              Stdout ("  Link ID: " ++ id);
              Stdout ("  Type: " ++ lt_name (link_type l));
              Stdout ("  " ++ fst (read_path l) ++ " "
                           ++ peer_key (snd (read_path l)));
              Sent delete] ++ after)%list
          /\ meth fetch = GET
          /\ meth delete = DELETE
          /\ IO.url delete = Linker.base_url self ++ "/issueLink/" ++ id
          /\ requests after = []).
Proof.
  intros Hlinks run. split.
  - intros Habsent.
    pose proof (execute_remove_absent urlopen repr self links key id s Hlinks
                  (find_absent id links Habsent)) as Hrun.
    fold run in Hrun. rewrite Hrun. cbn [result trace fst snd exit_code].
    destruct (get_issue_links_trace urlopen repr self key s) as (r & -> & Hm).
    repeat split.
    intros r' [<-|[]]. exact Hm.
  - intros l Hfind. split; [apply list_direction_read_path|].
    destruct (execute_remove_present urlopen repr self links key id l s Hlinks Hfind)
      as (o & sx & Hrun).
    fold run in Hrun. rewrite Hrun. cbn [trace snd].
    destruct (get_issue_links_trace urlopen repr self key s) as (fetch & -> & Hf).
    destruct (delete_link_trace urlopen repr self id
                (final (Linker.get_issue_links urlopen repr self key s)))
      as (delete & -> & Hd & Hu).
    exists fetch, delete. eexists. split; [reflexivity|].
    repeat split; try assumption.
    destruct (result (Linker.delete_link urlopen repr self id _)) as [u|e|c];
      reflexivity.
Qed.

End RemoveClaim.

Lemma remove_by_id_witness :
  (IO.result (Linker.execute_remove Script.urlopen Script.repr Samples.linker
                "PROJ-1" "99999" Samples.remove_replies) = Py.SysExit 1
   /\ forall r,
       In r (IO.requests (IO.trace (Linker.execute_remove Script.urlopen Script.repr
                            Samples.linker "PROJ-1" "99999" Samples.remove_replies))) ->
       IO.meth r = IO.GET)
  /\ exists fetch delete after,
      IO.trace (Linker.execute_remove Script.urlopen Script.repr Samples.linker
                  "PROJ-1" "10002" Samples.remove_replies)
      = ([IO.Sent fetch;
          IO.Stdout (IO.nl ++ "Removing link from " ++ "PROJ-1" ++ ":");
          IO.Stdout ("  Link ID: " ++ "10002");
          IO.Stdout ("  Type: " ++ "Blocks");
          IO.Stdout ("  " ++ "is blocked by" ++ " " ++ "PROJ-7");
          IO.Sent delete] ++ after)%list
      /\ IO.meth delete = IO.DELETE.
Proof.
  pose proof (remove_by_id Script.urlopen Script.repr Samples.linker
                [Samples.blocks_session; Samples.blocked_by_audit]
                "PROJ-1" "99999" Samples.remove_replies eq_refl) as [Habsent _].
  pose proof (remove_by_id Script.urlopen Script.repr Samples.linker
                [Samples.blocks_session; Samples.blocked_by_audit]
                "PROJ-1" "10002" Samples.remove_replies eq_refl) as [_ Hpresent].
  split.
  - destruct Habsent as (Hexit & _ & Hget & _).
    + intros l [<-|[<-|[]]]; discriminate.
    + split; assumption.
  - destruct (Hpresent Samples.blocked_by_audit eq_refl)
      as (_ & fetch & delete & after & Ht & _ & Hd & _).
    exists fetch, delete, after. split; assumption.
Defined.

(** ** Runs that returned: what their steps were *)

Section Inversion.
Import Py IO.
Context {St : Type}.

Lemma bind_returned {A B} (m : io St A) (k : A -> io St B) s b s' t :
  bind m k s = (Ret b, s', t) ->
  exists a s1 t1 t2,
    m s = (Ret a, s1, t1) /\ k a s1 = (Ret b, s', t2) /\ t = (t1 ++ t2)%list.
Proof.
  unfold bind. destruct (m s) as [[[a|e|c] s1] t1]; try discriminate.
  destruct (k a s1) as [[o s2] t2] eqn:E. intros H. injection H as -> -> <-.
  now exists a, s1, t1, t2.
Qed.

Lemma try_exit_returned {A} (m : io St A) (prefix : string) s a s' t :
  try_except m (fun e => bind (eprint_exc prefix e) (fun _ => sys_exit 1)) s
  = (Ret a, s', t) ->
  m s = (Ret a, s', t).
Proof.
  unfold try_except. destruct (m s) as [[[x|e|c] s1] t1]; try discriminate.
  exact (fun H => H).
Qed.

Lemma lift_returned {A} (o : outcome A) (s : St) a s' t :
  lift o s = (Ret a, s', t) -> o = Ret a /\ s' = s /\ t = [].
Proof. unfold lift. intros H. injection H as -> <- <-. auto. Qed.

Lemma print_returned (line : string) (s : St) u s' t :
  print line s = (Ret u, s', t) -> s' = s /\ t = [Stdout line].
Proof. unfold print. intros H. injection H as _ <- <-. auto. Qed.

End Inversion.

(** ** The status reported after a transition *)

Section Observed.
Import Py IO Model.
Context {St : Type}.
Variable urlopen : St -> request -> St * reply.
Variable repr : json -> string.
Variable self : Transitioner.JiraTransitioner.

(** [ticket["fields"]["status"]["name"]]. *)
Local Abbreviation status_name ticket :=
  (f <~ getitem ticket "fields" ;; st <~ getitem f "status" ;; getitem st "name").

(** C7. When a transition that is not a dry run returns normally, its last
    line reports, as the new status, the status name of the ticket fetched
    again after the POST of the transition; the requested name plays no part
    in that line. *)
Theorem observed_status_is_reported (key status : string) (s s' : St)
  (t : list event) :
  Transitioner.execute_transition urlopen repr self key status false s
  = (Ret tt, s', t) ->
  exists before post refetch s_post ticket updated current new_status,
    t = (before ++ [Sent post; Sent refetch;
                    Stdout ("✅ Success! Status: " ++ str repr current
                            ++ " → " ++ str repr new_status)])%list
    /\ meth post = POST
    /\ meth refetch = GET
    /\ IO.url refetch = Transitioner.base_url self ++ "/issue/" ++ key
    /\ result (Transitioner.get_ticket urlopen repr self key s) = Ret ticket
    /\ status_name ticket = Ret current
    /\ Transitioner.get_ticket urlopen repr self key s_post
       = (Ret updated, s', [Sent refetch])
    /\ status_name updated = Ret new_status.
Proof.
  intros H. apply try_exit_returned in H.
  apply bind_returned in H as (ticket & s1 & t1 & r1 & Hticket & H & ->).
  apply bind_returned in H as (current & ? & ? & r2 & Hcur & H & ->).
  apply lift_returned in Hcur as (Hcur & -> & ->).
  apply bind_returned in H as (summary & ? & ? & r3 & Hsum & H & ->).
  apply lift_returned in Hsum as (Hsum & -> & ->).
  apply bind_returned in H as (? & ? & ? & r4 & Hp1 & H & ->).
  apply print_returned in Hp1 as (-> & ->).
  apply bind_returned in H as (? & ? & ? & r5 & Hp2 & H & ->).
  apply print_returned in Hp2 as (-> & ->).
  apply bind_returned in H as (found & s2 & t2 & r6 & Hfind & H & ->).
  destruct found as [[transition_id transition_name]|].
  - apply bind_returned in H as (transitions & s3 & t3 & r7 & Hagain & H & ->).
    apply bind_returned in H as (to & ? & ? & r8 & Hto & H & ->).
    apply lift_returned in Hto as (Hto & -> & ->).
    apply bind_returned in H as (? & ? & ? & r9 & Hp3 & H & ->).
    apply print_returned in Hp3 as (-> & ->).
    apply bind_returned in H as (? & s4 & t4 & r10 & Hpost & H & ->).
    apply bind_returned in H as (updated & s5 & t5 & r11 & Hget & H & ->).
    apply bind_returned in H as (new_status & ? & ? & r12 & Hnew & H & ->).
    apply lift_returned in Hnew as (Hnew & -> & ->).
    apply print_returned in H as (-> & ->).
    destruct (transition_ticket_trace urlopen repr self key transition_id s3)
      as (post & Hpt & Hpm & _).
    rewrite Hpost in Hpt. cbn [trace snd] in Hpt. subst t4.
    destruct (transitioner_get_ticket_trace urlopen repr self key s4)
      as (refetch & Hrt & Hrm & Hru).
    rewrite Hget in Hrt. cbn [trace snd] in Hrt. subst t5.
    exists (t1 ++ Stdout (nl ++ "📋 " ++ key ++ ": " ++ str repr summary)
               :: Stdout ("Current Status: " ++ str repr current)
               :: t2 ++ t3
               ++ [Stdout ("Transitioning to: "
                           ++ str repr match to with
                                       | Some n => n
                                       | None => JNull
                                       end)])%list.
    exists post, refetch, s4, ticket, updated, current, new_status.
    split; [|split; [exact Hpm|split; [exact Hrm|split; [exact Hru|]]]].
    + cbn [app]. rewrite <- !app_assoc. cbn [app]. rewrite <- !app_assoc.
      reflexivity.
    + split; [now rewrite Hticket|]. split; [exact Hcur|].
      split; [exact Hget|exact Hnew].
  - exfalso.
    apply bind_returned in H as (? & ? & ? & ? & _ & H & _).
    apply bind_returned in H as (? & ? & ? & ? & _ & H & _).
    apply bind_returned in H as (? & ? & ? & ? & _ & H & _).
    apply bind_returned in H as (? & ? & ? & ? & _ & H & _).
    apply bind_returned in H as (? & ? & ? & ? & _ & H & _).
    discriminate.
Qed.

End Observed.

Lemma observed_status_is_reported_witness :
  exists before post refetch s_post ticket updated current new_status,
    IO.trace (Transitioner.execute_transition Script.urlopen Script.repr
                Samples.transitioner "PROJ-1" "Done" false Samples.done_replies)
    = (before ++ [IO.Sent post; IO.Sent refetch;
                  IO.Stdout ("✅ Success! Status: " ++ Py.str Script.repr current
                             ++ " → " ++ Py.str Script.repr new_status)])%list
    /\ IO.meth post = IO.POST
    /\ IO.meth refetch = IO.GET
    /\ IO.url refetch = Transitioner.base_url Samples.transitioner ++ "/issue/" ++ "PROJ-1"
    /\ IO.result (Transitioner.get_ticket Script.urlopen Script.repr
                    Samples.transitioner "PROJ-1" Samples.done_replies) = Py.Ret ticket
    /\ Py.obind (Py.getitem ticket "fields")
         (fun f => Py.obind (Py.getitem f "status") (fun st => Py.getitem st "name"))
       = Py.Ret current
    /\ Transitioner.get_ticket Script.urlopen Script.repr Samples.transitioner
         "PROJ-1" s_post = (Py.Ret updated, [], [IO.Sent refetch])
    /\ Py.obind (Py.getitem updated "fields")
         (fun f => Py.obind (Py.getitem f "status") (fun st => Py.getitem st "name"))
       = Py.Ret new_status.
Proof.
  apply (observed_status_is_reported Script.urlopen Script.repr
           Samples.transitioner "PROJ-1" "Done" Samples.done_replies []).
  reflexivity.
Defined.

(** Asked for Done, the sample server ends in Closed, and Closed is what the
    last line says. *)
Example done_reports_closed :
  let run := Transitioner.execute_transition Script.urlopen Script.repr
               Samples.transitioner "PROJ-1" "Done" false Samples.done_replies in
  IO.result run = Py.Ret tt
  /\ last (IO.stdout (IO.trace run)) ""
     = "✅ Success! Status: In Progress → Closed".
Proof. split; reflexivity. Qed.

(** ** Listing links, and the round trip *)

Section Listing.
Import Py IO Model.
Context {St : Type}.
Variable urlopen : St -> request -> St * reply.
Variable repr : json -> string.
Variable self : Linker.JiraLinker.

(** The three lines [list_issue_links] prints for a link. *)
Local Abbreviation row l :=
  [Stdout (nl ++ "  [" ++ link_id l ++ "] " ++ fst (read_path l) ++ ":");
   Stdout ("    " ++ peer_key (snd (read_path l)) ++ ": "
                  ++ peer_summary (snd (read_path l)));
   Stdout ("    Status: " ++ peer_status (snd (read_path l)))].

Lemma list_row_run (l : IssueLink) (s : St) :
  Linker.list_issue_links_row repr (issue_link_json l) s = (Ret tt, s, row l).
Proof.
  unfold Linker.list_issue_links_row, read_path, issue_link_json.
  destruct (link_end l) as [p|p]; reflexivity.
Qed.

Lemma list_rows_run (links : list IssueLink) (s : St) :
  for_each (Linker.list_issue_links_row repr) (map issue_link_json links) s
  = (Ret tt, s, flat_map (fun l => row l) links).
Proof.
  induction links as [|l links IH]; [reflexivity|].
  cbn [map for_each flat_map].
  eapply step_bind; [apply list_row_run|exact IH].
Qed.

Lemma list_issue_links_run key ticket summary links (s : St) :
  result (Linker.get_ticket urlopen repr self key s) = Ret ticket ->
  (f <~ getitem ticket "fields" ;; getitem f "summary") = Ret summary ->
  (f <~ getitem ticket "fields" ;; get f "issuelinks" (JArr []))
  = Ret (JArr (map issue_link_json links)) ->
  links <> [] ->
  Linker.list_issue_links urlopen repr self key s
  = (Ret tt, final (Linker.get_ticket urlopen repr self key s),
     (trace (Linker.get_ticket urlopen repr self key s)
      ++ Stdout (nl ++ key ++ ": " ++ str repr summary)
      :: Stdout (times "=" 60)
      :: Stdout (nl ++ "Links (" ++ str_of_nat (length links) ++ "):")
      :: flat_map (fun l => row l) links)%list).
Proof.
  intros Hticket Hsum Hlinks Hne. unfold Linker.list_issue_links. apply run_try_ret.
  rewrite <- (length_map issue_link_json links).
  eapply step_bind.
  { rewrite (run_eta (Linker.get_ticket _ _ _ key s)), Hticket. reflexivity. }
  eapply step_lift; [exact Hsum|].
  eapply step_lift; [exact Hlinks|].
  do 2 eapply step_print.
  destruct links as [|l0 links0]; [contradiction|].
  cbn [truthy map negb].
  eapply step_lift; [reflexivity|].
  eapply step_print.
  eapply step_lift; [reflexivity|].
  apply (list_rows_run (l0 :: links0)).
Qed.

End Listing.

Section Preview.
Import Py IO Model.
Context {St : Type}.
Variable urlopen : St -> request -> St * reply.
Variable repr : json -> string.
Variable self : Linker.JiraLinker.

Lemma stdout_try_exit {A} (m : io St A) (prefix : string) (s : St) :
  stdout (trace (try_except m
            (fun e => bind (eprint_exc prefix e) (fun _ => sys_exit 1)) s))
  = stdout (trace (m s)).
Proof.
  destruct (trace_try_exit m prefix s) as (extra & -> & _ & Hextra).
  now rewrite stdout_app, Hextra, app_nil_r.
Qed.

Lemma linker_get_ticket_stdout key s :
  stdout (trace (Linker.get_ticket urlopen repr self key s)) = [].
Proof.
  unfold Linker.get_ticket.
  destruct (linker_request_trace urlopen repr self
              (Linker.base_url self ++ "/issue/" ++ key
               ++ "?fields=summary,status,issuelinks") GET None s)
    as (r & -> & _).
  reflexivity.
Qed.

(** What [execute_link] prints once the type is resolved and both tickets
    are fetched: the confirmation, with the sentence that reads source,
    outward label, target. *)
Lemma execute_link_preview catalog lt source target type_name comment dry_run
  source_ticket target_ticket source_summary target_summary (s : St) :
  result (Linker.get_link_types urlopen repr self s)
  = Ret (JArr (map link_type_json catalog)) ->
  resolve_link_type catalog type_name = Some lt ->
  let s1 := final (Linker.get_link_types urlopen repr self s) in
  result (Linker.get_ticket urlopen repr self source s1) = Ret source_ticket ->
  let s2 := final (Linker.get_ticket urlopen repr self source s1) in
  result (Linker.get_ticket urlopen repr self target s2) = Ret target_ticket ->
  (f <~ getitem source_ticket "fields" ;; getitem f "summary") = Ret source_summary ->
  (f <~ getitem target_ticket "fields" ;; getitem f "summary") = Ret target_summary ->
  exists later,
    stdout (trace (Linker.execute_link urlopen repr self source target type_name
                     comment dry_run s))
    = (nl ++ "Source: " ++ source ++ ": " ++ str repr source_summary)
      :: ("Target: " ++ target ++ ": " ++ str repr target_summary)
      :: (nl ++ "Link Type: " ++ lt_name lt)
      :: ("  " ++ source ++ " " ++ lt_outward lt ++ " " ++ target)
      :: ("  " ++ target ++ " " ++ lt_inward lt ++ " " ++ source)
      :: later.
Proof.
  intros Hcat Hres s1 Hsrc s2 Htgt Hss Hts.
  unfold Linker.execute_link. rewrite stdout_try_exit.
  match goal with
  | |- exists later, stdout (trace (?body s)) = _ =>
      assert (Hrun : exists o sx tx, body s = (o, sx,
                (trace (Linker.get_link_types urlopen repr self s)
                 ++ [] ++ trace (Linker.get_ticket urlopen repr self source s1)
                 ++ trace (Linker.get_ticket urlopen repr self target s2)
                 ++ Stdout (nl ++ "Source: " ++ source ++ ": " ++ str repr source_summary)
                 :: Stdout ("Target: " ++ target ++ ": " ++ str repr target_summary)
                 :: Stdout (nl ++ "Link Type: " ++ lt_name lt)
                 :: Stdout ("  " ++ source ++ " " ++ lt_outward lt ++ " " ++ target)
                 :: Stdout ("  " ++ target ++ " " ++ lt_inward lt ++ " " ++ source)
                 :: tx)%list))
  end.
  { eexists. eexists. eexists.
    eapply step_bind.
    { apply (find_link_type_run urlopen repr self catalog). exact Hcat. }
    rewrite Hres.
    eapply step_bind; [reflexivity|].
    eapply step_bind.
    { rewrite (run_eta (Linker.get_ticket _ _ _ source _)). fold s1.
      rewrite Hsrc. reflexivity. }
    eapply step_bind.
    { rewrite (run_eta (Linker.get_ticket _ _ _ target _)). fold s1 s2.
      rewrite Htgt. reflexivity. }
    eapply step_lift; [exact Hss|].
    eapply step_lift; [exact Hts|].
    do 2 eapply step_print.
    eapply step_lift; [reflexivity|]. eapply step_print.
    eapply step_lift; [reflexivity|]. eapply step_print.
    eapply step_lift; [reflexivity|]. eapply step_print.
    apply run_eta. }
  destruct Hrun as (o & sx & tx & Hrun). rewrite Hrun. cbn [trace snd].
  rewrite !stdout_app.
  rewrite (proj1 (get_link_types_stdout urlopen repr self s)).
  rewrite !linker_get_ticket_stdout. cbn [app].
  rewrite !stdout_stdout. now exists (stdout tx).
Qed.

End Preview.

Section RoundTrip.
Import Py IO Model.
Context {St : Type}.
Variable urlopen : St -> request -> St * reply.
Variable repr : json -> string.
Variable self : Linker.JiraLinker.

Local Abbreviation row_lines l :=
  [nl ++ "  [" ++ link_id l ++ "] " ++ fst (read_path l) ++ ":";
   "    " ++ peer_key (snd (read_path l)) ++ ": " ++ peer_summary (snd (read_path l));
   "    Status: " ++ peer_status (snd (read_path l))].

Lemma stdout_rows (links : list IssueLink) :
  stdout (flat_map (fun l =>
            [Stdout (nl ++ "  [" ++ link_id l ++ "] " ++ fst (read_path l) ++ ":");
             Stdout ("    " ++ peer_key (snd (read_path l)) ++ ": "
                            ++ peer_summary (snd (read_path l)));
             Stdout ("    Status: " ++ peer_status (snd (read_path l)))]) links)
  = flat_map (fun l => row_lines l) links.
Proof.
  induction links as [|l links IH]; [reflexivity|].
  cbn [flat_map app]. rewrite !stdout_stdout, IH. reflexivity.
Qed.

Lemma list_issue_links_stdout key ticket summary links (s : St) :
  result (Linker.get_ticket urlopen repr self key s) = Ret ticket ->
  (f <~ getitem ticket "fields" ;; getitem f "summary") = Ret summary ->
  (f <~ getitem ticket "fields" ;; get f "issuelinks" (JArr []))
  = Ret (JArr (map issue_link_json links)) ->
  links <> [] ->
  stdout (trace (Linker.list_issue_links urlopen repr self key s))
  = (nl ++ key ++ ": " ++ str repr summary)
    :: times "=" 60
    :: (nl ++ "Links (" ++ str_of_nat (length links) ++ "):")
    :: flat_map (fun l => row_lines l) links.
Proof.
  intros Hticket Hsum Hlinks Hne.
  rewrite (list_issue_links_run urlopen repr self key ticket summary links s
             Hticket Hsum Hlinks Hne).
  cbn [trace snd]. rewrite stdout_app, linker_get_ticket_stdout. cbn [app].
  rewrite !stdout_stdout. do 3 f_equal. apply stdout_rows.
Qed.

Local Abbreviation direction_line l label :=
  (nl ++ "  [" ++ link_id l ++ "] " ++ label ++ ":").
Local Abbreviation peer_line key peer := ("    " ++ key ++ ": " ++ peer_summary peer).
Local Abbreviation status_line peer := ("    Status: " ++ peer_status peer).

End RoundTrip.

(** The sample listing in full: the created link reads "blocks PROJ-2", the
    other one "is blocked by PROJ-7". *)
Example listing_of_sample_ticket :
  IO.stdout (IO.trace (Linker.list_issue_links Script.urlopen Script.repr
                         Samples.linker "PROJ-1"
                         [Script.ok Samples.linked_login_bug]))
  = [String.append IO.nl "PROJ-1: Login fails";
     IO.times "=" 60;
     String.append IO.nl "Links (2):";
     String.append IO.nl "  [10001] blocks:";
     "    PROJ-2: Session expires early";
     "    Status: In Progress";
     String.append IO.nl "  [10002] is blocked by:";
     "    PROJ-7: Audit log gaps";
     "    Status: Done"].
Proof. reflexivity. Qed.

(** ** The empty query *)

Section EmptyQuery.
Import Py Model.

Lemma find_none_in {A} (p : A -> bool) (xs : list A) :
  (forall x, In x xs -> p x = false) -> find p xs = None.
Proof.
  intros H. apply find_none, forallb_forall. intros x Hin.
  now rewrite (H x Hin).
Qed.

(** With no exact match after the first entry, a query that occurs in the
    first entry's name resolves to the first entry. *)
Lemma first_entry_wins {A} (exact partial : A -> bool) (later : list (A -> bool))
  (first : A) (rest : list A) :
  partial first = true ->
  (forall x, In x rest -> exact x = false) ->
  first_tier_first_candidate (exact :: partial :: later) (first :: rest) = Some first.
Proof.
  intros Hpartial Hrest. rewrite first_tier_cons. cbn [find].
  destruct (exact first); [reflexivity|].
  rewrite (find_none_in exact rest Hrest), first_tier_cons. cbn [find].
  now rewrite Hpartial.
Qed.

Lemma some_entry_wins {A} (exact partial : A -> bool) (later : list (A -> bool))
  (first : A) (rest : list A) :
  partial first = true ->
  first_tier_first_candidate (exact :: partial :: later) (first :: rest) <> None.
Proof.
  intros Hpartial. rewrite first_tier_cons.
  destruct (find exact (first :: rest)); [discriminate|].
  rewrite first_tier_cons. cbn [find]. rewrite Hpartial. discriminate.
Qed.

Lemma ci_within_empty (s : string) : ci_within "" s = true.
Proof. apply contains_empty. Qed.

Lemma ci_equal_nonempty (s : string) : s <> "" -> ci_equal s "" = false.
Proof.
  intros H. destruct (ci_equal s "") eqn:E; [|reflexivity].
  now apply ci_equal_empty in E.
Qed.

(** C9. On a non-empty catalog a query that occurs, up to case, in
    the first entry's name resolves to the first entry provided no later
    entry matches it exactly; so the empty query resolves to the first entry
    provided no later entry has an empty name.  The empty query never fails
    on a non-empty catalog.  Link types and transitions alike. *)
Theorem query_within_first_name :
  (forall (first : LinkType) rest query,
      ci_within query (lt_name first) = true ->
      (forall lt, In lt rest -> ci_equal (lt_name lt) query = false) ->
      Linker.find_in_catalog (JArr (map link_type_json (first :: rest))) query
      = Ret (link_type_json first))
  /\ (forall (first : LinkType) rest,
      (forall lt, In lt rest -> lt_name lt <> "") ->
      Linker.find_in_catalog (JArr (map link_type_json (first :: rest))) ""
      = Ret (link_type_json first))
  /\ (forall (first : LinkType) rest,
      Linker.find_in_catalog (JArr (map link_type_json (first :: rest))) ""
      <> Ret JNull)
  /\ (forall (first : Transition) rest query,
      ci_within query (tr_name first) = true ->
      (forall t, In t rest -> ci_equal (tr_name t) query = false) ->
      Transitioner.find_in_catalog (JArr (map transition_json (first :: rest))) query
      = Ret (Some (JStr (tr_id first), JStr (tr_name first))))
  /\ (forall (first : Transition) rest,
      (forall t, In t rest -> tr_name t <> "") ->
      Transitioner.find_in_catalog (JArr (map transition_json (first :: rest))) ""
      = Ret (Some (JStr (tr_id first), JStr (tr_name first))))
  /\ (forall (first : Transition) rest,
      Transitioner.find_in_catalog (JArr (map transition_json (first :: rest))) ""
      <> Ret None).
Proof.
  assert (Hlink : forall (first : LinkType) rest query,
             ci_within query (lt_name first) = true ->
             (forall lt, In lt rest -> ci_equal (lt_name lt) query = false) ->
             Linker.find_in_catalog (JArr (map link_type_json (first :: rest))) query
             = Ret (link_type_json first)).
  { intros first rest query Hin Hrest. rewrite find_link_type_policy.
    unfold resolve_link_type, link_type_tiers.
    now rewrite (first_entry_wins _ _ _ first rest Hin Hrest). }
  assert (Htrans : forall (first : Transition) rest query,
             ci_within query (tr_name first) = true ->
             (forall t, In t rest -> ci_equal (tr_name t) query = false) ->
             Transitioner.find_in_catalog
               (JArr (map transition_json (first :: rest))) query
             = Ret (Some (JStr (tr_id first), JStr (tr_name first)))).
  { intros first rest query Hin Hrest. rewrite find_transition_policy.
    unfold resolve_transition, transition_tiers.
    now rewrite (first_entry_wins _ _ _ first rest Hin Hrest). }
  split; [exact Hlink|]. split; [|split; [|split; [exact Htrans|split]]].
  - intros first rest Hnames. apply Hlink; [apply ci_within_empty|].
    intros lt Hin. now apply ci_equal_nonempty, Hnames.
  - intros first rest. rewrite find_link_type_policy.
    unfold resolve_link_type, link_type_tiers.
    pose proof (some_entry_wins (fun lt => ci_equal (lt_name lt) "")
                  (fun lt => ci_within "" (lt_name lt))
                  [fun lt => orb (ci_within "" (lt_outward lt))
                                 (ci_within "" (lt_inward lt))]
                  first rest (ci_within_empty _)) as H.
    destruct (first_tier_first_candidate _ (first :: rest)) as [lt|];
      [discriminate|now destruct H].
  - intros first rest Hnames. apply Htrans; [apply ci_within_empty|].
    intros t Hin. now apply ci_equal_nonempty, Hnames.
  - intros first rest. rewrite find_transition_policy.
    unfold resolve_transition, transition_tiers.
    pose proof (some_entry_wins (fun t => ci_equal (tr_name t) "")
                  (fun t => ci_within "" (tr_name t)) []
                  first rest (ci_within_empty _)) as H.
    destruct (first_tier_first_candidate _ (first :: rest)) as [t|];
      [discriminate|now destruct H].
Qed.

End EmptyQuery.

Lemma query_within_first_name_witness :
  Linker.find_in_catalog
    (Py.JArr (map Model.link_type_json [Samples.blocks; Samples.relates])) "LOCK"
  = Py.Ret (Model.link_type_json Samples.blocks)
  /\ Linker.find_in_catalog
       (Py.JArr (map Model.link_type_json [Samples.blocks; Samples.relates])) ""
     = Py.Ret (Model.link_type_json Samples.blocks)
  /\ Transitioner.find_in_catalog
       (Py.JArr (map Model.transition_json [Samples.start_progress; Samples.done])) ""
     = Py.Ret (Some (Py.JStr "21", Py.JStr "Start Progress")).
Proof.
  destruct query_within_first_name as (Hq & He & _ & _ & Ht & _).
  split; [|split].
  - apply (Hq Samples.blocks [Samples.relates] "LOCK"); [reflexivity|].
    intros lt [<-|[]]. reflexivity.
  - apply (He Samples.blocks [Samples.relates]).
    intros lt [<-|[]]. discriminate.
  - apply (Ht Samples.start_progress [Samples.done]).
    intros t [<-|[]]. discriminate.
Defined.

(** A later entry with an empty name is an exact match for the empty query
    and is returned instead of the first entry. *)
Lemma empty_query_exact_match_first :
  Linker.find_in_catalog
    (Py.JArr (map Model.link_type_json [Samples.blocks; Samples.unnamed])) ""
  = Py.Ret (Model.link_type_json Samples.unnamed)
  /\ Linker.find_in_catalog
       (Py.JArr (map Model.link_type_json [Samples.blocks; Samples.unnamed])) ""
     <> Py.Ret (Model.link_type_json Samples.blocks)
  /\ Transitioner.find_in_catalog
       (Py.JArr (map Model.transition_json [Samples.start_progress; Samples.nameless])) ""
     = Py.Ret (Some (Py.JStr "41", Py.JStr ""))
  /\ Transitioner.find_in_catalog
       (Py.JArr (map Model.transition_json [Samples.start_progress; Samples.nameless])) ""
     <> Py.Ret (Some (Py.JStr "21", Py.JStr "Start Progress")).
Proof. repeat split; try reflexivity; discriminate. Qed.

(** ** The comments of a viewed ticket *)

(** ** The sections of a view that returned *)

(** Steps of a run known to have returned: the first action of a sequence is
    split off, a computation, a printed line or a command. *)
Tactic Notation "peel_lift" hyp(H) ident(a) ident(Ha) :=
  apply bind_returned in H as (a & ? & ? & ? & Ha & H & ->);
  apply lift_returned in Ha as (Ha & -> & ->).

Tactic Notation "peel_print" hyp(H) :=
  let Hp := fresh "Hp" in
  apply bind_returned in H as (? & ? & ? & ? & Hp & H & ->);
  apply print_returned in Hp as (-> & ->).

Tactic Notation "peel_run" hyp(H) ident(s) ident(t) ident(Hm) :=
  let u := fresh "u" in
  apply bind_returned in H as (u & s & t & ? & Hm & H & ->);
  destruct u.

Section ViewRuns.
Import Py IO Model.
Context {St : Type}.
Variable urlopen : St -> request -> St * reply.
Variable repr : json -> string.
Variable isoformat : string -> option string.
Variable self : Viewer.JiraViewer.
Variable dumps : json -> string.
Variable strip_tags : string -> string.
Variable kb_text : Z -> string.

(** A formatted view that returns has fetched the ticket and run its
    sections one after the other: the description, the comments and the
    linked issues each returned, and their output stands in that order in
    the output of the view. *)
Lemma display_ticket_returned key full (s s' : St) (t : list event) :
  Viewer.display_ticket urlopen repr isoformat self dumps strip_tags kb_text
    key full false s = (Ret tt, s', t) ->
  exists ticket fields before after (sa sb sc sd : St) t_desc t_comm t_links,
    result (Viewer.get_ticket urlopen repr self key full s) = Ret ticket
    /\ get ticket "fields" (JObj []) = Ret fields
    /\ Viewer.display_description strip_tags ticket fields sa = (Ret tt, sb, t_desc)
    /\ Viewer.display_comments repr isoformat fields full sb = (Ret tt, sc, t_comm)
    /\ Viewer.display_links repr fields sc = (Ret tt, sd, t_links)
    /\ t = (before ++ t_desc ++ t_comm ++ t_links ++ after)%list.
Proof.
  intros H. unfold Viewer.display_ticket in H. apply try_exit_returned in H.
  apply bind_returned in H as (ticket & s1 & t1 & r1 & Hticket & H & ->).
  cbv iota in H.
  peel_lift H fields Hfields.
  peel_lift H summary Hsummary.
  do 2 peel_print H.
  peel_lift H status Hstatus.
  peel_lift H issue_type Htype.
  peel_lift H priority Hpriority.
  do 3 peel_print H.
  peel_lift H assignee Hassignee.
  peel_lift H reporter Hreporter.
  peel_lift H assignee_name Hassignee_name.
  peel_lift H reporter_name Hreporter_name.
  do 2 peel_print H.
  peel_lift H created Hcreated.
  peel_lift H updated Hupdated.
  do 2 peel_print H.
  peel_lift H labels Hlabels.
  peel_run H s2 t_labels Hshown_labels.
  peel_lift H fix_versions Hversions.
  peel_run H s3 t_versions Hshown_versions.
  peel_lift H components Hcomponents.
  peel_run H s4 t_components Hshown_components.
  peel_run H s5 t_desc Hdesc.
  peel_run H s6 t_comm Hcomm.
  peel_run H s7 t_links Hlinks.
  match type of H with _ = (_, _, ?rest) => rename rest into after end.
  exists ticket, fields,
    (t1 ++ Stdout (nl ++ "📋 " ++ key ++ ": " ++ str repr summary)
        :: Stdout (times "=" 80)
        :: Stdout (nl ++ "Status: " ++ str repr status)
        :: Stdout ("Type: " ++ str repr issue_type)
        :: Stdout ("Priority: " ++ str repr priority)
        :: Stdout ("Assignee: " ++ str repr assignee_name)
        :: Stdout ("Reporter: " ++ str repr reporter_name)
        :: Stdout ("Created: " ++ str repr created)
        :: Stdout ("Updated: " ++ str repr updated)
        :: t_labels ++ t_versions ++ t_components)%list,
    after, s4, s5, s6, s7, t_desc, t_comm, t_links.
  split; [now rewrite Hticket|]. split; [exact Hfields|].
  split; [exact Hdesc|]. split; [exact Hcomm|]. split; [exact Hlinks|].
  cbn [app]. rewrite <- ?app_assoc. cbn [app]. rewrite <- ?app_assoc.
  reflexivity.
Qed.

End ViewRuns.

Section Comments.
Import Py IO Model.
Context {St : Type}.
Variable urlopen : St -> request -> St * reply.
Variable repr : json -> string.
Variable isoformat : string -> option string.
Variable self : Viewer.JiraViewer.
Variable dumps : json -> string.
Variable strip_tags : string -> string.
Variable kb_text : Z -> string.

(** The lines printed for the [i]-th shown comment. *)
Local Abbreviation rendered i c :=
  ((nl ++ str_of_nat i ++ ". " ++ c_author c ++ " ("
       ++ str repr (Viewer.format_date isoformat (JStr (c_created c))) ++ "):")
   :: ("   " ++ take 200 (body_text repr c))
   :: (if Nat.ltb 200 (String.length (body_text repr c))
       then ["   ... (truncated)"] else [])).

Lemma comment_row_run (i : nat) (c : Comment) (s : St) :
  Viewer.comment_row repr isoformat (i, comment_json c) s
  = (Ret tt, s, map Stdout (rendered i c)).
Proof.
  unfold Viewer.comment_row, comment_json, body_text.
  destruct (c_body c) as [text|doc]; cbn [get assoc String.eqb Ascii.eqb Bool.eqb
    obind lift bind str Viewer.first_200 print ret app map];
    match goal with
    | |- context [Nat.ltb 200 ?n] => destruct (Nat.ltb 200 n)
    end; reflexivity.
Qed.

Lemma comment_rows_run (start : nat) (comments : list Comment) (s : St) :
  for_each (Viewer.comment_row repr isoformat)
    (Viewer.enumerate start (map comment_json comments)) s
  = (Ret tt, s,
     flat_map (fun ic => map Stdout (rendered (fst ic) (snd ic)))
       (Viewer.enumerate start comments)).
Proof.
  revert start. induction comments as [|c comments IH]; intros start; [reflexivity|].
  cbn [map Viewer.enumerate for_each flat_map fst snd].
  eapply step_bind; [apply comment_row_run|apply IH].
Qed.

Lemma last_n_map {A B} (f : A -> B) (n : nat) (xs : list A) :
  last_n n (map f xs) = map f (last_n n xs).
Proof. unfold last_n. now rewrite length_map, skipn_map. Qed.

Lemma last_n_length {A} (n : nat) (xs : list A) :
  length (last_n n xs) = Nat.min (length xs) n.
Proof. unfold last_n. rewrite length_skipn. lia. Qed.

Lemma last_n_suffix {A} (n : nat) (xs : list A) :
  xs = (firstn (length xs - n) xs ++ last_n n xs)%list.
Proof. unfold last_n. now rewrite firstn_skipn. Qed.

Lemma take_length (n : nat) (s : string) :
  String.length (take n s) = Nat.min n (String.length s).
Proof.
  revert s. induction n as [|n IH]; intros [|c s]; cbn; try reflexivity.
  now rewrite IH.
Qed.

Lemma enumerate_length {A} (start : nat) (xs : list A) :
  length (Viewer.enumerate start xs) = length xs.
Proof.
  revert start. induction xs as [|x xs IH]; intros start; [reflexivity|].
  cbn. now rewrite IH.
Qed.

Local Abbreviation header_line n := (nl ++ "Comments (" ++ str_of_nat n ++ " total):").

Local Abbreviation comment_block comments :=
  match comments%list with
  | [] => [nl ++ "Comments: None"]
  | _ :: _ =>
      header_line (length comments)
      :: times "-" 80
      :: flat_map (fun ic => rendered (fst ic) (snd ic))
           (Viewer.enumerate 1 (last_n 5 comments))
  end.

Lemma display_comments_run (fields : json) (comments : list Comment) (s : St) :
  (c <~ get fields "comment" (JObj []) ;; get c "comments" (JArr []))
  = Ret (JArr (map comment_json comments)) ->
  Viewer.display_comments repr isoformat fields true s
  = (Ret tt, s, map Stdout (comment_block comments)).
Proof.
  intros Hcomments. unfold Viewer.display_comments.
  eapply step_lift; [exact Hcomments|].
  destruct comments as [|c0 comments0]; [reflexivity|].
  cbn [truthy map].
  eapply step_lift; [reflexivity|].
  cbn [length]. rewrite length_map.
  do 2 eapply step_print.
  eapply step_lift; [reflexivity|].
  change (comment_json c0 :: map comment_json comments0)
    with (map comment_json (c0 :: comments0)).
  rewrite last_n_map.
  rewrite (comment_rows_run 1 (last_n 5 (c0 :: comments0)) s).
  f_equal. f_equal.
  generalize (Viewer.enumerate 1 (last_n 5 (c0 :: comments0))).
  intros rows. induction rows as [|ic rows IH]; [reflexivity|].
  cbn [flat_map]. now rewrite map_app, IH.
Qed.


End Comments.



(** Seven comments: the header says 7, comments 3 to 7 are shown as 1 to 5,
    and the long one is cut with the truncation line. *)
Example seven_comments_shown :
  IO.stdout (IO.trace (Viewer.display_comments (St := list IO.reply) Script.repr
                         Samples.no_dates
                         (Samples.commented_fields Samples.seven_comments) true []))
  = [String.append IO.nl "Comments (7 total):";
     IO.times "-" 80;
     String.append IO.nl "1. Ada (2024-05-01T10:00:00.000+0000):";
     "   note 3";
     String.append IO.nl "2. Ada (2024-05-01T10:00:00.000+0000):";
     "   note 4";
     String.append IO.nl "3. Ada (2024-05-01T10:00:00.000+0000):";
     "   note 5";
     String.append IO.nl "4. Grace (2024-05-02T10:00:00.000+0000):";
     String.append "   " (IO.times "x" 200);
     "   ... (truncated)";
     String.append IO.nl "5. Ada (2024-05-01T10:00:00.000+0000):";
     "   note 7"].
Proof. reflexivity. Qed.


(** * Further properties *)

(** ** What the resolvers return *)

Section ResolverMore.
Import Py Model.

Lemma prefix_refl (x : string) : String.prefix x x = true.
Proof.
  induction x as [|c x IH]; [reflexivity|]. simpl.
  destruct (ascii_dec c c) as [_|n]; [exact IH|now destruct n].
Qed.

Lemma ci_equal_within (a q : string) : ci_equal a q = true -> ci_within q a = true.
Proof.
  unfold ci_equal, ci_within. intros H. apply String.eqb_eq in H. rewrite H.
  apply contains_prefix, prefix_refl.
Qed.

(** X1. A link type is found exactly when the query occurs, up to case, in some
    entry's name or in one of its two labels; what is found is an entry of
    the catalog in which it occurs. *)
Theorem find_link_type_found_iff_occurs (catalog : list LinkType) (query : string) :
  (exists lt,
      Linker.find_in_catalog (JArr (map link_type_json catalog)) query
      = Ret (link_type_json lt)
      /\ In lt catalog
      /\ (ci_within query (lt_name lt) = true
          \/ ci_within query (lt_outward lt) = true
          \/ ci_within query (lt_inward lt) = true))
  \/ (Linker.find_in_catalog (JArr (map link_type_json catalog)) query = Ret JNull
      /\ forall lt, In lt catalog ->
           ci_within query (lt_name lt) = false
           /\ ci_within query (lt_outward lt) = false
           /\ ci_within query (lt_inward lt) = false).
Proof.
  rewrite find_link_type_policy. unfold resolve_link_type, link_type_tiers.
  rewrite !first_tier_cons.
  destruct (find (fun lt => ci_equal (lt_name lt) query) catalog) as [lt|] eqn:E1.
  { apply List.find_some in E1 as [Hin Hm]. left. exists lt.
    repeat split; try assumption. left. now apply ci_equal_within. }
  destruct (find (fun lt => ci_within query (lt_name lt)) catalog) as [lt|] eqn:E2.
  { apply List.find_some in E2 as [Hin Hm]. left. exists lt. auto. }
  destruct (find (fun lt => orb (ci_within query (lt_outward lt))
                                  (ci_within query (lt_inward lt))) catalog)
    as [lt|] eqn:E3.
  { apply List.find_some in E3 as [Hin Hm]. left. exists lt.
    repeat split; try assumption. apply orb_true_iff in Hm. tauto. }
  right. split; [reflexivity|]. intros lt Hin.
  pose proof (List.find_none _ _ E2 lt Hin) as H2.
  pose proof (List.find_none _ _ E3 lt Hin) as H3.
  apply orb_false_iff in H3. cbv beta in H2. tauto.
Qed.

(** X2. A transition is found exactly when the query occurs, up to case, in some
    transition's name.  The destination status is not consulted. *)
Theorem find_transition_found_iff_named (catalog : list Transition) (query : string) :
  (exists t,
      Transitioner.find_in_catalog (JArr (map transition_json catalog)) query
      = Ret (Some (JStr (tr_id t), JStr (tr_name t)))
      /\ In t catalog
      /\ ci_within query (tr_name t) = true)
  \/ (Transitioner.find_in_catalog (JArr (map transition_json catalog)) query
      = Ret None
      /\ forall t, In t catalog -> ci_within query (tr_name t) = false).
Proof.
  rewrite find_transition_policy. unfold resolve_transition, transition_tiers.
  rewrite !first_tier_cons.
  destruct (find (fun t => ci_equal (tr_name t) query) catalog) as [t|] eqn:E1.
  { apply List.find_some in E1 as [Hin Hm]. left. exists t.
    repeat split; try assumption. now apply ci_equal_within. }
  destruct (find (fun t => ci_within query (tr_name t)) catalog) as [t|] eqn:E2.
  { apply List.find_some in E2 as [Hin Hm]. left. exists t. auto. }
  right. split; [reflexivity|]. intros t Hin.
  exact (List.find_none _ _ E2 t Hin).
Qed.

Lemma for_return_app {A B} (body : A -> outcome (option B)) (xs ys : list A) :
  for_return body (xs ++ ys) =
  match for_return body xs with
  | Ret None => for_return body ys
  | other => other
  end.
Proof.
  induction xs as [|x xs IH]; [cbn; now destruct (for_return body ys) as [[b|]|e|c]|].
  cbn [app for_return]. destruct (body x) as [[b|]|e|c]; try reflexivity. exact IH.
Qed.

(** X3. An entry without a name stops the search for a link type with
    [KeyError], unless an entry before it has exactly the queried name: what
    follows the bad entry is never looked at. *)
Theorem find_link_type_nameless_entry (good : list LinkType)
  (bad : list (string * json)) (rest : list json) (query : string) :
  assoc "name" bad = None ->
  Linker.find_in_catalog
    (JArr (map link_type_json good ++ JObj bad :: rest)) query
  = match find (fun lt => ci_equal (lt_name lt) query) good with
    | Some lt => Ret (link_type_json lt)
    | None => Raise (KeyError "name")
    end.
Proof.
  intros Hbad. unfold Linker.find_in_catalog. cbn [iter obind].
  rewrite for_return_app.
  rewrite (for_return_search link_type_json _ link_type_json _ good
             (link_exact_tier query)).
  destruct (find _ good) as [lt|]; cbn [option_map obind]; [reflexivity|].
  cbn [for_return]. unfold Linker.exact_tier at 1. cbn [getitem]. rewrite Hbad.
  reflexivity.
Qed.

End ResolverMore.

Lemma find_link_type_nameless_entry_witness :
  Linker.find_in_catalog
    (Py.JArr (map Model.link_type_json [Samples.relates]
              ++ Py.JObj [("id", Py.JStr "10010")]
              :: [Model.link_type_json Samples.blocks])) "blocks"
  = Py.Raise (Py.KeyError "name").
Proof.
  apply (find_link_type_nameless_entry [Samples.relates]
           [("id", Py.JStr "10010")] [Model.link_type_json Samples.blocks] "blocks").
  reflexivity.
Defined.

(** ** The order of requests *)

Section Protocol.
Import Py IO.
Context {St : Type}.

(** [got] is an initial part of [planned]. *)
Local Abbreviation begins planned got := (exists rest, planned = (got ++ rest)%list).

Lemma begins_bind {A B} (m : io St A) (k : A -> io St B) (s : St)
  (sent planned : list request) :
  requests (trace (m s)) = sent ->
  (forall a s1 t1, m s = (Ret a, s1, t1) ->
     begins planned (requests (trace (k a s1)))) ->
  begins (sent ++ planned)%list (requests (trace (bind m k s))).
Proof.
  intros Hm Hk. rewrite trace_bind, requests_app, Hm.
  destruct (m s) as [[[a|e|c] s1] t1].
  - destruct (Hk a s1 t1 eq_refl) as [rest ->].
    exists rest. now rewrite app_assoc.
  - exists planned. now rewrite app_nil_r.
  - exists planned. now rewrite app_nil_r.
Qed.

Lemma begins_quiet {A B} (m : io St A) (k : A -> io St B) (s : St)
  (planned : list request) :
  requests (trace (m s)) = [] ->
  (forall a s1 t1, m s = (Ret a, s1, t1) ->
     begins planned (requests (trace (k a s1)))) ->
  begins planned (requests (trace (bind m k s))).
Proof. intros Hm Hk. now apply (begins_bind m k s [] planned). Qed.

Lemma begins_try {A} (m : io St A) (prefix : string) (s : St)
  (planned : list request) :
  begins planned (requests (trace (m s))) ->
  begins planned (requests (trace (try_except m
     (fun e => bind (eprint_exc prefix e) (fun _ => sys_exit 1)) s))).
Proof. now rewrite requests_try_exit. Qed.

Lemma begins_lift {A B} (o : outcome A) (k : A -> io St B) (s : St)
  (planned : list request) :
  (forall a, o = Ret a -> begins planned (requests (trace (k a s)))) ->
  begins planned (requests (trace (bind (lift o) k s))).
Proof.
  intros Hk. rewrite trace_lift_then. destruct o as [a|e|c]; [now apply Hk|..];
    now exists planned.
Qed.

Lemma begins_print {B} (line : string) (k : unit -> io St B) (s : St)
  (planned : list request) :
  begins planned (requests (trace (k tt s))) ->
  begins planned (requests (trace (bind (print line) k s))).
Proof. now rewrite trace_print_then, requests_stdout. Qed.

Lemma begins_nothing (planned : list request) : begins planned [].
Proof. now exists planned. Qed.

End Protocol.

Section LinkerProtocol.
Import Py IO.
Context {St : Type}.
Variable urlopen : St -> request -> St * reply.
Variable repr : json -> string.
Variable self : Linker.JiraLinker.

Local Abbreviation send url method data := (Linker.build_request self url method data).
Local Abbreviation ticket_url key :=
  (Linker.base_url self ++ "/issue/" ++ key ++ "?fields=summary,status,issuelinks").

Lemma linker_request_sent url method data s :
  trace (Linker._make_request urlopen repr self url method data s)
  = [Sent (send url method data)].
Proof.
  unfold Linker._make_request, trace. now destruct (urlopen s _) as [s' r].
Qed.

Lemma get_link_types_sent s :
  requests (trace (Linker.get_link_types urlopen repr self s))
  = [send (Linker.base_url self ++ "/issueLinkType") GET None].
Proof.
  unfold Linker.get_link_types. now rewrite trace_bind_lift, linker_request_sent.
Qed.

Lemma find_link_type_sent name s :
  requests (trace (Linker.find_link_type urlopen repr self name s))
  = [send (Linker.base_url self ++ "/issueLinkType") GET None].
Proof.
  unfold Linker.find_link_type. rewrite trace_bind_lift. apply get_link_types_sent.
Qed.

Lemma linker_get_ticket_sent key s :
  requests (trace (Linker.get_ticket urlopen repr self key s))
  = [send (ticket_url key) GET None].
Proof. unfold Linker.get_ticket. now rewrite linker_request_sent. Qed.

Lemma get_issue_links_sent key s :
  requests (trace (Linker.get_issue_links urlopen repr self key s))
  = [send (ticket_url key) GET None].
Proof.
  unfold Linker.get_issue_links. rewrite trace_bind_lift.
  apply linker_get_ticket_sent.
Qed.

Lemma create_link_sent source target name comment s :
  requests (trace (Linker.create_link urlopen repr self source target name comment s))
  = [send (Linker.base_url self ++ "/issueLink") POST
       (Some (Linker.create_link_data source target name comment))].
Proof.
  unfold Linker.create_link. rewrite trace_bind, linker_request_sent.
  destruct (Linker._make_request _ _ _ _ _ _ s) as [[[a|e|c] s1] t1]; reflexivity.
Qed.

Lemma delete_link_sent link_id s :
  requests (trace (Linker.delete_link urlopen repr self link_id s))
  = [send (Linker.base_url self ++ "/issueLink/" ++ link_id) DELETE None].
Proof.
  unfold Linker.delete_link. rewrite trace_bind, linker_request_sent.
  destruct (Linker._make_request _ _ _ _ _ _ s) as [[[a|e|c] s1] t1]; reflexivity.
Qed.

(** X4. Whatever the server answers, link creation sends an initial part of one
    fixed sequence: the catalog, the source ticket, the target ticket, the
    POST of the link.  It stops at the first step that fails, and before the
    POST on a dry run. *)
Theorem execute_link_request_order source target type_name comment dry_run (s : St) :
  let name :=
    match result (Linker.find_link_type urlopen repr self type_name s) with
    | Ret link_type =>
        match getitem link_type "name" with Ret n => n | _ => JNull end
    | _ => JNull
    end in
  exists rest,
    [send (Linker.base_url self ++ "/issueLinkType") GET None;
     send (ticket_url source) GET None;
     send (ticket_url target) GET None;
     send (Linker.base_url self ++ "/issueLink") POST
       (Some (Linker.create_link_data source target name comment))]
    = (requests (trace (Linker.execute_link urlopen repr self source target
                          type_name comment dry_run s)) ++ rest)%list.
Proof.
  intros name. unfold Linker.execute_link. apply begins_try.
  apply (begins_bind _ _ _ [_]); [apply find_link_type_sent|].
  intros link_type s1 t1 Efind; cbv beta.
  apply begins_quiet; [destruct (truthy link_type); reflexivity|].
  intros _ s2 t2 _; cbv beta.
  apply (begins_bind _ _ _ [_]); [apply linker_get_ticket_sent|].
  intros source_ticket s3 t3 _; cbv beta.
  apply (begins_bind _ _ _ [_]); [apply linker_get_ticket_sent|].
  intros target_ticket s4 t4 _; cbv beta.
  do 10 (apply begins_quiet; [reflexivity|intros ? ? ? _; cbv beta]).
  apply begins_quiet;
    [destruct comment as [c|]; [destruct (given (Some c))|]; reflexivity|].
  intros _ sf tf _; cbv beta.
  destruct dry_run; [apply begins_nothing|].
  rewrite trace_lift_then. subst name. rewrite Efind. cbn [result fst].
  destruct (getitem link_type "name") as [n|e|c]; try apply begins_nothing.
  rewrite trace_bind, requests_app, create_link_sent.
  exists []. cbn [app].
  destruct (Linker.create_link _ _ _ _ _ _ _ sf) as [[[u|e|c] sg] tg]; reflexivity.
Qed.

(** X5. Whatever the server answers, removal sends the fetch of the ticket and
    then at most the DELETE of the requested id. *)
Theorem execute_remove_request_order key link_id (s : St) :
  exists rest,
    [send (ticket_url key) GET None;
     send (Linker.base_url self ++ "/issueLink/" ++ link_id) DELETE None]
    = (requests (trace (Linker.execute_remove urlopen repr self key link_id s))
       ++ rest)%list.
Proof.
  unfold Linker.execute_remove. apply begins_try.
  apply (begins_bind _ _ _ [_]); [apply get_issue_links_sent|].
  intros links s1 t1 _; cbv beta.
  apply begins_quiet; [reflexivity|]. intros found s2 t2 _; cbv beta zeta.
  apply begins_quiet;
    [destruct (truthy match found with Some l => l | None => JNull end); reflexivity|].
  intros _ s3 t3 _; cbv beta.
  apply begins_quiet; [reflexivity|]. intros link_type s4 t4 _; cbv beta.
  apply begins_quiet; [reflexivity|]. intros [direction linked_key] s5 t5 _; cbv beta.
  do 4 (apply begins_quiet; [reflexivity|intros ? ? ? _; cbv beta]).
  rewrite trace_bind, requests_app, delete_link_sent.
  exists []. cbn [app].
  destruct (Linker.delete_link _ _ _ _ _) as [[[u|e|c] sg] tg]; reflexivity.
Qed.

End LinkerProtocol.

Section TransitionerProtocol.
Import Py IO.
Context {St : Type}.
Variable urlopen : St -> request -> St * reply.
Variable repr : json -> string.
Variable self : Transitioner.JiraTransitioner.

Local Abbreviation send url method data :=
  (Transitioner.build_request self url method data).
Local Abbreviation issue_url key := (Transitioner.base_url self ++ "/issue/" ++ key).
Local Abbreviation transitions_url key :=
  (Transitioner.base_url self ++ "/issue/" ++ key ++ "/transitions").
Local Abbreviation transition_data id :=
  (Some (JObj [("transition", JObj [("id", id)])])).

Lemma transitioner_request_sent url method data s :
  trace (Transitioner._make_request urlopen repr self url method data s)
  = [Sent (send url method data)].
Proof.
  unfold Transitioner._make_request, trace. now destruct (urlopen s _) as [s' r].
Qed.

Lemma transitioner_get_ticket_sent key s :
  requests (trace (Transitioner.get_ticket urlopen repr self key s))
  = [send (issue_url key) GET None].
Proof. unfold Transitioner.get_ticket. now rewrite transitioner_request_sent. Qed.

Lemma get_transitions_sent key s :
  requests (trace (Transitioner.get_transitions urlopen repr self key s))
  = [send (transitions_url key) GET None].
Proof.
  unfold Transitioner.get_transitions.
  now rewrite trace_bind_lift, transitioner_request_sent.
Qed.

Lemma find_transition_sent key status s :
  requests (trace (Transitioner.find_transition urlopen repr self key status s))
  = [send (transitions_url key) GET None].
Proof.
  unfold Transitioner.find_transition. rewrite trace_bind_lift.
  apply get_transitions_sent.
Qed.

Lemma transition_ticket_sent key id s :
  requests (trace (Transitioner.transition_ticket urlopen repr self key id None s))
  = [send (transitions_url key) POST (transition_data id)].
Proof.
  unfold Transitioner.transition_ticket. cbn [if_data].
  rewrite trace_bind, transitioner_request_sent.
  destruct (Transitioner._make_request _ _ _ _ _ _ s) as [[[a|e|c] s1] t1];
    reflexivity.
Qed.

(** X6. Whatever the server answers, a transition sends an initial part of one
    fixed sequence: the ticket, its transitions, its transitions again, the
    POST of the id the resolver returned, the ticket again.  The POST body is
    the transition id alone. *)
Theorem execute_transition_request_order key status dry_run (s : St) :
  let s1 := final (Transitioner.get_ticket urlopen repr self key s) in
  let id :=
    match result (Transitioner.find_transition urlopen repr self key status s1) with
    | Ret (Some (transition_id, _)) => transition_id
    | _ => JNull
    end in
  exists rest,
    [send (issue_url key) GET None;
     send (transitions_url key) GET None;
     send (transitions_url key) GET None;
     send (transitions_url key) POST (transition_data id);
     send (issue_url key) GET None]
    = (requests (trace (Transitioner.execute_transition urlopen repr self key
                          status dry_run s)) ++ rest)%list.
Proof.
  intros s1 id. unfold Transitioner.execute_transition. apply begins_try.
  apply (begins_bind _ _ _ [_]); [apply transitioner_get_ticket_sent|].
  intros ticket s1' t1 Eticket; cbv beta.
  assert (Hs1 : s1 = s1') by (unfold s1; now rewrite Eticket). subst s1'.
  apply begins_lift; intros current _.
  apply begins_lift; intros summary _.
  do 2 apply begins_print.
  apply (begins_bind _ _ _ [_]); [apply find_transition_sent|].
  intros [[transition_id transition_name]|] sb tb Efind.
  - apply (begins_bind _ _ _ [_]); [apply get_transitions_sent|].
    intros transitions sc tc _; cbv beta.
    apply begins_quiet; [reflexivity|]. intros found sd td _; cbv beta zeta.
    destruct dry_run; [apply begins_nothing|].
    rewrite trace_print_then, requests_stdout.
    subst id. rewrite Efind. cbn [result fst].
    apply (begins_bind _ _ _ [_]); [apply transition_ticket_sent|].
    intros _ se te _.
    rewrite trace_bind, requests_app, transitioner_get_ticket_sent.
    exists []. cbn [app].
    destruct (Transitioner.get_ticket _ _ _ key se) as [[[u|e|c] sg] tg];
      [|reflexivity..].
    rewrite trace_lift_then.
    destruct (obind (getitem u "fields") _) as [n|e|c]; reflexivity.
  - do 2 (rewrite trace_print_then, requests_stdout).
    apply (begins_bind _ _ _ [_]); [apply get_transitions_sent|].
    intros transitions sc tc _; cbv beta.
    apply begins_quiet; [reflexivity|]. intros items sd td _; cbv beta.
    apply begins_quiet; [apply available_rows_silent|]. intros _ se te _.
    apply begins_nothing.
Qed.

End TransitionerProtocol.

(** ** How a command can end *)

Section Endings.
Import Py IO.

(** A computation without [sys.exit] in it does not exit. *)
Local Abbreviation stays o := (match o with SysExit _ => False | _ => True end).

Lemma stays_obind {A B} (o : outcome A) (k : A -> outcome B) :
  stays o -> (forall a, stays (k a)) -> stays (obind o k).
Proof.
  destruct o as [a|e|c]; cbn; intros Ho Hk; [apply Hk|exact I|contradiction].
Qed.

Lemma stays_getitem d k : stays (getitem d k).
Proof. destruct d as [| | | | |kvs]; cbn; auto. now destruct (assoc k kvs). Qed.

Lemma stays_get d k x : stays (get d k x).
Proof. destruct d as [| | | | |kvs]; cbn; auto. now destruct (assoc k kvs). Qed.

Lemma stays_first x : stays (first x).
Proof. destruct x as [| | |[|c s]|[|v l]|kvs]; cbn; auto. Qed.

Lemma stays_has_key k x : stays (has_key k x).
Proof. destruct x; cbn; auto. Qed.

Lemma stays_iter x : stays (iter x).
Proof. destruct x; cbn; auto. Qed.

Lemma stays_lower_of x : stays (lower_of x).
Proof. destruct x; cbn; auto. Qed.

Lemma stays_len x : stays (len x).
Proof. destruct x; cbn; auto. Qed.

Lemma stays_json_loads b : stays (json_loads b).
Proof. destruct b; cbn; auto. Qed.

Lemma stays_try_bare {A} (body handler : outcome A) :
  stays body -> stays handler -> stays (try_bare body handler).
Proof. destruct body; cbn; intros Hb Hh; auto; contradiction. Qed.

Lemma stays_for_return {A B} (body : A -> outcome (option B)) (xs : list A) :
  (forall x, stays (body x)) -> stays (for_return body xs).
Proof.
  intros H. induction xs as [|x xs IH]; cbn; auto.
  specialize (H x). destruct (body x) as [[b|]|e|c]; auto.
Qed.

Lemma stays_comprehension {A B} (f : A -> outcome B) (xs : list A) :
  (forall x, stays (f x)) -> stays (comprehension f xs).
Proof.
  intros H. induction xs as [|x xs IH]; cbn; auto.
  apply stays_obind; [apply H|]. intros y. apply stays_obind; [exact IH|].
  intros ys. exact I.
Qed.

Lemma stays_join_values sep (xs : list json) : stays (join_values sep xs).
Proof.
  induction xs as [|x xs IH]; cbn; auto.
  destruct x; auto. destruct xs; auto.
  apply stays_obind; [exact IH|]. intros r. exact I.
Qed.

End Endings.

(** Goals [stays o] for the expressions the commands are made of. *)
Ltac stays_tac :=
  repeat first
    [ exact I
    | apply stays_getitem | apply stays_get | apply stays_first
    | apply stays_has_key | apply stays_iter | apply stays_lower_of
    | apply stays_len | apply stays_json_loads | apply stays_join_values
    | apply stays_obind; [|intros ?]
    | apply stays_try_bare
    | apply stays_for_return; intros ?
    | apply stays_comprehension; intros ?
    | match goal with
      | |- match (if ?b then _ else _) with _ => _ end => destruct b
      | |- match (match ?x with _ => _ end) with _ => _ end => destruct x
      | |- match (let (_, _) := ?x in _) with _ => _ end => destruct x
      end ].

Section EndingsOfRuns.
Import Py IO.
Context {St : Type}.

(** A run that exits does so with status 1. *)
Local Abbreviation tame r :=
  (match result r with SysExit c => c = 1%Z | _ => True end).

Lemma tame_bind {A B} (m : io St A) (k : A -> io St B) (s : St) :
  tame (m s) -> (forall a s1, tame (k a s1)) -> tame (bind m k s).
Proof.
  intros Hm Hk. rewrite result_bind.
  destruct (m s) as [[[a|e|c] s1] t1]; cbn in *; auto. apply Hk.
Qed.

Lemma tame_lift {A} (o : outcome A) (s : St) :
  match o with SysExit _ => False | _ => True end -> tame (lift o s).
Proof. destruct o; cbn; auto. contradiction. Qed.

Lemma tame_print (line : string) (s : St) : tame (print line s).
Proof. exact I. Qed.

Lemma tame_ret {A} (a : A) (s : St) : tame (ret a s).
Proof. exact I. Qed.

Lemma tame_exit {A} (s : St) : tame (sys_exit (A := A) 1 s).
Proof. reflexivity. Qed.

Lemma tame_for_each {A} (body : A -> io St unit) (xs : list A) (s : St) :
  (forall x s', tame (body x s')) -> tame (for_each body xs s).
Proof.
  intros H. revert s. induction xs as [|x xs IH]; intros s; [exact I|].
  cbn [for_each]. apply tame_bind; [apply H|]. intros _ s1. apply IH.
Qed.

(** With the handler every command ends with, a run returns or exits
    with status 1. *)
Lemma guarded_ending {A} (m : io St A) (prefix : string) (s : St) :
  tame (m s) ->
  let r := try_except m (fun e => bind (eprint_exc prefix e) (fun _ => sys_exit 1)) s in
  (exists a, result r = Ret a) \/ result r = SysExit 1.
Proof.
  intros H r. subst r. unfold try_except, result in *.
  destruct (m s) as [[[a|e|c] s1] t1]; cbn in *.
  - left. now exists a.
  - right. reflexivity.
  - right. now subst c.
Qed.

End EndingsOfRuns.

(** Goals [tame (m s)] for the commands' bodies. *)
Ltac tame_tac request_lemma :=
  repeat first
    [ apply tame_print | apply tame_ret | apply tame_exit
    | apply request_lemma
    | apply tame_lift; stays_tac
    | apply tame_bind; [|intros ? ?]
    | apply tame_for_each; intros ? ?
    | match goal with
      | |- context [(if ?b then _ else _) ?s] => destruct b
      | |- context [(match ?x with Some _ => _ | None => _ end) ?s] => destruct x
      | |- context [(let (_, _) := ?x in _) ?s] => destruct x
      end ].

Section CommandEndings.
Import Py IO.
Context {St : Type}.
Variable urlopen : St -> request -> St * reply.
Variable repr : json -> string.

Local Abbreviation tame r :=
  (match result r with SysExit c => c = 1%Z | _ => True end).
Local Abbreviation ends r := (result r = Ret tt \/ result r = SysExit 1).

Lemma ends_of_guarded (m : io St unit) (prefix : string) (s : St) :
  tame (m s) ->
  ends (try_except m (fun e => bind (eprint_exc prefix e) (fun _ => sys_exit 1)) s).
Proof.
  intros H. destruct (guarded_ending m prefix s H) as [[[] Ha]|He]; auto.
Qed.

Lemma linker_request_tame self url method data s :
  tame (Linker._make_request urlopen repr self url method data s).
Proof.
  unfold Linker._make_request, result.
  destruct (urlopen s _) as [s' [status b|code msg b|reason]]; cbn [fst].
  - destruct (Z.eqb status 204); [exact I|].
    destruct b as [t|j|]; cbn [decode obind]; [| |exact I].
    + now destruct (body_empty (Text t)).
    + now destruct (body_empty (Json j)).
  - destruct b as [t|j|]; cbn [decode obind]; [| |exact I].
    + destruct (@linker_http_failure repr json code msg (Text t)) as (text & -> & _).
      exact I.
    + destruct (@linker_http_failure repr json code msg (Json j)) as (text & -> & _).
      exact I.
  - exact I.
Qed.

Lemma transitioner_request_tame self url method data s :
  tame (Transitioner._make_request urlopen repr self url method data s).
Proof.
  pose proof (transitioner_request_stays urlopen repr self url method data s) as H.
  destruct (result _); auto. contradiction.
Qed.

Lemma viewer_request_tame self url s :
  tame (Viewer._make_request urlopen repr self url s).
Proof.
  unfold Viewer._make_request, result.
  destruct (urlopen s _) as [s' [status b|code msg b|reason]]; cbn [fst].
  - now destruct b.
  - destruct b as [t|j|]; cbn [decode obind]; [| |exact I].
    + change (match @Linker.http_failure repr json code msg (Text t) with
              | SysExit c => c = 1%Z
              | _ => True
              end).
      destruct (@linker_http_failure repr json code msg (Text t)) as (text & -> & _).
      exact I.
    + change (match @Linker.http_failure repr json code msg (Json j) with
              | SysExit c => c = 1%Z
              | _ => True
              end).
      destruct (@linker_http_failure repr json code msg (Json j)) as (text & -> & _).
      exact I.
  - exact I.
Qed.

(** X7. No command of the link tool lets an exception out: whatever the server
    answers, it returns or exits with status 1. *)
Theorem link_commands_end_cleanly (self : Linker.JiraLinker) (s : St) :
  ends (Linker.list_link_types urlopen repr self s)
  /\ (forall key, ends (Linker.list_issue_links urlopen repr self key s))
  /\ (forall source target type_name comment dry_run,
         ends (Linker.execute_link urlopen repr self source target type_name
                 comment dry_run s))
  /\ (forall key link_id, ends (Linker.execute_remove urlopen repr self key link_id s)).
Proof.
  repeat split; intros; apply ends_of_guarded;
    unfold Linker.find_link_type, Linker.get_issue_links, Linker.get_link_types,
      Linker.get_ticket, Linker.create_link, Linker.delete_link,
      Linker.list_link_types_row, Linker.list_issue_links_row,
      Linker.find_in_catalog, Linker.list_direction, Linker.remove_direction,
      Linker.same_id, Linker.exact_tier, Linker.partial_tier, Linker.label_tier;
    tame_tac (linker_request_tame self).
Qed.

(** X8. Nor does a command of the transition tool. *)
Theorem transition_commands_end_cleanly (self : Transitioner.JiraTransitioner)
  (key : string) (s : St) :
  ends (Transitioner.list_transitions urlopen repr self key s)
  /\ (forall status dry_run,
         ends (Transitioner.execute_transition urlopen repr self key status
                 dry_run s)).
Proof.
  repeat split; intros; apply ends_of_guarded;
    unfold Transitioner.find_transition, Transitioner.get_transitions,
      Transitioner.get_ticket, Transitioner.transition_ticket,
      Transitioner.list_transitions_row, Transitioner.available_row,
      Transitioner.find_in_catalog, Transitioner.to_status_of,
      Transitioner.exact_tier, Transitioner.partial_tier;
    tame_tac (transitioner_request_tame self).
Qed.

End CommandEndings.

(** Goals [result r = Ret tt \/ result r = SysExit 1] for the commands. *)
Ltac linker_ends urlopen repr self :=
  apply ends_of_guarded;
  unfold Linker.find_link_type, Linker.get_issue_links, Linker.get_link_types,
    Linker.get_ticket, Linker.create_link, Linker.delete_link,
    Linker.list_link_types_row, Linker.list_issue_links_row,
    Linker.find_in_catalog, Linker.list_direction, Linker.remove_direction,
    Linker.same_id, Linker.exact_tier, Linker.partial_tier, Linker.label_tier;
  tame_tac (linker_request_tame urlopen repr self).

Ltac transitioner_ends urlopen repr self :=
  apply ends_of_guarded;
  unfold Transitioner.find_transition, Transitioner.get_transitions,
    Transitioner.get_ticket, Transitioner.transition_ticket,
    Transitioner.list_transitions_row, Transitioner.available_row,
    Transitioner.find_in_catalog, Transitioner.to_status_of,
    Transitioner.exact_tier, Transitioner.partial_tier;
  tame_tac (transitioner_request_tame urlopen repr self).

Ltac viewer_ends urlopen repr self :=
  apply ends_of_guarded;
  unfold Viewer.get_ticket, Viewer.display_description, Viewer.display_comments,
    Viewer.display_links, Viewer.display_subtasks, Viewer.display_parent,
    Viewer.display_attachments, Viewer.linked_issue_row, Viewer.subtask_row,
    Viewer.attachment_row, Viewer.comment_row, Viewer.display_name,
    Viewer.join_comma, Viewer.join_names, Viewer.size_kb, Viewer.last_five,
    Viewer.first_200;
  tame_tac (viewer_request_tame urlopen repr self).

(** ** Steps that send nothing *)

Section Silent.
Import Py IO.
Context {St : Type}.

Local Abbreviation silent r := (requests (trace r) = []).

Lemma silent_bind {A B} (m : io St A) (k : A -> io St B) (s : St) :
  silent (m s) -> (forall a s1, silent (k a s1)) -> silent (bind m k s).
Proof.
  intros Hm Hk. rewrite trace_bind, requests_app, Hm.
  destruct (m s) as [[[a|e|c] s1] t1]; cbn [app]; auto.
Qed.

Lemma silent_lift {A} (o : outcome A) (s : St) : silent (lift o s).
Proof. reflexivity. Qed.

Lemma silent_print (line : string) (s : St) : silent (print line s).
Proof. reflexivity. Qed.

Lemma silent_ret {A} (a : A) (s : St) : silent (ret a s).
Proof. reflexivity. Qed.

Lemma silent_exit {A} (c : Z) (s : St) : silent (sys_exit (A := A) c s).
Proof. reflexivity. Qed.

Lemma silent_for_each {A} (body : A -> io St unit) (xs : list A) (s : St) :
  (forall x s', silent (body x s')) -> silent (for_each body xs s).
Proof.
  intros H. revert s. induction xs as [|x xs IH]; intros s; [reflexivity|].
  cbn [for_each]. apply silent_bind; [apply H|]. intros _ s1. apply IH.
Qed.

End Silent.

(** Goals [silent (m s)] for printing and computing steps. *)
Ltac silent_tac :=
  repeat first
    [ apply silent_print | apply silent_ret | apply silent_exit | apply silent_lift
    | apply silent_bind; [|intros ? ?]
    | apply silent_for_each; intros ? ?
    | match goal with
      | |- context [(if ?b then _ else _) ?s] => destruct b
      | |- context [(match ?x with Some _ => _ | None => _ end) ?s] => destruct x
      | |- context [(let (_, _) := ?x in _) ?s] => destruct x
      end ].

(** ** The view command *)

Section View.
Import Py IO Model.
Context {St : Type}.
Variable urlopen : St -> request -> St * reply.
Variable repr : json -> string.
Variable isoformat : string -> option string.
Variable self : Viewer.JiraViewer.
Variable dumps : json -> string.
Variable strip_tags : string -> string.
Variable kb_text : Z -> string.

Local Abbreviation display_ticket :=
  (Viewer.display_ticket urlopen repr isoformat self dumps strip_tags kb_text).

Lemma viewer_get_ticket_sent key full (s : St) :
  exists r,
    trace (Viewer.get_ticket urlopen repr self key full s) = [Sent r]
    /\ meth r = GET /\ IO.data r = None
    /\ IO.url r = Viewer.base_url self ++ "/issue/" ++ key
         ++ "?fields=summary,description,status,issuetype,assignee,reporter,"
         ++ "priority,created,updated,labels,fixVersions,components,issuelinks,"
         ++ "attachment,subtasks,parent" ++ (if full then ",comment" else "")
         ++ "&expand=renderedFields,names".
Proof.
  unfold Viewer.get_ticket, Viewer._make_request, trace.
  destruct (urlopen s _) as [s' r]. cbn [snd].
  eexists. split; [reflexivity|]. repeat split. now destruct full.
Qed.

Lemma display_sections_silent ticket fields full (s : St) :
  requests (trace (Viewer.display_description strip_tags ticket fields s)) = []
  /\ requests (trace (Viewer.display_comments repr isoformat fields full s)) = []
  /\ requests (trace (Viewer.display_links repr fields s)) = []
  /\ requests (trace (Viewer.display_subtasks repr fields s)) = []
  /\ requests (trace (Viewer.display_parent repr fields s)) = []
  /\ requests (trace (Viewer.display_attachments repr kb_text fields s)) = [].
Proof.
  unfold Viewer.display_description, Viewer.display_comments, Viewer.display_links,
    Viewer.display_subtasks, Viewer.display_parent, Viewer.display_attachments,
    Viewer.linked_issue_row, Viewer.subtask_row, Viewer.attachment_row,
    Viewer.comment_row.
  repeat split; silent_tac.
Qed.

Lemma display_ticket_requests key full json_output (s : St) :
  exists r,
    requests (trace (display_ticket key full json_output s)) = [r]
    /\ meth r = GET /\ IO.data r = None
    /\ IO.url r = Viewer.base_url self ++ "/issue/" ++ key
         ++ "?fields=summary,description,status,issuetype,assignee,reporter,"
         ++ "priority,created,updated,labels,fixVersions,components,issuelinks,"
         ++ "attachment,subtasks,parent" ++ (if full then ",comment" else "")
         ++ "&expand=renderedFields,names".
Proof.
  destruct (viewer_get_ticket_sent key full s) as (r & Ht & Hm & Hd & Hu).
  exists r. split; [|now repeat split].
  unfold Viewer.display_ticket. rewrite requests_try_exit.
  rewrite trace_bind, requests_app, Ht. cbn [requests flat_map app].
  f_equal.
  destruct (Viewer.get_ticket urlopen repr self key full s)
    as [[[ticket|e|c] s1] t1]; [|reflexivity..].
  destruct json_output; [reflexivity|].
  repeat (apply silent_bind; [|intros ? ?]);
    try apply (display_sections_silent ticket); silent_tac.
Qed.

(** X9. Viewing a ticket sends one request, a GET without a body, whatever the
    flags and whatever the server answers; the comments are asked for only
    with the full flag.  The command returns or exits with status 1. *)
Theorem display_ticket_one_get key full json_output (s : St) :
  let run := display_ticket key full json_output s in
  (exists r,
      requests (trace run) = [r]
      /\ meth r = GET /\ IO.data r = None
      /\ IO.url r = Viewer.base_url self ++ "/issue/" ++ key
           ++ "?fields=summary,description,status,issuetype,assignee,reporter,"
           ++ "priority,created,updated,labels,fixVersions,components,issuelinks,"
           ++ "attachment,subtasks,parent" ++ (if full then ",comment" else "")
           ++ "&expand=renderedFields,names")
  /\ (result run = Ret tt \/ result run = SysExit 1).
Proof.
  intros run. subst run. split; [apply display_ticket_requests|].
  viewer_ends urlopen repr self.
Qed.

End View.

Section ViewSections.
Import Py IO Model.
Context {St : Type}.
Variable urlopen : St -> request -> St * reply.
Variable repr : json -> string.
Variable isoformat : string -> option string.
Variable self : Viewer.JiraViewer.
Variable dumps : json -> string.
Variable strip_tags : string -> string.
Variable kb_text : Z -> string.

Local Abbreviation display_ticket :=
  (Viewer.display_ticket urlopen repr isoformat self dumps strip_tags kb_text).
Local Abbreviation get_ticket := (Viewer.get_ticket urlopen repr self).

Local Abbreviation view_row l :=
  ("  " ++ fst (read_path l) ++ ": " ++ peer_key (snd (read_path l)) ++ " - "
   ++ peer_summary (snd (read_path l)) ++ " ("
   ++ peer_status (snd (read_path l)) ++ ")").

(** A link that carries neither reference. *)
Local Abbreviation bare_link i lt :=
  (JObj [("id", JStr i); ("type", link_type_json lt)]).

Lemma linked_issue_row_run (l : IssueLink) (s : St) :
  Viewer.linked_issue_row repr (issue_link_json l) s
  = (Ret tt, s, [Stdout (view_row l)]).
Proof.
  unfold Viewer.linked_issue_row, read_path, issue_link_json.
  destruct (link_end l) as [p|p]; reflexivity.
Qed.

Lemma linked_issue_rows_run (links : list IssueLink) (s : St) :
  for_each (Viewer.linked_issue_row repr) (map issue_link_json links) s
  = (Ret tt, s, map (fun l => Stdout (view_row l)) links).
Proof.
  induction links as [|l links IH]; [reflexivity|].
  cbn [map for_each].
  apply (step_bind _ _ s tt s [Stdout (view_row l)]);
    [apply linked_issue_row_run|exact IH].
Qed.

Lemma for_each_app {A} (body : A -> io St unit) xs ys s s1 t1 o s2 t2 :
  for_each body xs s = (Ret tt, s1, t1) ->
  for_each body ys s1 = (o, s2, t2) ->
  for_each body (xs ++ ys) s = (o, s2, (t1 ++ t2)%list).
Proof.
  revert s t1. induction xs as [|x xs IH]; intros s t1 Hx Hy.
  - cbn in Hx. injection Hx as <- <-. exact Hy.
  - cbn [app for_each] in *.
    unfold bind in Hx |- *.
    destruct (body x s) as [[[u|e|c] s0] t0]; try discriminate.
    destruct (for_each body xs s0) as [[o' s'] t'] eqn:Hxs.
    injection Hx as -> -> <-.
    rewrite (IH s0 t' Hxs Hy). now rewrite app_assoc.
Qed.

Local Abbreviation links_lines links :=
  ((nl ++ "Linked Issues:") :: times "-" 80 :: map (fun l => view_row l) links).

Lemma display_links_run fields (links : list IssueLink) (s : St) :
  get fields "issuelinks" (JArr []) = Ret (JArr (map issue_link_json links)) ->
  Viewer.display_links repr fields s
  = (Ret tt, s,
     match links with
     | [] => []
     | _ => Stdout (nl ++ "Linked Issues:") :: Stdout (times "-" 80)
            :: map (fun l => Stdout (view_row l)) links
     end).
Proof.
  intros Hlinks. unfold Viewer.display_links.
  eapply step_lift; [exact Hlinks|].
  destruct links as [|l links]; [reflexivity|].
  change (truthy (JArr (map issue_link_json (l :: links)))) with true. cbv iota.
  apply step_print, step_print.
  eapply step_lift; [reflexivity|].
  apply linked_issue_rows_run.
Qed.

(** X10. When the formatted view of a ticket with linked issues returns, its
    output holds in one piece the header of the linked issues, the rule, and
    one line per fetched link in order, made by the read-path rule: the
    outward label and the outward reference when the link carries one, the
    inward label and reference otherwise. *)
Theorem view_links_follow_read_path key full ticket fields
  (links : list IssueLink) (s s' : St) (t : list event) :
  display_ticket key full false s = (Ret tt, s', t) ->
  result (get_ticket key full s) = Ret ticket ->
  get ticket "fields" (JObj []) = Ret fields ->
  get fields "issuelinks" (JArr []) = Ret (JArr (map issue_link_json links)) ->
  links <> [] ->
  exists before after, stdout t = (before ++ links_lines links ++ after)%list.
Proof.
  intros Hrun Hticket Hfields Hlinks Hne.
  destruct (display_ticket_returned urlopen repr isoformat self dumps strip_tags
              kb_text key full s s' t Hrun)
    as (ticket' & fields' & before & after & sa & sb & sc & sd
        & t_desc & t_comm & t_links & Ht & Hf & _ & _ & Hshown & ->).
  rewrite Hticket in Ht. injection Ht as <-.
  rewrite Hfields in Hf. injection Hf as <-.
  rewrite (display_links_run fields links sc Hlinks) in Hshown.
  destruct links as [|l links]; [contradiction|].
  injection Hshown as _ <-.
  exists (stdout before ++ stdout t_desc ++ stdout t_comm)%list, (stdout after).
  rewrite !stdout_app, !stdout_stdout, stdout_lines, <- !app_assoc. reflexivity.
Qed.

Lemma view_rows_app (before after : list IssueLink) i lt (s : St) :
  for_each (Viewer.linked_issue_row repr)
    (map issue_link_json before ++ bare_link i lt :: map issue_link_json after) s
  = (Ret tt, s, map (fun l => Stdout (view_row l)) (before ++ after)).
Proof.
  rewrite map_app.
  apply (for_each_app _ _ _ s s); [apply linked_issue_rows_run|].
  cbn [for_each].
  apply (step_bind _ _ s tt s []); [reflexivity|apply linked_issue_rows_run].
Qed.

Local Abbreviation description_lines clean :=
  ((nl ++ "Description:") :: times "-" 80 :: take 500 clean
   :: (if Nat.ltb 500 (String.length clean) then ["... (truncated)"] else [])).

Lemma display_description_run ticket fields description text (s : St) :
  get fields "description" JNull = Ret description ->
  truthy description = true ->
  (rf <~ get ticket "renderedFields" (JObj []) ;; get rf "description" JNull)
  = Ret (JStr text) ->
  text <> "" ->
  Viewer.display_description strip_tags ticket fields s
  = (Ret tt, s, map Stdout (description_lines (strip_tags text))).
Proof.
  intros Hd Ht Hr Hne.
  unfold Viewer.display_description.
  eapply step_lift; [exact Hd|]. rewrite Ht.
  eapply step_lift; [exact Hr|].
  assert (Htext : truthy (JStr text) = true).
  { cbn [truthy]. destruct (String.eqb_spec text ""); [contradiction|reflexivity]. }
  rewrite Htext.
  eapply step_lift; [reflexivity|].
  do 3 apply step_print.
  destruct (500 <? String.length (strip_tags text))%nat; reflexivity.
Qed.


(** X12. With the JSON flag the command prints the fetched ticket through
    [json.dumps] and nothing else; when the fetch fails it prints nothing on
    the standard output. *)
Theorem json_output_prints_only_dump key full (s : St) :
  stdout (trace (display_ticket key full true s))
  = match result (get_ticket key full s) with
    | Ret ticket => [dumps ticket]
    | _ => []
    end.
Proof.
  unfold Viewer.display_ticket.
  match goal with
  | |- stdout (trace (try_except ?m _ s)) = _ =>
      destruct (trace_try_exit m "❌ Error: " s) as (extra' & Ht' & _ & Hout')
  end.
  rewrite Ht', stdout_app, Hout', app_nil_r.
  rewrite trace_bind, stdout_app.
  destruct (viewer_get_ticket_sent urlopen repr self key full s) as (r & Hsent & _).
  rewrite Hsent. cbn [stdout flat_map app].
  unfold result.
  destruct (get_ticket key full s) as [[[ticket|e|c] s1] t1]; reflexivity.
Qed.

Lemma get_obj kvs key default :
  get (JObj kvs) key default
  = Ret (match assoc key kvs with Some v => v | None => default end).
Proof. cbn [get]. now destruct (assoc key kvs). Qed.

Lemma raise_lift {A B} (x : outcome A) (k : A -> io St B) (s : St) e :
  x = Raise e -> bind (lift x) k s = (Raise e, s, []).
Proof. now intros ->. Qed.

Lemma run_try_raise {A} (m : io St A) (prefix : string) s e s1 t1 :
  m s = (Raise e, s1, t1) ->
  try_except m (fun e => bind (eprint_exc prefix e) (fun _ => sys_exit 1)) s
  = (SysExit 1, s1, (t1 ++ [StderrExc prefix e])%list).
Proof. intros H. unfold try_except. rewrite H. reflexivity. Qed.

(** The name of a field that is an object, as the view reads it. *)
Lemma name_of_field kvs key :
  (forall c, (x <~ get (JObj kvs) key (JObj []) ;; get x "name" (JStr "Unknown"))
             <> SysExit c)
  /\ (assoc key kvs = Some JNull ->
      (x <~ get (JObj kvs) key (JObj []) ;; get x "name" (JStr "Unknown"))
      = Raise AttributeError).
Proof.
  cbn [get]. destruct (assoc key kvs) as [v|].
  - split; [|now intros [= ->]].
    intros c. cbn [obind]. destruct v as [| | | | |kvs']; cbn [get]; try discriminate.
    destruct (assoc "name" kvs'); discriminate.
  - split; [intros c|]; discriminate.
Qed.

(** The first steps of the formatted view, up to the rule under the header. *)
Ltac view_header Hticket Hsent Hfields :=
  eapply step_bind;
    [rewrite (run_eta (Viewer.get_ticket _ _ _ _ _ _)), Hticket, Hsent; reflexivity|];
  cbv iota;
  eapply step_lift; [exact Hfields|];
  eapply step_lift; [apply get_obj|];
  do 2 apply step_print.

(** X13. A null status, issue type or priority ends the view: the header is
    printed, then the command reports the error and exits with status 1. *)
Theorem view_fails_on_null_field key full ticket kvs (s : St) :
  result (get_ticket key full s) = Ret ticket ->
  get ticket "fields" (JObj []) = Ret (JObj kvs) ->
  assoc "status" kvs = Some JNull \/ assoc "issuetype" kvs = Some JNull
    \/ assoc "priority" kvs = Some JNull ->
  let run := display_ticket key full false s in
  result run = SysExit 1
  /\ stdout (trace run)
     = [nl ++ "📋 " ++ key ++ ": "
           ++ str repr (match assoc "summary" kvs with
                        | Some v => v
                        | None => JStr "No title"
                        end);
        times "=" 80].
Proof.
  intros Hticket Hfields Hnull run. subst run.
  unfold Viewer.display_ticket.
  match goal with
  | |- context [try_except ?m ?h] =>
      assert (Hbody : exists e s1 t1,
                 m s = (Raise e, s1, t1)
                 /\ stdout t1
                    = [nl ++ "📋 " ++ key ++ ": "
                          ++ str repr (match assoc "summary" kvs with
                                       | Some v => v
                                       | None => JStr "No title"
                                       end);
                       times "=" 80])
  end.
  { destruct (viewer_get_ticket_sent urlopen repr self key full s)
      as (r & Hsent & _).
    destruct (name_of_field kvs "status") as [Hs1 Hs2].
    destruct (name_of_field kvs "issuetype") as [Ht1 Ht2].
    destruct (name_of_field kvs "priority") as [Hp1 Hp2].
    destruct (x <~ get (JObj kvs) "status" (JObj []) ;; get x "name" (JStr "Unknown"))
      as [st|e|c] eqn:Hst; [|clear Hnull|now destruct (Hs1 c)].
    2: { exists e. eexists _, _. split.
         - view_header Hticket Hsent Hfields.
           apply raise_lift. exact Hst.
         - reflexivity. }
    destruct (x <~ get (JObj kvs) "issuetype" (JObj []) ;; get x "name" (JStr "Unknown"))
      as [ty|e|c] eqn:Hty; [|clear Hnull|now destruct (Ht1 c)].
    2: { exists e. eexists _, _. split.
         - view_header Hticket Hsent Hfields.
           eapply step_lift; [exact Hst|].
           apply raise_lift. exact Hty.
         - reflexivity. }
    destruct (x <~ get (JObj kvs) "priority" (JObj []) ;; get x "name" (JStr "Unknown"))
      as [pr|e|c] eqn:Hpr; [|clear Hnull|now destruct (Hp1 c)].
    2: { exists e. eexists _, _. split.
         - view_header Hticket Hsent Hfields.
           eapply step_lift; [exact Hst|].
           eapply step_lift; [exact Hty|].
           apply raise_lift. exact Hpr.
         - reflexivity. }
    destruct Hnull as [H|[H|H]];
      [specialize (Hs2 H)|specialize (Ht2 H)|specialize (Hp2 H)]; discriminate. }
  destruct Hbody as (e & s1 & t1 & Hrun & Hout).
  rewrite (run_try_raise _ _ _ _ _ _ Hrun).
  split; [reflexivity|].
  cbn [trace snd]. rewrite stdout_app, Hout. reflexivity.
Qed.

Local Abbreviation default_lines key :=
  [nl ++ "📋 " ++ key ++ ": No title";
   times "=" 80;
   nl ++ "Status: Unknown";
   "Type: Unknown";
   "Priority: Unknown";
   "Assignee: Unassigned";
   "Reporter: Unknown";
   "Created: Unknown";
   "Updated: Unknown"].
Local Abbreviation no_comments := [nl ++ "Comments: None"].
Local Abbreviation closing_lines key :=
  [nl ++ times "=" 80;
   "View in browser: https://" ++ Viewer.site self ++ "/browse/" ++ key;
   ""].

(** X14. A ticket without fields is shown with the defaults of every line, and
    the command returns. *)
Theorem view_of_fieldless_ticket key full ticket (s : St) :
  result (get_ticket key full s) = Ret ticket ->
  get ticket "fields" (JObj []) = Ret (JObj []) ->
  let run := display_ticket key full false s in
  result run = Ret tt
  /\ stdout (trace run)
     = (default_lines key ++ (if full then no_comments else []) ++ closing_lines key)%list.
Proof.
  intros Hticket Hfields run. subst run.
  destruct (viewer_get_ticket_sent urlopen repr self key full s) as (r & Hsent & _).
  unfold Viewer.display_ticket.
  match goal with
  | |- context [try_except ?m ?h] =>
      assert (Hbody : exists t1,
                 m s = (Ret tt, final (get_ticket key full s), (Sent r :: t1)%list)
                 /\ stdout t1
                    = (default_lines key ++ (if full then no_comments else []) ++ closing_lines key)%list)
  end.
  { destruct full; eexists; (split; [|shelve]).
    all: change (Sent r :: ?t)%list with ([Sent r] ++ t)%list.
    all: eapply step_bind;
        [rewrite (run_eta (get_ticket key _ s)), Hticket, Hsent; reflexivity|].
    all: cbv iota.
    all: eapply step_lift; [exact Hfields|].
    all: repeat first [ apply step_print
                      | eapply step_lift; [reflexivity|]
                      | eapply step_bind; [reflexivity|] ].
    all: try reflexivity.
    Unshelve. all: reflexivity. }
  destruct Hbody as (t1 & Hrun & Hout).
  rewrite (run_try_ret _ _ _ _ _ _ Hrun).
  split; [reflexivity|exact Hout].
Qed.

End ViewSections.

(** ** A link without a reference, listed and viewed *)

Section LinkWithoutReference.
Import Py IO Model.
Context {St : Type}.
Variable urlopen : St -> request -> St * reply.
Variable repr : json -> string.
Variable self : Linker.JiraLinker.

Local Abbreviation list_issue_links := (Linker.list_issue_links urlopen repr self).

Local Abbreviation listed l :=
  [nl ++ "  [" ++ link_id l ++ "] " ++ fst (read_path l) ++ ":";
   "    " ++ peer_key (snd (read_path l)) ++ ": " ++ peer_summary (snd (read_path l));
   "    Status: " ++ peer_status (snd (read_path l))].

Local Abbreviation viewed l :=
  ("  " ++ fst (read_path l) ++ ": " ++ peer_key (snd (read_path l)) ++ " - "
   ++ peer_summary (snd (read_path l)) ++ " ("
   ++ peer_status (snd (read_path l)) ++ ")").

Local Abbreviation without_reference i lt :=
  (JObj [("id", JStr i); ("type", link_type_json lt)]).

Lemma list_issue_links_one_get key (s : St) :
  requests (trace (list_issue_links key s))
  = [Linker.build_request self
       (Linker.base_url self ++ "/issue/" ++ key
        ++ "?fields=summary,status,issuelinks") GET None].
Proof.
  unfold Linker.list_issue_links.
  rewrite requests_try_exit, trace_bind, requests_app, linker_get_ticket_sent.
  cbn [app]. f_equal.
  destruct (Linker.get_ticket urlopen repr self key s) as [[[ticket|e|c] s1] t1];
    [|reflexivity..].
  unfold Linker.list_issue_links_row. silent_tac.
Qed.

(** X15. The links of a ticket are listed with their number, three lines each in
    the order fetched; a ticket without links gets the one line saying so.
    One GET is sent. *)
Theorem list_issue_links_shows_every_link key ticket summary
  (links : list IssueLink) (s : St) :
  result (Linker.get_ticket urlopen repr self key s) = Ret ticket ->
  (f <~ getitem ticket "fields" ;; getitem f "summary") = Ret summary ->
  (f <~ getitem ticket "fields" ;; get f "issuelinks" (JArr []))
  = Ret (JArr (map issue_link_json links)) ->
  let run := list_issue_links key s in
  result run = Ret tt
  /\ stdout (trace run)
     = (nl ++ key ++ ": " ++ str repr summary)
       :: times "=" 60
       :: match links with
          | [] => ["  No links found"]
          | _ => (nl ++ "Links (" ++ str_of_nat (length links) ++ "):")
                 :: flat_map (fun l => listed l) links
          end
  /\ requests (trace run)
     = [Linker.build_request self
          (Linker.base_url self ++ "/issue/" ++ key
           ++ "?fields=summary,status,issuelinks") GET None].
Proof.
  intros Hticket Hsum Hlinks run. subst run.
  split; [|split; [|apply list_issue_links_one_get]].
  - destruct links as [|l links].
    + unfold Linker.list_issue_links.
      erewrite run_try_ret; [reflexivity|].
      eapply step_bind;
        [rewrite (run_eta (Linker.get_ticket _ _ _ key s)), Hticket; reflexivity|].
      eapply step_lift; [exact Hsum|].
      eapply step_lift; [exact Hlinks|].
      do 2 apply step_print. reflexivity.
    + now rewrite (list_issue_links_run urlopen repr self key ticket summary
                     (l :: links) s Hticket Hsum Hlinks ltac:(discriminate)).
  - destruct links as [|l links].
    + unfold Linker.list_issue_links.
      erewrite run_try_ret.
      2: { eapply step_bind;
             [rewrite (run_eta (Linker.get_ticket _ _ _ key s)), Hticket; reflexivity|].
           eapply step_lift; [exact Hsum|].
           eapply step_lift; [exact Hlinks|].
           do 2 apply step_print. reflexivity. }
      cbn [trace snd]. rewrite stdout_app, linker_get_ticket_stdout. reflexivity.
    + apply (list_issue_links_stdout urlopen repr self key ticket summary
               (l :: links) s Hticket Hsum Hlinks). discriminate.
Qed.

(** X16. A fetched link that carries neither reference stops the listing: the
    links before it are shown, then the command reports the missing key and
    exits with status 1.  The view passes over such a link and shows the
    others. *)
Theorem link_without_reference key ticket summary fields
  (before after : list IssueLink) i lt (s : St) :
  let items := (map issue_link_json before
                ++ without_reference i lt :: map issue_link_json after)%list in
  result (Linker.get_ticket urlopen repr self key s) = Ret ticket ->
  (f <~ getitem ticket "fields" ;; getitem f "summary") = Ret summary ->
  (f <~ getitem ticket "fields" ;; get f "issuelinks" (JArr [])) = Ret (JArr items) ->
  get fields "issuelinks" (JArr []) = Ret (JArr items) ->
  let run := list_issue_links key s in
  result run = SysExit 1
  /\ stdout (trace run)
     = (nl ++ key ++ ": " ++ str repr summary)
       :: times "=" 60
       :: (nl ++ "Links (" ++ str_of_nat (S (length before + length after)) ++ "):")
       :: flat_map (fun l => listed l) before
  /\ last (trace run) (Stdout "") = StderrExc "Error: " (KeyError "inwardIssue")
  /\ Viewer.display_links repr fields s
     = (Ret tt, s,
        Stdout (nl ++ "Linked Issues:") :: Stdout (times "-" 80)
        :: map (fun l => Stdout (viewed l)) (before ++ after)).
Proof.
  intros items Hticket Hsum Hlinks Hfields run. subst run.
  assert (Hlen : length items = S (length before + length after)).
  { subst items. rewrite length_app. cbn [length]. rewrite !length_map. lia. }
  assert (Hrun : list_issue_links key s
                 = (SysExit 1, final (Linker.get_ticket urlopen repr self key s),
                    ((trace (Linker.get_ticket urlopen repr self key s)
                      ++ Stdout (nl ++ key ++ ": " ++ str repr summary)
                      :: Stdout (times "=" 60)
                      :: Stdout (nl ++ "Links (" ++ str_of_nat (length items) ++ "):")
                      :: flat_map (fun l => map Stdout (listed l)) before)
                     ++ [StderrExc "Error: " (KeyError "inwardIssue")])%list)).
  { unfold Linker.list_issue_links. apply run_try_raise.
    eapply step_bind;
      [rewrite (run_eta (Linker.get_ticket _ _ _ key s)), Hticket; reflexivity|].
    eapply step_lift; [exact Hsum|].
    eapply step_lift; [exact Hlinks|].
    do 2 apply step_print.
    assert (Htruthy : truthy (JArr items) = true).
    { subst items. now destruct before. }
    rewrite Htruthy. cbn [negb].
    eapply step_lift; [reflexivity|].
    apply step_print.
    eapply step_lift; [reflexivity|].
    subst items.
    rewrite <- (app_nil_r (flat_map _ before)).
    eapply for_each_app; [apply (list_rows_run repr before)|].
    reflexivity. }
  rewrite Hrun. cbn [result trace fst snd].
  split; [reflexivity|]. split; [|split].
  - rewrite !stdout_app, linker_get_ticket_stdout.
    change (stdout [StderrExc "Error: " (KeyError "inwardIssue")]) with (@nil string).
    rewrite app_nil_r. cbn [app].
    rewrite !stdout_stdout, Hlen. do 3 f_equal.
    exact (stdout_rows before).
  - apply last_last.
  - unfold Viewer.display_links.
    eapply step_lift; [exact Hfields|].
    assert (Htruthy : truthy (JArr items) = true).
    { subst items. now destruct before. }
    rewrite Htruthy.
    do 2 apply step_print.
    eapply step_lift; [reflexivity|].
    subst items. apply view_rows_app.
Qed.

End LinkWithoutReference.

Lemma view_links_follow_read_path_witness :
  exists before after,
    IO.stdout (IO.trace
      (Viewer.display_ticket Script.urlopen Script.repr Samples.no_dates
         Samples.viewer Script.repr (fun text => text) Py.str_of_Z
         "PROJ-1" false false [Script.ok Samples.linked_login_bug]))
    = (before
       ++ String.append IO.nl "Linked Issues:" :: IO.times "-" 80
          :: ["  blocks: PROJ-2 - Session expires early (In Progress)";
              "  is blocked by: PROJ-7 - Audit log gaps (Done)"]
       ++ after)%list.
Proof.
  refine (view_links_follow_read_path Script.urlopen Script.repr Samples.no_dates
            Samples.viewer Script.repr (fun text => text) Py.str_of_Z
            "PROJ-1" false Samples.linked_login_bug
            (Py.JObj [("summary", Py.JStr "Login fails");
                      ("status", Py.JObj [("name", Py.JStr "Open")]);
                      ("issuelinks",
                       Py.JArr (map Model.issue_link_json
                                  [Samples.blocks_session; Samples.blocked_by_audit]))])
            [Samples.blocks_session; Samples.blocked_by_audit]
            [Script.ok Samples.linked_login_bug] [] _
            eq_refl eq_refl eq_refl eq_refl _).
  discriminate.
Defined.


Lemma view_fails_on_null_field_witness :
  IO.result (Viewer.display_ticket Script.urlopen Script.repr Samples.no_dates
               Samples.viewer Script.repr (fun text => text) Py.str_of_Z
               "PROJ-1" false false
               [Script.ok (Py.JObj [("fields",
                                     Py.JObj [("summary", Py.JStr "Login fails");
                                              ("priority", Py.JNull)])])])
  = Py.SysExit 1.
Proof.
  apply (view_fails_on_null_field Script.urlopen Script.repr Samples.no_dates
           Samples.viewer Script.repr (fun text => text) Py.str_of_Z
           "PROJ-1" false
           (Py.JObj [("fields", Py.JObj [("summary", Py.JStr "Login fails");
                                         ("priority", Py.JNull)])])
           [("summary", Py.JStr "Login fails"); ("priority", Py.JNull)]
           [Script.ok (Py.JObj [("fields",
                                 Py.JObj [("summary", Py.JStr "Login fails");
                                          ("priority", Py.JNull)])])]
           eq_refl eq_refl).
  right. right. reflexivity.
Defined.

Lemma view_of_fieldless_ticket_witness :
  IO.result (Viewer.display_ticket Script.urlopen Script.repr Samples.no_dates
               Samples.viewer Script.repr (fun text => text) Py.str_of_Z
               "PROJ-1" true false
               [Script.ok (Py.JObj [("key", Py.JStr "PROJ-1")])])
  = Py.Ret tt.
Proof.
  apply (view_of_fieldless_ticket Script.urlopen Script.repr Samples.no_dates
           Samples.viewer Script.repr (fun text => text) Py.str_of_Z
           "PROJ-1" true (Py.JObj [("key", Py.JStr "PROJ-1")])
           [Script.ok (Py.JObj [("key", Py.JStr "PROJ-1")])]
           eq_refl eq_refl).
Defined.

Lemma list_issue_links_shows_every_link_witness :
  IO.stdout (IO.trace (Linker.list_issue_links Script.urlopen Script.repr
                         Samples.linker "PROJ-1" [Script.ok Samples.linked_login_bug]))
  = [IO.nl ++ "PROJ-1: Login fails";
     IO.times "=" 60;
     IO.nl ++ "Links (2):";
     IO.nl ++ "  [10001] blocks:";
     "    PROJ-2: Session expires early";
     "    Status: In Progress";
     IO.nl ++ "  [10002] is blocked by:";
     "    PROJ-7: Audit log gaps";
     "    Status: Done"].
Proof.
  apply (list_issue_links_shows_every_link Script.urlopen Script.repr Samples.linker
           "PROJ-1" Samples.linked_login_bug (Py.JStr "Login fails")
           [Samples.blocks_session; Samples.blocked_by_audit]
           [Script.ok Samples.linked_login_bug] eq_refl eq_refl eq_refl).
Defined.

Lemma link_without_reference_witness :
  IO.result (Linker.list_issue_links Script.urlopen Script.repr Samples.linker "PROJ-1"
               [Script.ok (Py.JObj [("fields",
                  Py.JObj [("summary", Py.JStr "Login fails");
                           ("issuelinks",
                            Py.JArr (map Model.issue_link_json [Samples.blocks_session]
                                     ++ Py.JObj [("id", Py.JStr "10003");
                                                 ("type", Model.link_type_json
                                                            Samples.relates)]
                                     :: map Model.issue_link_json
                                          [Samples.blocked_by_audit]))])])])
  = Py.SysExit 1.
Proof.
  apply (link_without_reference Script.urlopen Script.repr Samples.linker "PROJ-1"
           (Py.JObj [("fields",
              Py.JObj [("summary", Py.JStr "Login fails");
                       ("issuelinks",
                        Py.JArr (map Model.issue_link_json [Samples.blocks_session]
                                 ++ Py.JObj [("id", Py.JStr "10003");
                                             ("type", Model.link_type_json
                                                        Samples.relates)]
                                 :: map Model.issue_link_json
                                      [Samples.blocked_by_audit]))])])
           (Py.JStr "Login fails")
           (Py.JObj [("issuelinks",
                      Py.JArr (map Model.issue_link_json [Samples.blocks_session]
                               ++ Py.JObj [("id", Py.JStr "10003");
                                           ("type", Model.link_type_json
                                                      Samples.relates)]
                               :: map Model.issue_link_json
                                    [Samples.blocked_by_audit]))])
           [Samples.blocks_session] [Samples.blocked_by_audit] "10003" Samples.relates
           [Script.ok (Py.JObj [("fields",
              Py.JObj [("summary", Py.JStr "Login fails");
                       ("issuelinks",
                        Py.JArr (map Model.issue_link_json [Samples.blocks_session]
                                 ++ Py.JObj [("id", Py.JStr "10003");
                                             ("type", Model.link_type_json
                                                        Samples.relates)]
                                 :: map Model.issue_link_json
                                      [Samples.blocked_by_audit]))])])]
           eq_refl eq_refl eq_refl eq_refl).
Defined.

(** ** The three mains *)

Section ReadsOnly.
Import Py IO.
Context {St : Type}.

Local Abbreviation reads r := (forallb reading (requests (trace r)) = true).

Lemma reads_bind {A B} (m : io St A) (k : A -> io St B) (s : St) :
  reads (m s) -> (forall a s1, reads (k a s1)) -> reads (bind m k s).
Proof.
  intros Hm Hk. rewrite trace_bind, requests_app, forallb_app, Hm.
  destruct (m s) as [[[a|e|c] s1] t1]; [apply Hk|reflexivity..].
Qed.

Lemma reads_silent {A} (r : outcome A * St * list event) :
  requests (trace r) = [] -> reads r.
Proof. now intros ->. Qed.

Lemma reads_try {A} (m : io St A) (prefix : string) (s : St) :
  reads (m s) ->
  reads (try_except m (fun e => bind (eprint_exc prefix e) (fun _ => sys_exit 1)) s).
Proof. now rewrite requests_try_exit. Qed.

End ReadsOnly.

Section Mains.
Import Py IO.
Context {St : Type}.
Variable urlopen : St -> request -> St * reply.
Variable repr : json -> string.
Variable b64encode : string -> string.
Variable parse_link_args : string -> list string -> Cli.parse Cli.link_args.
Variable parse_transition_args :
  string -> list string -> Cli.parse Cli.transition_args.
Variable parse_view_args : string -> list string -> Cli.parse Cli.view_args.
Variable isoformat : string -> option string.
Variable dumps : json -> string.
Variable strip_tags : string -> string.
Variable kb_text : Z -> string.

Local Abbreviation link_main :=
  (Cli.link_main urlopen repr b64encode parse_link_args).
Local Abbreviation transition_main :=
  (Cli.transition_main urlopen repr b64encode parse_transition_args).
Local Abbreviation view_main :=
  (Cli.view_main urlopen repr b64encode isoformat dumps strip_tags kb_text
     parse_view_args).

Local Abbreviation ending run := (fst (fst run)).
Local Abbreviation output run := (snd run).

(** How a run without credentials ends: the parser's own endings come
    first. *)
Local Abbreviation without_credentials parsed :=
  (match parsed with
   | Cli.Parsed _ => Cli.Exited 1
   | Cli.Rejected => Cli.Exited 2
   | Cli.HelpShown => Cli.Exited 0
   end).

(** A run the parser ended. *)
Local Abbreviation left_by_parser parsed run :=
  ((parsed = Cli.Rejected /\ ending run = Cli.Exited 2 /\ output run = [Cli.Usage])
   \/ (parsed = Cli.HelpShown /\ ending run = Cli.Exited 0 /\ output run = [Cli.Help])).

Lemma sent_events (t : list event) : Cli.sent (map Cli.Event t) = requests t.
Proof.
  induction t as [|ev t IH]; [reflexivity|].
  cbn [map Cli.sent flat_map requests]. fold (Cli.sent (map Cli.Event t)).
  rewrite IH. now destruct ev.
Qed.

Lemma call_sent (m : io St unit) (s : St) :
  Cli.sent (output (Cli.call m s)) = requests (trace (m s)).
Proof.
  unfold Cli.call, trace. destruct (m s) as [[o s'] t]. apply sent_events.
Qed.

Lemma call_ending (m : io St unit) (s : St) :
  ending (Cli.call m s) = Cli.of_outcome (result (m s)).
Proof. unfold Cli.call, result. now destruct (m s) as [[o s'] t]. Qed.

Lemma list_link_types_reads self (s : St) :
  forallb reading (requests (trace (Linker.list_link_types urlopen repr self s))) = true.
Proof.
  unfold Linker.list_link_types. apply reads_try.
  apply reads_bind; [apply get_link_types_reads|intros a s1].
  apply reads_silent. unfold Linker.list_link_types_row. silent_tac.
Qed.

Lemma list_transitions_reads self key (s : St) :
  forallb reading
    (requests (trace (Transitioner.list_transitions urlopen repr self key s))) = true.
Proof.
  unfold Transitioner.list_transitions. apply reads_try.
  apply reads_bind; [apply transitioner_get_ticket_reads|intros ticket s1].
  apply reads_bind; [now apply reads_silent|intros current s2].
  apply reads_bind; [now apply reads_silent|intros summary s3].
  do 3 (apply reads_bind; [now apply reads_silent|intros ? ?]).
  apply reads_bind; [apply get_transitions_reads|intros transitions s7].
  apply reads_silent. unfold Transitioner.list_transitions_row. silent_tac.
Qed.


(** X18. The listing flags of the link tool and of the transition tool, and the
    view tool, send no POST and no DELETE, whatever the other arguments are:
    [--list-types] comes before [--list], and both before [--remove] and the
    creation of a link. *)
Theorem listing_flags_never_mutate env_site email api_token (argv : list string)
  (s : St) :
  (forall source target link_type list remove comment dry_run site,
      parse_link_args (Cli.site_default env_site) argv
      = Cli.Parsed (Cli.mkLinkArgs source target link_type true list remove comment
                      dry_run site) ->
      filter mutating
        (Cli.sent (output (link_main env_site email api_token argv s))) = [])
  /\ (forall source target link_type remove comment dry_run site,
      parse_link_args (Cli.site_default env_site) argv
      = Cli.Parsed (Cli.mkLinkArgs source target link_type false true remove comment
                      dry_run site) ->
      filter mutating
        (Cli.sent (output (link_main env_site email api_token argv s))) = [])
  /\ (forall key status dry_run site,
      parse_transition_args (Cli.site_default env_site) argv
      = Cli.Parsed (Cli.mkTransitionArgs key status true dry_run site) ->
      filter mutating
        (Cli.sent (output (transition_main env_site email api_token argv s))) = [])
  /\ filter mutating
       (Cli.sent (output (view_main env_site email api_token argv s))) = [].
Proof.
  unfold Cli.link_main, Cli.transition_main, Cli.view_main.
  repeat split.
  - intros source target link_type list remove comment dry_run site ->.
    destruct (orb (negb (given email)) (negb (given api_token))); [reflexivity|].
    cbn [Cli.l_list_types Cli.l_site].
    destruct (Linker.__init__ _ _ _ _) as [linker|]; [|reflexivity].
    rewrite call_sent. apply no_mutation_of_reads, list_link_types_reads.
  - intros source target link_type remove comment dry_run site ->.
    destruct (orb (negb (given email)) (negb (given api_token))); [reflexivity|].
    cbn [Cli.l_list_types Cli.l_list Cli.l_source Cli.l_site].
    destruct (Linker.__init__ _ _ _ _) as [linker|]; [|reflexivity].
    destruct (negb (given source)); [reflexivity|].
    rewrite call_sent, list_issue_links_one_get. reflexivity.
  - intros key status dry_run site ->.
    destruct (orb (negb (given email)) (negb (given api_token))); [reflexivity|].
    cbn [Cli.t_list Cli.t_site Cli.t_issue_key].
    destruct (Transitioner.__init__ _ _ _ _) as [transitioner|]; [|reflexivity].
    rewrite call_sent. apply no_mutation_of_reads, list_transitions_reads.
  - destruct (parse_view_args _ argv) as [vargs| |]; [|reflexivity..].
    destruct (orb (negb (given email)) (negb (given api_token))); [reflexivity|].
    destruct (Viewer.__init__ _ _ _ _) as [viewer|]; [|reflexivity].
    rewrite call_sent.
    destruct (display_ticket_requests urlopen repr isoformat viewer dumps strip_tags
                kb_text (Cli.v_issue_key vargs) (Cli.v_full vargs) (Cli.v_json vargs) s)
      as (r & -> & Hm & _).
    cbn [filter]. unfold mutating. now rewrite Hm.
Qed.

(** X19. A tool ends normally, with status 1, or as the parser ended it (status
    2 for a command line it rejects, status 0 after the help), with one
    exception: credentials that are not ASCII make the constructor raise
    outside every handler, before any request and any output. *)
Theorem tools_end_with_status env_site email api_token (argv : list string)
  (s : St) :
  let ascii := is_ascii (Cli.value email ++ ":" ++ Cli.value api_token) in
  let crashed run :=
    ending run = Cli.Crashed /\ output run = []
    /\ given email = true /\ given api_token = true /\ ascii = false in
  let ended run := ending run = Cli.Finished \/ ending run = Cli.Exited 1 in
  (ended (link_main env_site email api_token argv s)
   \/ crashed (link_main env_site email api_token argv s)
   \/ left_by_parser (parse_link_args (Cli.site_default env_site) argv)
        (link_main env_site email api_token argv s))
  /\ (ended (transition_main env_site email api_token argv s)
      \/ crashed (transition_main env_site email api_token argv s)
      \/ left_by_parser (parse_transition_args (Cli.site_default env_site) argv)
           (transition_main env_site email api_token argv s))
  /\ (ended (view_main env_site email api_token argv s)
      \/ crashed (view_main env_site email api_token argv s)
      \/ left_by_parser (parse_view_args (Cli.site_default env_site) argv)
           (view_main env_site email api_token argv s)).
Proof.
  intros ascii crashed ended. subst ascii crashed ended. cbv beta.
  assert (Hend : forall (m : io St unit),
             (result (m s) = Ret tt \/ result (m s) = SysExit 1) ->
             ending (Cli.call m s) = Cli.Finished
             \/ ending (Cli.call m s) = Cli.Exited 1).
  { intros m Hm. rewrite call_ending. destruct Hm as [-> | ->]; [left|right]; reflexivity. }
  unfold Cli.link_main, Cli.transition_main, Cli.view_main,
    Linker.__init__, Transitioner.__init__, Viewer.__init__.
  split; [|split].
  - destruct (parse_link_args _ argv) as [largs| |];
      [|right; right; left; repeat split|right; right; right; repeat split].
    destruct (given email) eqn:He; [|left; right; reflexivity].
    destruct (given api_token) eqn:Ht; [|left; right; reflexivity].
    cbn [negb orb].
    destruct (is_ascii (Cli.value email ++ ":" ++ Cli.value api_token));
      [|right; left; repeat split; reflexivity].
    left.
    destruct (Cli.l_list_types largs).
    { apply Hend. linker_ends urlopen repr
        {| Linker.site := remove_all "http://" (remove_all "https://" (Cli.l_site largs));
           Linker.auth_header :=
             "Basic " ++ b64encode (Cli.value email ++ ":" ++ Cli.value api_token) |}. }
    destruct (Cli.l_list largs).
    { destruct (negb (given (Cli.l_source largs))); [right; reflexivity|].
      apply Hend. linker_ends urlopen repr
        {| Linker.site := remove_all "http://" (remove_all "https://" (Cli.l_site largs));
           Linker.auth_header :=
             "Basic " ++ b64encode (Cli.value email ++ ":" ++ Cli.value api_token) |}. }
    destruct (given (Cli.l_remove largs)).
    { destruct (negb (given (Cli.l_source largs))); [right; reflexivity|].
      apply Hend. linker_ends urlopen repr
        {| Linker.site := remove_all "http://" (remove_all "https://" (Cli.l_site largs));
           Linker.auth_header :=
             "Basic " ++ b64encode (Cli.value email ++ ":" ++ Cli.value api_token) |}. }
    destruct (orb _ _); [right; reflexivity|].
    apply Hend. linker_ends urlopen repr
      {| Linker.site := remove_all "http://" (remove_all "https://" (Cli.l_site largs));
         Linker.auth_header :=
           "Basic " ++ b64encode (Cli.value email ++ ":" ++ Cli.value api_token) |}.
  - destruct (parse_transition_args _ argv) as [targs| |];
      [|right; right; left; repeat split|right; right; right; repeat split].
    destruct (given email) eqn:He; [|left; right; reflexivity].
    destruct (given api_token) eqn:Ht; [|left; right; reflexivity].
    cbn [negb orb].
    destruct (is_ascii (Cli.value email ++ ":" ++ Cli.value api_token));
      [|right; left; repeat split; reflexivity].
    left.
    destruct (Cli.t_list targs).
    { apply Hend. transitioner_ends urlopen repr
        {| Transitioner.site :=
             remove_all "http://" (remove_all "https://" (Cli.t_site targs));
           Transitioner.auth_header :=
             "Basic " ++ b64encode (Cli.value email ++ ":" ++ Cli.value api_token) |}. }
    destruct (negb (given (Cli.t_status targs))); [right; reflexivity|].
    apply Hend. transitioner_ends urlopen repr
      {| Transitioner.site :=
           remove_all "http://" (remove_all "https://" (Cli.t_site targs));
         Transitioner.auth_header :=
           "Basic " ++ b64encode (Cli.value email ++ ":" ++ Cli.value api_token) |}.
  - destruct (parse_view_args _ argv) as [vargs| |];
      [|right; right; left; repeat split|right; right; right; repeat split].
    destruct (given email) eqn:He; [|left; right; reflexivity].
    destruct (given api_token) eqn:Ht; [|left; right; reflexivity].
    cbn [negb orb].
    destruct (is_ascii (Cli.value email ++ ":" ++ Cli.value api_token));
      [|right; left; repeat split; reflexivity].
    left.
    apply Hend. viewer_ends urlopen repr
      {| Viewer.site := remove_all "http://" (remove_all "https://" (Cli.v_site vargs));
         Viewer.auth_header :=
           "Basic " ++ b64encode (Cli.value email ++ ":" ++ Cli.value api_token) |}.
Qed.

End Mains.

(** ** The constructor: the scheme of the site is removed *)

Section Constructor.
Import Py IO.

Lemma remove_from_absent (old s : string) :
  contains old s = false -> remove_from old 0 s = s.
Proof.
  induction s as [|c r IH]; [reflexivity|].
  cbn [contains remove_from].
  destruct (String.prefix old (String c r)); [discriminate|].
  intros H. now rewrite (IH H).
Qed.

Lemma remove_from_skip (old pre s : string) :
  remove_from old (String.length pre) (pre ++ s) = remove_from old 0 s.
Proof. induction pre as [|c r IH]; [reflexivity|exact IH]. Qed.

Lemma remove_from_occurrence (c : ascii) (r s : string) :
  remove_from (String c r) 0 (String c r ++ s) = remove_from (String c r) 0 s.
Proof.
  pose proof (prefix_app (String c r) s) as Hp.
  change (String c r ++ s) with (String c (r ++ s)) in *.
  cbn [remove_from]. rewrite Hp.
  cbn [String.length]. rewrite Nat.sub_1_r. cbn [Nat.pred].
  apply remove_from_skip.
Qed.

Lemma https_not_in_http (host : string) :
  contains "https://" host = false ->
  contains "https://" ("http://" ++ host) = false.
Proof.
  intros H. cbn [append contains String.prefix].
  repeat match goal with
         | |- context [ascii_dec ?a ?b] =>
             let E := fresh "E" in
             destruct (ascii_dec a b) as [E|E];
             [try discriminate E; clear E | try (now destruct E); clear E]
         end.
  exact H.
Qed.

Lemma site_without_scheme (host site : string) :
  contains "https://" host = false ->
  contains "http://" host = false ->
  site = host \/ site = "https://" ++ host \/ site = "http://" ++ host ->
  remove_all "http://" (remove_all "https://" site) = host.
Proof.
  intros Hs Hp [-> | [-> | ->]]; unfold remove_all.
  - rewrite (remove_from_absent "https://" host Hs). now apply remove_from_absent.
  - rewrite remove_from_occurrence, (remove_from_absent "https://" host Hs).
    now apply remove_from_absent.
  - rewrite (remove_from_absent "https://" _ (https_not_in_http host Hs)).
    rewrite remove_from_occurrence. now apply remove_from_absent.
Qed.

(** X20. A site given as a bare host, with [https://] or with [http://] in front
    yields the same object: the requests go to [https://host/rest/api/3].
    The host itself contains neither scheme. *)
Theorem site_scheme_is_removed b64encode email api_token host site :
  contains "https://" host = false ->
  contains "http://" host = false ->
  site = host \/ site = "https://" ++ host \/ site = "http://" ++ host ->
  is_ascii (email ++ ":" ++ api_token) = true ->
  option_map Linker.base_url (Linker.__init__ b64encode email api_token site)
  = Some ("https://" ++ host ++ "/rest/api/3")
  /\ option_map Transitioner.base_url
       (Transitioner.__init__ b64encode email api_token site)
     = Some ("https://" ++ host ++ "/rest/api/3")
  /\ option_map Viewer.base_url (Viewer.__init__ b64encode email api_token site)
     = Some ("https://" ++ host ++ "/rest/api/3")
  /\ option_map Linker.auth_header (Linker.__init__ b64encode email api_token site)
     = Some ("Basic " ++ b64encode (email ++ ":" ++ api_token)).
Proof.
  intros Hs Hp Hsite Hascii.
  unfold Linker.__init__, Transitioner.__init__, Viewer.__init__.
  rewrite Hascii, (site_without_scheme host site Hs Hp Hsite).
  repeat split.
Qed.

End Constructor.

Lemma site_scheme_is_removed_witness :
  option_map Linker.base_url
    (Linker.__init__ (fun text => text) "ada@example.com" "token"
       "https://example.atlassian.net")
  = Some ("https://" ++ "example.atlassian.net" ++ "/rest/api/3").
Proof.
  exact (proj1 (site_scheme_is_removed (fun text => text) "ada@example.com" "token"
                  "example.atlassian.net" "https://example.atlassian.net"
                  eq_refl eq_refl (or_intror (or_introl eq_refl)) eq_refl)).
Defined.

(** ** Listing the transitions, and the preview of a transition *)

Section TransitionListing.
Import Py IO Model.
Context {St : Type}.
Variable urlopen : St -> request -> St * reply.
Variable repr : json -> string.
Variable self : Transitioner.JiraTransitioner.

Local Abbreviation get_ticket := (Transitioner.get_ticket urlopen repr self).
Local Abbreviation get_transitions := (Transitioner.get_transitions urlopen repr self).

Local Abbreviation status_name ticket :=
  (f <~ getitem ticket "fields" ;; st <~ getitem f "status" ;; getitem st "name").
Local Abbreviation summary_of ticket :=
  (f <~ getitem ticket "fields" ;; getitem f "summary").

Local Abbreviation head_line key summary :=
  (nl ++ "📋 " ++ key ++ ": " ++ str repr summary).
Local Abbreviation status_line current := ("Current Status: " ++ str repr current).
Local Abbreviation numbered it :=
  ("  " ++ str_of_nat (fst it) ++ ". " ++ tr_name (snd it) ++ " → " ++ tr_to (snd it)).

Lemma numbered_rows_run (start : nat) (ts : list Transition) (s : St) :
  for_each (Transitioner.list_transitions_row repr)
    (enumerate start (map transition_json ts)) s
  = (Ret tt, s, map (fun it => Stdout (numbered it)) (enumerate start ts)).
Proof.
  revert start. induction ts as [|t ts IH]; intros start; [reflexivity|].
  cbn [map enumerate for_each].
  apply (step_bind _ _ s tt s [Stdout (numbered (start, t))]); [reflexivity|].
  apply IH.
Qed.

(** X21. Listing shows the ticket and its status, then the transitions of the
    fetched catalog numbered from 1 in catalog order, each with its name and
    destination; with an empty catalog it says that none is available. *)
Theorem list_transitions_numbers_catalog key ticket current summary
  (ts : list Transition) (s : St) :
  result (get_ticket key s) = Ret ticket ->
  status_name ticket = Ret current ->
  summary_of ticket = Ret summary ->
  result (get_transitions key (final (get_ticket key s)))
  = Ret (JArr (map transition_json ts)) ->
  let run := Transitioner.list_transitions urlopen repr self key s in
  result run = Ret tt
  /\ stdout (trace run)
     = head_line key summary :: status_line current
       :: (nl ++ "Available Transitions:")
       :: match ts with
          | [] => ["  (No transitions available)"]
          | _ => map (fun it => numbered it) (enumerate 1 ts)
          end.
Proof.
  intros Hticket Hcur Hsum Hcat run.
  assert (Hrun : exists sx tail,
             run = (Ret tt, sx,
                    (trace (get_ticket key s)
                     ++ Stdout (head_line key summary)
                     :: Stdout (status_line current)
                     :: Stdout (nl ++ "Available Transitions:")
                     :: trace (get_transitions key (final (get_ticket key s)))
                     ++ map Stdout tail)%list)
             /\ tail = match ts with
                       | [] => ["  (No transitions available)"]
                       | _ => map (fun it => numbered it) (enumerate 1 ts)
                       end).
  { destruct ts as [|t0 ts0]; eexists; eexists; (split; [|reflexivity]).
    - unfold run, Transitioner.list_transitions. apply run_try_ret.
      eapply step_bind.
      { rewrite (run_eta (get_ticket key s)), Hticket. reflexivity. }
      eapply step_lift; [exact Hcur|].
      eapply step_lift; [exact Hsum|].
      do 3 eapply step_print.
      eapply step_bind.
      { rewrite (run_eta (get_transitions key _)), Hcat. reflexivity. }
      reflexivity.
    - unfold run, Transitioner.list_transitions. apply run_try_ret.
      eapply step_bind.
      { rewrite (run_eta (get_ticket key s)), Hticket. reflexivity. }
      eapply step_lift; [exact Hcur|].
      eapply step_lift; [exact Hsum|].
      do 3 eapply step_print.
      eapply step_bind.
      { rewrite (run_eta (get_transitions key _)), Hcat. reflexivity. }
      change (truthy (JArr (map transition_json (t0 :: ts0)))) with true.
      cbn [negb].
      eapply step_lift; [reflexivity|].
      rewrite map_map.
      apply (numbered_rows_run 1 (t0 :: ts0)). }
  destruct Hrun as (sx & tail & -> & ->).
  split; [reflexivity|].
  cbn [trace snd].
  destruct (transitioner_get_ticket_quiet urlopen repr self key s) as [Ho1 _].
  destruct (get_transitions_quiet urlopen repr self key (final (get_ticket key s)))
    as [Ho2 _].
  rewrite stdout_app, Ho1. cbn [app]. rewrite !stdout_stdout, stdout_app, Ho2.
  cbn [app]. now rewrite stdout_of_lines.
Qed.

End TransitionListing.

Section TransitionPreview.
Import Py IO Model.
Context {St : Type}.
Variable urlopen : St -> request -> St * reply.
Variable repr : json -> string.
Variable self : Transitioner.JiraTransitioner.

Local Abbreviation get_ticket := (Transitioner.get_ticket urlopen repr self).
Local Abbreviation get_transitions := (Transitioner.get_transitions urlopen repr self).

Local Abbreviation status_name ticket :=
  (f <~ getitem ticket "fields" ;; st <~ getitem f "status" ;; getitem st "name").
Local Abbreviation summary_of ticket :=
  (f <~ getitem ticket "fields" ;; getitem f "summary").

Local Abbreviation head_line key summary :=
  (nl ++ "📋 " ++ key ++ ": " ++ str repr summary).
Local Abbreviation status_line current := ("Current Status: " ++ str repr current).

Lemma to_status_of_search (id status : string) (ts : list Transition) :
  for_return (Transitioner.to_status_of (JStr id) status) (map transition_json ts)
  = Ret (option_map (fun t => JStr (tr_to t))
           (find (fun t => String.eqb (tr_id t) id) ts)).
Proof.
  apply (for_return_search transition_json (fun t => String.eqb (tr_id t) id)
           (fun t => JStr (tr_to t))).
  intros t. unfold Transitioner.to_status_of, transition_json.
  cbn [getitem assoc String.eqb Ascii.eqb Bool.eqb obind Py.eq].
  now destruct (String.eqb (tr_id t) id).
Qed.

(** X22. The preview of a transition names the destination that the catalog
    fetched after the resolution gives for the resolved id, not the one of the
    catalog the name was resolved in; when that second catalog has no entry
    of the id, the preview shows None. *)
Theorem preview_reads_second_catalog key status ticket current summary
  (resolved_in fetched_again : list Transition) (t : Transition) (s : St) :
  result (get_ticket key s) = Ret ticket ->
  status_name ticket = Ret current ->
  summary_of ticket = Ret summary ->
  let s1 := final (get_ticket key s) in
  result (get_transitions key s1) = Ret (JArr (map transition_json resolved_in)) ->
  resolve_transition resolved_in status = Some t ->
  let s2 := final (get_transitions key s1) in
  result (get_transitions key s2) = Ret (JArr (map transition_json fetched_again)) ->
  let destination :=
    match find (fun t' => String.eqb (tr_id t') (tr_id t)) fetched_again with
    | Some t' => tr_to t'
    | None => "None"
    end in
  let run := Transitioner.execute_transition urlopen repr self key status true s in
  result run = Ret tt
  /\ stdout (trace run)
     = [head_line key summary; status_line current;
        nl ++ "🔍 Dry run: Would transition to '" ++ destination ++ "'";
        "   Using transition: " ++ tr_name t ++ " (ID: " ++ tr_id t ++ ")"].
Proof.
  intros Hticket Hcur Hsum s1 Hcat Hres s2 Hagain destination run.
  assert (Hrun : exists sx tx,
             run = (Ret tt, sx, tx)
             /\ stdout tx
                = [head_line key summary; status_line current;
                   nl ++ "🔍 Dry run: Would transition to '" ++ destination ++ "'";
                   "   Using transition: " ++ tr_name t ++ " (ID: " ++ tr_id t ++ ")"]).
  { eexists. eexists. split.
    - unfold run, Transitioner.execute_transition. apply run_try_ret.
      eapply step_bind.
      { rewrite (run_eta (get_ticket key s)), Hticket. reflexivity. }
      eapply step_lift; [exact Hcur|].
      eapply step_lift; [exact Hsum|].
      do 2 eapply step_print.
      eapply step_bind.
      { apply (find_transition_run urlopen repr self resolved_in). exact Hcat. }
      rewrite Hres. cbn [option_map].
      eapply step_bind.
      { rewrite (run_eta (get_transitions key _)). fold s1 s2. rewrite Hagain.
        reflexivity. }
      eapply step_lift.
      { cbn [iter obind]. apply to_status_of_search. }
      eapply step_print. reflexivity.
    - destruct (transitioner_get_ticket_quiet urlopen repr self key s) as [Ho1 _].
      destruct (get_transitions_quiet urlopen repr self key s1) as [Ho2 _].
      destruct (get_transitions_quiet urlopen repr self key s2) as [Ho3 _].
      fold s1 s2.
      repeat rewrite ?stdout_app, ?stdout_stdout.
      rewrite Ho1, Ho2, Ho3. cbn [app stdout flat_map].
      subst destination.
      now destruct (find _ fetched_again). }
  destruct Hrun as (sx & tx & -> & Ho). split; [reflexivity|exact Ho].
Qed.

End TransitionPreview.

(** ** A created link *)

Section LinkCreated.
Import Py IO Model.
Context {St : Type}.
Variable urlopen : St -> request -> St * reply.
Variable repr : json -> string.
Variable self : Linker.JiraLinker.

Local Abbreviation send url method data := (Linker.build_request self url method data).
Local Abbreviation ticket_url key :=
  (Linker.base_url self ++ "/issue/" ++ key ++ "?fields=summary,status,issuelinks").

Lemma create_link_exact source target name comment (s : St) :
  trace (Linker.create_link urlopen repr self source target name comment s)
  = [Sent (send (Linker.base_url self ++ "/issueLink") POST
             (Some (Linker.create_link_data source target name comment)))].
Proof.
  unfold Linker.create_link. rewrite trace_bind, linker_request_sent.
  destruct (Linker._make_request _ _ _ _ _ _ s) as [[[a|e|c] s1] t1]; reflexivity.
Qed.

(** What a link creation that returned has done, step by step. *)
Lemma execute_link_returned source target type_name comment (s s' : St)
  (t : list event) :
  Linker.execute_link urlopen repr self source target type_name comment false s
  = (Ret tt, s', t) ->
  exists link_type s1 t_find source_ticket s2 t_source target_ticket s3 t_target
         source_summary target_summary name outward inward t_comment s4,
    Linker.find_link_type urlopen repr self type_name s = (Ret link_type, s1, t_find)
    /\ truthy link_type = true
    /\ Linker.get_ticket urlopen repr self source s1 = (Ret source_ticket, s2, t_source)
    /\ Linker.get_ticket urlopen repr self target s2 = (Ret target_ticket, s3, t_target)
    /\ getitem link_type "name" = Ret name
    /\ getitem link_type "outward" = Ret outward
    /\ getitem link_type "inward" = Ret inward
    /\ requests t_comment = []
    /\ Linker.create_link urlopen repr self source target name comment s4
       = (Ret tt, s',
          [Sent (send (Linker.base_url self ++ "/issueLink") POST
                   (Some (Linker.create_link_data source target name comment)))])
    /\ t = ((t_find ++ t_source ++ t_target
             ++ Stdout (nl ++ "Source: " ++ source ++ ": " ++ str repr source_summary)
             :: Stdout ("Target: " ++ target ++ ": " ++ str repr target_summary)
             :: Stdout (nl ++ "Link Type: " ++ str repr name)
             :: Stdout ("  " ++ source ++ " " ++ str repr outward ++ " " ++ target)
             :: Stdout ("  " ++ target ++ " " ++ str repr inward ++ " " ++ source)
             :: t_comment)
            ++ [Sent (send (Linker.base_url self ++ "/issueLink") POST
                        (Some (Linker.create_link_data source target name comment)));
                Stdout (nl ++ "Link created successfully!")])%list.
Proof.
  intros H. apply try_exit_returned in H.
  apply bind_returned in H as (link_type & s1 & t1 & r1 & Hfind & H & ->).
  apply bind_returned in H as (? & ? & t2 & r2 & Hknown & H & ->).
  destruct (truthy link_type) eqn:Htruthy; cbn [negb] in Hknown.
  2: { exfalso.
       apply bind_returned in Hknown as (? & ? & ? & ? & _ & Hknown & _).
       apply bind_returned in Hknown as (? & ? & ? & ? & _ & Hknown & _).
       discriminate. }
  injection Hknown as <- <- <-.
  apply bind_returned in H as (source_ticket & s2 & t3 & r3 & Hsrc & H & ->).
  apply bind_returned in H as (target_ticket & s3 & t4 & r4 & Htgt & H & ->).
  peel_lift H source_summary Hss.
  peel_lift H target_summary Hts.
  do 2 peel_print H.
  peel_lift H shown_name Hshown.
  peel_print H.
  peel_lift H outward Hout.
  peel_print H.
  peel_lift H inward Hin.
  peel_print H.
  apply bind_returned in H as (? & s4 & t5 & r15 & Hcomment & H & ->).
  assert (Hquiet : requests t5 = []).
  { destruct comment as [c|]; [destruct (given (Some c))|];
      injection Hcomment as _ _ <-; reflexivity. }
  peel_lift H name Hname.
  apply bind_returned in H as (u & s5 & t6 & r17 & Hpost & H & ->).
  apply print_returned in H as (-> & ->). destruct u.
  pose proof (create_link_exact source target name comment s4) as Hsent.
  rewrite Hpost in Hsent. cbn [trace snd] in Hsent. subst t6.
  assert (shown_name = name) as -> by congruence.
  exists link_type, s1, t1, source_ticket, s2, t3, target_ticket, s3, t4,
    source_summary, target_summary, name, outward, inward, t5, s4.
  repeat (split; [assumption|]).
  cbn [app]. rewrite <- ?app_assoc. cbn [app]. rewrite <- ?app_assoc.
  cbn [app]. reflexivity.
Qed.

(** X23. When a link creation that is not a dry run returns, the type was resolved
    to a catalog entry, the four requests were sent in order (catalog, source,
    target, POST of the link with the entry's name), and the line saying that
    the link was created comes directly after the POST, last of all. *)
Theorem created_line_follows_post source target type_name comment (s s' : St)
  (t : list event) :
  Linker.execute_link urlopen repr self source target type_name comment false s
  = (Ret tt, s', t) ->
  exists before link_type name,
    result (Linker.find_link_type urlopen repr self type_name s) = Ret link_type
    /\ truthy link_type = true
    /\ getitem link_type "name" = Ret name
    /\ t = (before
            ++ [Sent (send (Linker.base_url self ++ "/issueLink") POST
                        (Some (Linker.create_link_data source target name comment)));
                Stdout (nl ++ "Link created successfully!")])%list
    /\ requests before
       = [send (Linker.base_url self ++ "/issueLinkType") GET None;
          send (ticket_url source) GET None;
          send (ticket_url target) GET None].
Proof.
  intros H.
  destruct (execute_link_returned source target type_name comment s s' t H)
    as (link_type & s1 & t_find & source_ticket & s2 & t_source & target_ticket
        & s3 & t_target & source_summary & target_summary & name & outward
        & inward & t_comment & s4 & Hfind & Htruthy & Hsrc & Htgt & Hname & _ & _
        & Hquiet & _ & ->).
  pose proof (find_link_type_sent urlopen repr self type_name s) as Hq1.
  rewrite Hfind in Hq1. cbn [trace snd] in Hq1.
  pose proof (linker_get_ticket_sent urlopen repr self source s1) as Hq2.
  rewrite Hsrc in Hq2. cbn [trace snd] in Hq2.
  pose proof (linker_get_ticket_sent urlopen repr self target s2) as Hq3.
  rewrite Htgt in Hq3. cbn [trace snd] in Hq3.
  eexists _, link_type, name.
  split; [now rewrite Hfind|]. split; [exact Htruthy|]. split; [exact Hname|].
  split; [reflexivity|].
  rewrite !requests_app, Hq1, Hq2, Hq3.
  cbn [app]. rewrite !requests_stdout, Hquiet. reflexivity.
Qed.

Local Abbreviation direction_line l label :=
  (nl ++ "  [" ++ link_id l ++ "] " ++ label ++ ":").
Local Abbreviation peer_line key peer := ("    " ++ key ++ ": " ++ peer_summary peer).
Local Abbreviation status_line peer := ("    Status: " ++ peer_status peer).

(** C1. Take a link type whose two labels differ, and a creation of a link of
    that type that returned.  It has shown the sentence source, outward
    label, target and then sent one mutating request, the POST of the link,
    with the target in the outward-issue slot and the source in the
    inward-issue slot.  When the source's links are listed right after, in the
    state the creation left, and the fetched link points outward at the ticket
    of that slot of the POST, its row shows the outward label with the
    target as the peer: not the inward label, and not the source. *)
Theorem round_trip_directionality (lt : LinkType) (catalog : list LinkType)
  (source target type_name : string) (comment : option string)
  (s s1 : St) (t1 : list event) :
  lt_outward lt <> lt_inward lt ->
  result (Linker.get_link_types urlopen repr self s)
  = Ret (JArr (map link_type_json catalog)) ->
  resolve_link_type catalog type_name = Some lt ->
  Linker.execute_link urlopen repr self source target type_name comment false s
  = (Ret tt, s1, t1) ->
  exists before post payload,
    t1 = (before ++ [Sent post; Stdout (nl ++ "Link created successfully!")])%list
    /\ meth post = POST
    /\ IO.url post = Linker.base_url self ++ "/issueLink"
    /\ IO.data post = Some payload
    /\ Linker.slot_key payload "outwardIssue" = Ret (JStr target)
    /\ Linker.slot_key payload "inwardIssue" = Ret (JStr source)
    /\ (ty <~ getitem payload "type" ;; getitem ty "name") = Ret (JStr (lt_name lt))
    /\ In (Stdout ("  " ++ source ++ " " ++ lt_outward lt ++ " " ++ target)) before
    /\ mutations before = []
    /\ forall (l : IssueLink) (peer : Peer) links_before links_after ticket summary,
        link_type l = lt ->
        link_end l = Outward peer ->
        Linker.slot_key payload "outwardIssue" = Ret (JStr (peer_key peer)) ->
        result (Linker.get_ticket urlopen repr self source s1) = Ret ticket ->
        (f <~ getitem ticket "fields" ;; getitem f "summary") = Ret summary ->
        (f <~ getitem ticket "fields" ;; get f "issuelinks" (JArr []))
        = Ret (JArr (map issue_link_json (links_before ++ l :: links_after))) ->
        (exists earlier later,
            stdout (trace (Linker.list_issue_links urlopen repr self source s1))
            = (earlier
               ++ [direction_line l (lt_outward lt);
                   peer_line target peer;
                   status_line peer]
               ++ later)%list)
        /\ Linker.list_direction (issue_link_json l)
           = Ret (JStr (lt_outward lt), peer_json peer)
        /\ peer_key peer = target
        /\ Linker.list_direction (issue_link_json l)
           <> Ret (JStr (lt_inward lt), peer_json peer)
        /\ (source <> target -> peer_key peer <> source).
Proof.
  intros Hlabels Hcat Hres H.
  destruct (execute_link_returned source target type_name comment s s1 t1 H)
    as (link_type & s0 & t_find & source_ticket & s2 & t_source & target_ticket
        & s3 & t_target & source_summary & target_summary & name & outward
        & inward & t_comment & s4 & Hfind & Htruthy & Hsrc & Htgt & Hname & Hout
        & Hin & Hquiet & Hpost & ->).
  pose proof (find_link_type_result urlopen repr self catalog type_name s Hcat)
    as Hfound.
  rewrite Hfind, Hres in Hfound. cbn [result fst] in Hfound.
  injection Hfound as ->.
  cbn in Hname, Hout. injection Hname as <-. injection Hout as <-.
  destruct (create_link_data_slots source target (JStr (lt_name lt)) comment)
    as (Hinward & Hslot & Htype).
  pose proof (find_link_type_sent urlopen repr self type_name s) as Hq1.
  rewrite Hfind in Hq1. cbn [trace snd] in Hq1.
  pose proof (linker_get_ticket_sent urlopen repr self source s0) as Hq2.
  rewrite Hsrc in Hq2. cbn [trace snd] in Hq2.
  pose proof (linker_get_ticket_sent urlopen repr self target s2) as Hq3.
  rewrite Htgt in Hq3. cbn [trace snd] in Hq3.
  assert (Hdata : IO.data (send (Linker.base_url self ++ "/issueLink") POST
                             (Some (Linker.create_link_data source target
                                      (JStr (lt_name lt)) comment)))
                  = Some (Linker.create_link_data source target
                            (JStr (lt_name lt)) comment)).
  { unfold Linker.build_request, Linker.create_link_data. cbn [IO.data if_data].
    destruct comment as [c|]; [destruct (given (Some c))|]; reflexivity. }
  eexists _, _, (Linker.create_link_data source target (JStr (lt_name lt)) comment).
  split; [reflexivity|].
  split; [reflexivity|]. split; [reflexivity|]. split; [exact Hdata|].
  split; [exact Hslot|]. split; [exact Hinward|]. split; [exact Htype|].
  split; [|split].
  - apply in_or_app. right. apply in_or_app. right. apply in_or_app. right.
    right. right. right. left. reflexivity.
  - apply mutations_of_reads.
    rewrite !requests_app, Hq1, Hq2, Hq3.
    cbn [app]. rewrite !requests_stdout, Hquiet. reflexivity.
  - intros l peer links_before links_after ticket summary
      Hty Hend Hwire Hticket Hsum Hlinks.
    assert (Hkey : peer_key peer = target).
    { rewrite Hslot in Hwire. now injection Hwire as <-. }
    assert (Hpath : read_path l = (lt_outward lt, peer)).
    { unfold read_path. now rewrite Hend, Hty. }
    split; [|split; [|split; [exact Hkey|split]]].
    + rewrite (list_issue_links_stdout urlopen repr self source ticket summary
                 (links_before ++ l :: links_after) s1 Hticket Hsum Hlinks)
        by (now destruct links_before).
      rewrite flat_map_app. cbn [flat_map]. rewrite Hpath. cbn [fst snd].
      rewrite Hkey.
      eexists (_ :: _ :: _ :: flat_map _ links_before).
      eexists (flat_map _ links_after).
      reflexivity.
    + rewrite list_direction_read_path, Hpath. reflexivity.
    + rewrite list_direction_read_path, Hpath. cbn [fst snd].
      intros E. injection E as E. now apply Hlabels.
    + intros Hne. now rewrite Hkey.
Qed.

End LinkCreated.

(** PROJ-1 blocks PROJ-2 is created on the sample server, whose next reply is
    the ticket PROJ-1 with the new link: the listing shows "blocks" with
    PROJ-2. *)
Lemma round_trip_directionality_witness :
  exists before post payload,
    IO.trace (Linker.execute_link Script.urlopen Script.repr Samples.linker
                "PROJ-1" "PROJ-2" "blocks" None false
                (Samples.create_replies ++ [Script.ok Samples.linked_login_bug])%list)
    = (before ++ [IO.Sent post;
                  IO.Stdout (String.append IO.nl "Link created successfully!")])%list
    /\ IO.meth post = IO.POST
    /\ IO.data post = Some payload
    /\ Linker.slot_key payload "outwardIssue" = Py.Ret (Py.JStr "PROJ-2")
    /\ (exists earlier later,
           IO.stdout (IO.trace (Linker.list_issue_links Script.urlopen Script.repr
                                  Samples.linker "PROJ-1"
                                  [Script.ok Samples.linked_login_bug]))
           = (earlier
              ++ [String.append IO.nl "  [10001] blocks:";
                  "    PROJ-2: Session expires early";
                  "    Status: In Progress"]
              ++ later)%list)
    /\ Linker.list_direction (Model.issue_link_json Samples.blocks_session)
       <> Py.Ret (Py.JStr "is blocked by", Model.peer_json Samples.session_peer).
Proof.
  assert (Hlabels : Model.lt_outward Samples.blocks <> Model.lt_inward Samples.blocks)
    by discriminate.
  destruct (round_trip_directionality Script.urlopen Script.repr Samples.linker
              Samples.blocks [Samples.blocks; Samples.relates]
              "PROJ-1" "PROJ-2" "blocks" None
              (Samples.create_replies ++ [Script.ok Samples.linked_login_bug])%list
              [Script.ok Samples.linked_login_bug] _
              Hlabels eq_refl eq_refl eq_refl)
    as (before & post & payload & Ht & Hm & _ & Hd & Hslot & _ & _ & _ & _ & Hlist).
  exists before, post, payload.
  split; [exact Ht|]. split; [exact Hm|]. split; [exact Hd|].
  split; [exact Hslot|].
  destruct (Hlist Samples.blocks_session Samples.session_peer []
              [Samples.blocked_by_audit] Samples.linked_login_bug
              (Py.JStr "Login fails") eq_refl eq_refl Hslot eq_refl eq_refl eq_refl)
    as (Hrow & _ & _ & Hnot & _).
  split; assumption.
Defined.


(** With [--list-types] and every other argument given as well, [--remove]
    among them, the link tool sends the one GET of the catalog. *)
Lemma listing_flags_never_mutate_witness :
  filter IO.mutating
    (Cli.sent (snd (Cli.link_main Script.urlopen Script.repr (fun text => text)
                      (fun _ _ =>
                         Cli.Parsed (Cli.mkLinkArgs (Some "PROJ-1") (Some "PROJ-2")
                                       (Some "Blocks") true true (Some "10001") None
                                       false "example.atlassian.net"))
                      None (Some "ada@example.com") (Some "token")
                      ["PROJ-1"; "PROJ-2"; "Blocks"; "--list-types"; "--list";
                       "--remove"; "10001"]
                      [Script.ok (Samples.catalog_json [Samples.blocks])])))
  = [].
Proof.
  exact (proj1 (listing_flags_never_mutate
                  Script.urlopen Script.repr (fun text => text)
                  (fun _ _ =>
                     Cli.Parsed (Cli.mkLinkArgs (Some "PROJ-1") (Some "PROJ-2")
                                   (Some "Blocks") true true (Some "10001") None
                                   false "example.atlassian.net"))
                  (fun _ _ => Cli.Rejected)
                  (fun _ _ => Cli.HelpShown)
                  Samples.no_dates Script.repr (fun text => text) Py.str_of_Z
                  None (Some "ada@example.com") (Some "token")
                  ["PROJ-1"; "PROJ-2"; "Blocks"; "--list-types"; "--list";
                   "--remove"; "10001"]
                  [Script.ok (Samples.catalog_json [Samples.blocks])])
           (Some "PROJ-1") (Some "PROJ-2") (Some "Blocks") true (Some "10001") None
           false "example.atlassian.net" eq_refl).
Defined.

Lemma list_transitions_numbers_catalog_witness :
  IO.stdout (IO.trace (Transitioner.list_transitions Script.urlopen Script.repr
                         Samples.transitioner "PROJ-1"
                         [Script.ok Samples.login_bug;
                          Script.ok (Samples.transitions_json
                                       [Samples.start_progress; Samples.done])]))
  = [IO.nl ++ "📋 PROJ-1: Login fails";
     "Current Status: Open";
     IO.nl ++ "Available Transitions:";
     "  1. Start Progress → In Progress";
     "  2. Done → Closed"].
Proof.
  apply (list_transitions_numbers_catalog Script.urlopen Script.repr
           Samples.transitioner "PROJ-1" Samples.login_bug
           (Py.JStr "Open") (Py.JStr "Login fails")
           [Samples.start_progress; Samples.done]
           [Script.ok Samples.login_bug;
            Script.ok (Samples.transitions_json
                         [Samples.start_progress; Samples.done])]
           eq_refl eq_refl eq_refl eq_refl).
Defined.

(** The transition to Done is gone when the catalog is fetched again: the
    preview names no destination. *)
Lemma preview_reads_second_catalog_witness :
  IO.stdout (IO.trace (Transitioner.execute_transition Script.urlopen Script.repr
                         Samples.transitioner "PROJ-1" "Done" true
                         [Script.ok Samples.login_bug;
                          Script.ok (Samples.transitions_json
                                       [Samples.start_progress; Samples.done]);
                          Script.ok (Samples.transitions_json
                                       [Samples.start_progress])]))
  = [IO.nl ++ "📋 PROJ-1: Login fails";
     "Current Status: Open";
     IO.nl ++ "🔍 Dry run: Would transition to 'None'";
     "   Using transition: Done (ID: 31)"].
Proof.
  apply (preview_reads_second_catalog Script.urlopen Script.repr
           Samples.transitioner "PROJ-1" "Done" Samples.login_bug
           (Py.JStr "Open") (Py.JStr "Login fails")
           [Samples.start_progress; Samples.done] [Samples.start_progress]
           Samples.done
           [Script.ok Samples.login_bug;
            Script.ok (Samples.transitions_json
                         [Samples.start_progress; Samples.done]);
            Script.ok (Samples.transitions_json [Samples.start_progress])]
           eq_refl eq_refl eq_refl eq_refl eq_refl eq_refl).
Defined.

Lemma created_line_follows_post_witness :
  exists before link_type name,
    IO.result (Linker.find_link_type Script.urlopen Script.repr Samples.linker
                 "blocks" Samples.create_replies) = Py.Ret link_type
    /\ Py.truthy link_type = true
    /\ Py.getitem link_type "name" = Py.Ret name
    /\ IO.trace (Linker.execute_link Script.urlopen Script.repr Samples.linker
                   "PROJ-1" "PROJ-2" "blocks" None false Samples.create_replies)
       = (before
          ++ [IO.Sent (Linker.build_request Samples.linker
                         (Linker.base_url Samples.linker ++ "/issueLink") IO.POST
                         (Some (Linker.create_link_data "PROJ-1" "PROJ-2" name None)));
              IO.Stdout (IO.nl ++ "Link created successfully!")])%list
    /\ IO.requests before
       = [Linker.build_request Samples.linker
            (Linker.base_url Samples.linker ++ "/issueLinkType") IO.GET None;
          Linker.build_request Samples.linker
            (Linker.base_url Samples.linker ++ "/issue/" ++ "PROJ-1"
             ++ "?fields=summary,status,issuelinks") IO.GET None;
          Linker.build_request Samples.linker
            (Linker.base_url Samples.linker ++ "/issue/" ++ "PROJ-2"
             ++ "?fields=summary,status,issuelinks") IO.GET None].
Proof.
  apply (created_line_follows_post Script.urlopen Script.repr Samples.linker
           "PROJ-1" "PROJ-2" "blocks" None Samples.create_replies []).
  reflexivity.
Defined.

(** ** Listing the link types *)

Section TypeListing.
Import Py IO Model.
Context {St : Type}.
Variable urlopen : St -> request -> St * reply.
Variable repr : json -> string.
Variable self : Linker.JiraLinker.

Local Abbreviation type_lines lt :=
  [nl ++ "  " ++ lt_name lt ++ " (ID: " ++ lt_id lt ++ ")";
   "    Outward: " ++ dq ++ lt_outward lt ++ dq;
   "    Inward:  " ++ dq ++ lt_inward lt ++ dq].

Local Abbreviation usage_lines :=
  [nl ++ times "=" 60;
   "Usage: link_ticket.py SOURCE TARGET " ++ dq ++ "Link Type Name" ++ dq;
   "Example: link_ticket.py PROJ-123 PROJ-456 " ++ dq ++ "Blocks" ++ dq;
   "         (PROJ-123 blocks PROJ-456)"].

Local Abbreviation listing catalog :=
  (flat_map (fun lt => type_lines lt) catalog ++ usage_lines)%list.

Lemma list_link_types_one_get (s : St) :
  requests (trace (Linker.list_link_types urlopen repr self s))
  = [Linker.build_request self (Linker.base_url self ++ "/issueLinkType") GET None].
Proof.
  unfold Linker.list_link_types.
  rewrite requests_try_exit, trace_bind, requests_app, get_link_types_sent.
  cbn [app]. f_equal.
  destruct (Linker.get_link_types urlopen repr self s) as [[[types|e|c] s1] t1];
    [|reflexivity..].
  unfold Linker.list_link_types_row. silent_tac.
Qed.

(** X24. The listing of the link types shows the whole fetched catalog in
    catalog order, three lines an entry (name and id, outward label, inward
    label), then the usage lines; an empty catalog gets the one line saying
    so.  One GET is sent. *)
Theorem list_link_types_shows_whole_catalog (catalog : list LinkType) (s : St) :
  result (Linker.get_link_types urlopen repr self s)
  = Ret (JArr (map link_type_json catalog)) ->
  let run := Linker.list_link_types urlopen repr self s in
  result run = Ret tt
  /\ stdout (trace run)
     = (nl ++ "Available Link Types:")
       :: times "=" 60
       :: match catalog with
          | [] => ["  (No link types available)"]
          | _ => listing catalog
          end
  /\ requests (trace run)
     = [Linker.build_request self (Linker.base_url self ++ "/issueLinkType") GET None].
Proof.
  intros Hcat run. subst run.
  split; [|split; [|apply list_link_types_one_get]].
  - destruct catalog as [|lt0 catalog0].
    + unfold Linker.list_link_types. erewrite run_try_ret; [reflexivity|].
      eapply step_bind.
      { rewrite (run_eta (Linker.get_link_types _ _ _ s)), Hcat. reflexivity. }
      do 2 eapply step_print. reflexivity.
    + unfold Linker.list_link_types. erewrite run_try_ret; [reflexivity|].
      eapply step_bind.
      { rewrite (run_eta (Linker.get_link_types _ _ _ s)), Hcat. reflexivity. }
      do 2 eapply step_print.
      cbn [truthy map negb].
      eapply step_lift; [reflexivity|].
      eapply step_bind; [apply (list_link_types_rows_run repr (lt0 :: catalog0))|].
      reflexivity.
  - destruct (get_link_types_stdout urlopen repr self s) as [Hout _].
    destruct catalog as [|lt0 catalog0].
    + unfold Linker.list_link_types. erewrite run_try_ret.
      2: { eapply step_bind.
           { rewrite (run_eta (Linker.get_link_types _ _ _ s)), Hcat. reflexivity. }
           do 2 eapply step_print. reflexivity. }
      cbn [trace snd]. rewrite stdout_app, Hout. reflexivity.
    + unfold Linker.list_link_types. erewrite run_try_ret.
      2: { eapply step_bind.
           { rewrite (run_eta (Linker.get_link_types _ _ _ s)), Hcat. reflexivity. }
           do 2 eapply step_print.
           cbn [truthy map negb].
           eapply step_lift; [reflexivity|].
           eapply step_bind; [apply (list_link_types_rows_run repr (lt0 :: catalog0))|].
           reflexivity. }
      cbn [trace snd]. rewrite stdout_app, Hout. cbn [app].
      rewrite !stdout_stdout, stdout_app.
      rewrite (stdout_of_blocks (fun lt => type_lines lt)).
      reflexivity.
Qed.

End TypeListing.

Lemma list_link_types_shows_whole_catalog_witness :
  IO.stdout (IO.trace (Linker.list_link_types Script.urlopen Script.repr Samples.linker
                         [Script.ok (Samples.catalog_json [Samples.relates])]))
  = [IO.nl ++ "Available Link Types:";
     IO.times "=" 60;
     IO.nl ++ "  Relates (ID: 10003)";
     "    Outward: " ++ IO.dq ++ "relates to" ++ IO.dq;
     "    Inward:  " ++ IO.dq ++ "relates to" ++ IO.dq;
     IO.nl ++ IO.times "=" 60;
     "Usage: link_ticket.py SOURCE TARGET " ++ IO.dq ++ "Link Type Name" ++ IO.dq;
     "Example: link_ticket.py PROJ-123 PROJ-456 " ++ IO.dq ++ "Blocks" ++ IO.dq;
     "         (PROJ-123 blocks PROJ-456)"].
Proof.
  apply (list_link_types_shows_whole_catalog Script.urlopen Script.repr Samples.linker
           [Samples.relates]
           [Script.ok (Samples.catalog_json [Samples.relates])] eq_refl).
Defined.
